(** * catfishAntigravity2API: the OpenAI-to-Antigravity translator and relay

    A shallow embedding of [src/utils/utils.js] (the request translator) and
    of the Express server that drives it (auth middleware and the
    [POST /v1/chat/completions] handler), with the properties the
    specification states about them.

    Conventions of the embedding.
    - A JavaScript string is a [string]: a sequence of code units, each an
      [ascii] (the model covers text whose code units are below 256).
    - [undefined]/[null] fields are [option]s; JavaScript truthiness of such
      a field is written out ([truthy]).
    - A JavaScript exception is the [Throw] case of [Result].
    - Objects mutated in place live in a store ([gmap loc obj]); the tools'
      [parameters] objects are referenced by location.
    - [JSON.stringify] is not modelled: what is written to the socket is kept
      as the structured value that is serialised. *)

From Stdlib Require Import ZArith QArith_base Ascii String List Bool Lia DecimalString.
From stdpp Require Import base option list gmap strings.

Import ListNotations.
Local Open Scope Z_scope.

(* stdpp never unfolds string concatenation; here it computes as soon as its
   first argument starts with a constructor. *)
#[local] Arguments String.append !s1 s2.

(** ** JavaScript strings *)

Module JS.

(** [s.startsWith(p)] *)
Definition startsWith (s p : string) : bool := String.prefix p s.

(** [s.includes(needle)] *)
Fixpoint includes (s needle : string) : bool :=
  String.prefix needle s ||
  match s with
  | EmptyString => false
  | String _ s' => includes s' needle
  end.

(** [s.slice(n)] for [0 <= n] *)
Fixpoint slice (n : nat) (s : string) : string :=
  match n, s with
  | O, _ => s
  | S n', String _ s' => slice n' s'
  | S _, EmptyString => EmptyString
  end.

(** [s.endsWith(suffix)] *)
Definition endsWith (s suffix : string) : bool :=
  (String.length suffix <=? String.length s)%nat &&
  String.eqb (slice (String.length s - String.length suffix) s) suffix.

(** White space and line terminators removed by [trim], among the code
    units below 256: TAB, LF, VT, FF, CR, SP, NBSP. *)
Definition isWhiteSpace (c : ascii) : bool :=
  match nat_of_ascii c with
  | 9 | 10 | 11 | 12 | 13 | 32 | 160 => true
  | _ => false
  end%nat.

(** [s.trim() !== ''] : some code unit of [s] is not white space. *)
Fixpoint trimNonEmpty (s : string) : bool :=
  match s with
  | EmptyString => false
  | String c s' => negb (isWhiteSpace c) || trimNonEmpty s'
  end.

(** [arr.join(sep)] on an array of strings *)
Fixpoint join (sep : string) (l : list string) : string :=
  match l with
  | [] => EmptyString
  | [x] => x
  | x :: rest => x +:+ sep +:+ join sep rest
  end.

(** Truthiness of a possibly-undefined string. *)
Definition truthy (v : option string) : bool :=
  match v with
  | Some (String _ _) => true
  | _ => false
  end.

(** [a === b] on possibly-undefined strings *)
Definition strictEq (a b : option string) : bool :=
  match a, b with
  | Some x, Some y => String.eqb x y
  | None, None => true
  | _, _ => false
  end.

(** An [Error] object: its message and, when the thrower set one, a
    numeric [status]. *)
Record Error := mkError { message : string; status : option Z }.

Definition TypeError (msg : string) : Error :=
  {| message := msg; status := None |}.

Inductive Result (A : Type) : Type :=
| Ok (a : A)
| Throw (e : Error).
Arguments Ok {A} a.
Arguments Throw {A} e.

Definition bind {A B} (r : Result A) (k : A -> Result B) : Result B :=
  match r with
  | Ok a => k a
  | Throw e => Throw e
  end.

End JS.

Import JS.

Notation "'let!' x ':=' r 'in' k" := (JS.bind r (fun x => k))
  (at level 10, x pattern, r at level 100, k at level 200).

Definition LF : string := String (ascii_of_nat 10) EmptyString.

(** ** The translator, [src/utils/utils.js] *)

Module Utils.

(** *** Client messages *)

Inductive ContentItem : Type :=
| ItemText (text : string)                (* {type:'text', text} *)
| ItemImageUrl (url : option string)      (* {type:'image_url', image_url:{url}} *)
| ItemOther (type : string).              (* any other type *)

Inductive Content : Type :=
| CNull
| CStr (s : string)
| CArr (items : list ContentItem).

Record ToolCallFunction := { fn_name : string; fn_arguments : string }.
Record ToolCall := { tc_id : string; tc_function : ToolCallFunction }.

Record Message := {
  role : string;
  content : Content;
  tool_calls : option (list ToolCall);
  tool_call_id : option string;
  name : option string
}.

(** *** Upstream turns *)

Inductive ResponsePayload : Type :=
| RespOutput (v : Content)      (* {output: v}, built by handleToolCall *)
| RespContent (v : Content).    (* {content: v}, built by the tool branch *)

Inductive Part : Type :=
| PText (text : string)
| PInlineData (mimeType data : string)
| PFunctionCall (id : option string) (fname : string)
| PFunctionResponse (id : option string) (fname : string) (response : ResponsePayload).

Record Turn := { turn_role : string; parts : list Part }.

(** *** extractImagesFromContent *)

Definition isWordChar (c : ascii) : bool :=
  let n := nat_of_ascii c in
  ((48 <=? n) && (n <=? 57) || (65 <=? n) && (n <=? 90) ||
   (97 <=? n) && (n <=? 122) || (n =? 95))%nat.

(** [.] of a regular expression: any code unit but LF and CR. *)
Definition isDotChar (c : ascii) : bool :=
  let n := nat_of_ascii c in negb ((n =? 10) || (n =? 13))%nat.

Fixpoint spanWord (s : string) : string * string :=
  match s with
  | String c s' =>
      if isWordChar c then let '(w, r) := spanWord s' in (String c w, r)
      else (EmptyString, s)
  | EmptyString => (EmptyString, EmptyString)
  end.

Fixpoint allDot (s : string) : bool :=
  match s with
  | EmptyString => true
  | String c s' => isDotChar c && allDot s'
  end.

(** [imageUrl.match(/^data:image\/(\w+);base64,(.+)$/)]: the two groups.
    A word character is never [;], so the greedy [\w+] has one way to
    match. *)
Definition matchDataUri (imageUrl : string) : option (string * string) :=
  if startsWith imageUrl "data:image/" then
    let '(format, rest) := spanWord (slice 11 imageUrl) in
    match format with
    | EmptyString => None
    | _ =>
        if startsWith rest ";base64," then
          let base64Data := slice 8 rest in
          match base64Data with
          | EmptyString => None
          | _ => if allDot base64Data then Some (format, base64Data) else None
          end
        else None
    end
  else None.

Record Extracted := { ex_text : string; ex_images : list Part }.

Definition extractItem (result : Extracted) (item : ContentItem) : Extracted :=
  match item with
  | ItemText t => {| ex_text := ex_text result +:+ t; ex_images := ex_images result |}
  | ItemImageUrl url =>
      let imageUrl := match url with Some u => u | None => EmptyString end in
      match matchDataUri imageUrl with
      | Some (format, base64Data) =>
          {| ex_text := ex_text result;
             ex_images := ex_images result ++ [PInlineData ("image/" +:+ format) base64Data] |}
      | None => result
      end
  | ItemOther _ => result
  end.

Definition extractImagesFromContent (c : Content) : Extracted :=
  let result := {| ex_text := EmptyString; ex_images := [] |} in
  match c with
  | CStr s => {| ex_text := s; ex_images := [] |}
  | CArr items => fold_left extractItem items result
  | CNull => result
  end.

(** *** handleUserMessage *)

Definition handleUserMessage (extracted : Extracted) (antigravityMessages : list Turn)
  : list Turn :=
  antigravityMessages ++
    [{| turn_role := "user"; parts := PText (ex_text extracted) :: ex_images extracted |}].

(** *** handleAssistantMessage *)

Definition toolNote (tc : ToolCall) : string :=
  "[System Note: Model requested tool '" +:+ fn_name (tc_function tc) +:+
  "' with args: " +:+ fn_arguments (tc_function tc) +:+ "]".

(** The local variable [content]: a string, or the array the client sent. *)
Inductive StrOrArr : Type :=
| VStr (s : string)
| VArr (items : list ContentItem).

(** [String(v)]: an array prints its elements separated by commas, and
    every element here is an object. *)
Definition toString (v : StrOrArr) : string :=
  match v with
  | VStr s => s
  | VArr items => join "," (map (fun _ => "[object Object]") items)
  end.

Definition isTruthy (v : StrOrArr) : bool :=
  match v with
  | VStr EmptyString => false
  | _ => true
  end.

(** [message.content || ''] *)
Definition contentOrEmpty (c : Content) : StrOrArr :=
  match c with
  | CNull => VStr EmptyString
  | CStr s => VStr s
  | CArr items => VArr items
  end.

Definition handleAssistantMessage (message : Message) (antigravityMessages : list Turn)
  : Result (list Turn) :=
  let hasToolCalls :=
    match tool_calls message with
    | Some (_ :: _) => true
    | _ => false
    end in
  let content := contentOrEmpty (content message) in
  let content :=
    if hasToolCalls then
      let toolDescriptions :=
        join LF (map toolNote (default [] (tool_calls message))) in
      let content := if isTruthy content then VStr (toString content +:+ LF) else content in
      VStr (toString content +:+ toolDescriptions)
    else content in
  let! parts :=
    (if isTruthy content then
       match content with
       | VStr s => Ok (if trimNonEmpty s then [PText s] else [PText "..."])
       | VArr _ => Throw (TypeError "content.trim is not a function")
       end
     else Ok [PText "..."]) in
  Ok (antigravityMessages ++ [{| turn_role := "model"; parts := parts |}]).

(** *** handleToolCall (the merge path; not called by the translator) *)

Definition isFunctionResponse (p : Part) : bool :=
  match p with PFunctionResponse _ _ _ => true | _ => false end.

(** The inner [for (const part of parts)] loop: the first function call
    with the wanted id sets [functionName] and leaves the loop. *)
Fixpoint scanParts (ps : list Part) (id : option string) (functionName : option string)
  : option string :=
  match ps with
  | [] => functionName
  | PFunctionCall cid cname :: rest =>
      if strictEq cid id then Some cname else scanParts rest id functionName
  | _ :: rest => scanParts rest id functionName
  end.

(** The outer loop of [handleToolCall], over the turns from the last to
    the first: the test [if (functionName) break] is inside the
    [role === 'model'] branch. *)
Fixpoint scanTurnsMerge (revTurns : list Turn) (id : option string)
    (functionName : option string) : option string :=
  match revTurns with
  | [] => functionName
  | t :: older =>
      if String.eqb (turn_role t) "model" then
        let functionName := scanParts (parts t) id functionName in
        if truthy functionName then functionName
        else scanTurnsMerge older id functionName
      else scanTurnsMerge older id functionName
  end.

Definition handleToolCall (message : Message) (antigravityMessages : list Turn)
  : list Turn :=
  let functionName :=
    scanTurnsMerge (rev antigravityMessages) (tool_call_id message) (Some EmptyString) in
  let functionResponse :=
    PFunctionResponse (tool_call_id message) (default EmptyString functionName)
      (RespOutput (content message)) in
  match rev antigravityMessages with
  | lastMessage :: before =>
      if String.eqb (turn_role lastMessage) "user" &&
         existsb isFunctionResponse (parts lastMessage)
      then rev before ++
           [{| turn_role := turn_role lastMessage;
               parts := parts lastMessage ++ [functionResponse] |}]
      else antigravityMessages ++ [{| turn_role := "user"; parts := [functionResponse] |}]
  | [] => antigravityMessages ++ [{| turn_role := "user"; parts := [functionResponse] |}]
  end.

(** *** openaiMessageToAntigravity *)

(** The outer loop of the tool branch: [if (functionName) break] follows
    the [role === 'model'] test, for every turn. *)
Fixpoint scanTurns (revTurns : list Turn) (id : option string)
    (functionName : option string) : option string :=
  match revTurns with
  | [] => functionName
  | t :: older =>
      let functionName :=
        if String.eqb (turn_role t) "model"
        then scanParts (parts t) id functionName
        else functionName in
      if truthy functionName then functionName
      else scanTurns older id functionName
  end.

(** [let functionName = message.name; if (!functionName) { ...scan... }] *)
Definition resolveFunctionName (message : Message) (antigravityMessages : list Turn)
  : option string :=
  let functionName := name message in
  if negb (truthy functionName)
  then scanTurns (rev antigravityMessages) (tool_call_id message) functionName
  else functionName.

(** [functionName || "unknown_tool"] *)
Definition orUnknownTool (functionName : option string) : string :=
  match functionName with
  | Some (String c s) => String c s
  | _ => "unknown_tool"
  end.

Definition fakeUserToolMessage (message : Message) (antigravityMessages : list Turn)
  : Turn :=
  {| turn_role := "user";
     parts := [PFunctionResponse None
                 (orUnknownTool (resolveFunctionName message antigravityMessages))
                 (RespContent (content message))] |}.

(** One iteration of [for (const message of openaiMessages)]. *)
Definition translateMessage (antigravityMessages : list Turn) (message : Message)
  : Result (list Turn) :=
  if String.eqb (role message) "user" then
    let extracted := extractImagesFromContent (content message) in
    Ok (handleUserMessage extracted antigravityMessages)
  else if String.eqb (role message) "assistant" then
    handleAssistantMessage message antigravityMessages
  else if String.eqb (role message) "tool" then
    Ok (antigravityMessages ++ [fakeUserToolMessage message antigravityMessages])
  else Ok antigravityMessages.

Fixpoint translateFrom (antigravityMessages : list Turn) (openaiMessages : list Message)
  : Result (list Turn) :=
  match openaiMessages with
  | [] => Ok antigravityMessages
  | message :: rest =>
      let! antigravityMessages := translateMessage antigravityMessages message in
      translateFrom antigravityMessages rest
  end.

Definition openaiMessageToAntigravity (openaiMessages : list Message) : Result (list Turn) :=
  translateFrom [] openaiMessages.

(** *** modelMapping, isEnableThinking *)

Definition modelMapping (modelName : string) : string :=
  if String.eqb modelName "claude-sonnet-4-5-thinking" then "claude-sonnet-4-5"
  else if String.eqb modelName "claude-opus-4-5" then "claude-opus-4-5-thinking"
  else if String.eqb modelName "gemini-2.5-flash-thinking" then "gemini-2.5-flash"
  else modelName.

Definition isEnableThinking (modelName : string) : bool :=
  endsWith modelName "-thinking" ||
  String.eqb modelName "gemini-2.5-pro" ||
  startsWith modelName "gemini-3-pro-" ||
  String.eqb modelName "rev19-uic3-1p" ||
  String.eqb modelName "gpt-oss-120b-medium".

(** *** JSON values and the store of mutable objects *)

#[warnings="-register-all"] Inductive JValue : Type :=
| JNull
| JBool (b : bool)
| JNum (n : Q)
| JStr (s : string)
| JArr (elems : list JValue)
| JObj (fields : list (string * JValue)).

(** A mutable object: its own enumerable properties. *)
Abbreviation JSObject := (gmap string JValue).
Abbreviation loc := positive.
Abbreviation Store := (gmap loc (gmap string JValue)).

(** [delete obj.$schema] on the object at [l]. *)
Definition deleteSchema (l : loc) (σ : Store) : Store :=
  alter (delete "$schema") l σ.

(** *** convertOpenAIToolsToAntigravity *)

Record ToolFunction := {
  tf_name : string;
  tf_description : option string;
  tf_parameters : option loc      (* a reference to the parameters object *)
}.
Record Tool := { tool_type : string; tool_function : ToolFunction }.

Record FunctionDeclaration := {
  fd_name : string;
  fd_description : option string;
  fd_parameters : loc             (* the same object as the tool's *)
}.
Record ToolDeclaration := { functionDeclarations : list FunctionDeclaration }.

(** [openaiTools.map(tool => ...)]: the callback runs on the tools in
    order, and what it deleted stays deleted when a later call throws. *)
Fixpoint convertEach (openaiTools : list Tool) (σ : Store)
  : Store * Result (list ToolDeclaration) :=
  match openaiTools with
  | [] => (σ, Ok [])
  | tool :: rest =>
      match tf_parameters (tool_function tool) with
      | None => (σ, Throw (TypeError "Cannot convert undefined or null to object"))
      | Some l =>
          let σ := deleteSchema l σ in
          let declaration :=
            {| functionDeclarations :=
                 [{| fd_name := tf_name (tool_function tool);
                     fd_description := tf_description (tool_function tool);
                     fd_parameters := l |}] |} in
          let '(σ, r) := convertEach rest σ in
          (σ, let! declarations := r in Ok (declaration :: declarations))
      end
  end.

Definition convertOpenAIToolsToAntigravity (openaiTools : option (list Tool)) (σ : Store)
  : Store * Result (list ToolDeclaration) :=
  match openaiTools with
  | None | Some [] => (σ, Ok [])
  | Some tools => convertEach tools σ
  end.

(** *** generateGenerationConfig *)

(** [config.defaults] of [src/config/config.js], which is not part of the
    sources at hand: taken as a parameter. *)
Record Defaults := {
  d_top_p : Q; d_top_k : Q; d_temperature : Q; d_max_tokens : Q
}.

Record Config := {
  defaults : Defaults;
  systemInstruction : option string;     (* config.systemInstruction *)
  apiKey : option string                 (* config.security?.apiKey *)
}.

Record Parameters := {
  top_p : option Q; top_k : option Q; temperature : option Q; max_tokens : option Q
}.

Record ThinkingConfig := { includeThoughts : bool; thinkingBudget : Z }.

Record GenerationConfig := {
  topP : option Q;
  topK : option Q;
  gc_temperature : option Q;
  candidateCount : Z;
  maxOutputTokens : option Q;
  stopSequences : option (list string);
  thinkingConfig : option ThinkingConfig
}.

Definition generateGenerationConfig (config : Config) (parameters : Parameters)
    (enableThinking : bool) (actualModelName : string) : GenerationConfig :=
  let generationConfig :=
    {| topP := Some (default (d_top_p (defaults config)) (top_p parameters));
       topK := Some (default (d_top_k (defaults config)) (top_k parameters));
       gc_temperature :=
         Some (default (d_temperature (defaults config)) (temperature parameters));
       candidateCount := 1;
       maxOutputTokens :=
         Some (default (d_max_tokens (defaults config)) (max_tokens parameters));
       stopSequences :=
         Some ["<|user|>"; "<|bot|>"; "<|context_request|>"; "<|endoftext|>";
               "<|end_of_turn|>"];
       thinkingConfig :=
         Some {| includeThoughts := enableThinking;
                 thinkingBudget := if enableThinking then 1024 else 0 |} |} in
  if enableThinking && includes actualModelName "claude" then
    {| topP := None;
       topK := topK generationConfig;
       gc_temperature := gc_temperature generationConfig;
       candidateCount := candidateCount generationConfig;
       maxOutputTokens := maxOutputTokens generationConfig;
       stopSequences := stopSequences generationConfig;
       thinkingConfig := thinkingConfig generationConfig |}
  else generationConfig.

(** *** generateRequestBody *)

(** What the handler reads of the credential of [tokenManager]. *)
Record Token := { projectId : string; sessionId : string }.

Record SystemInstruction := { si_role : string; si_text : StrOrArr }.

Record Request := {
  contents : list Turn;
  rq_systemInstruction : option SystemInstruction;
  tools : option (list ToolDeclaration);
  toolConfig : option string;        (* functionCallingConfig.mode *)
  generationConfig : GenerationConfig;
  rq_sessionId : string
}.

Record RequestBody := {
  project : string;
  requestId : string;
  request : Request;
  model : string;
  userAgent : string;
  requestType : option string
}.

(** The properties of the object literal are evaluated in the order they
    are written: the conversation first, the tools after it.
    [newRequestId] is what [generateRequestId()] returns. *)
Definition generateRequestBody (config : Config) (newRequestId : string)
    (openaiMessages : list Message) (modelName : string) (parameters : Parameters)
    (openaiTools : option (list Tool)) (token : Token) (σ : Store)
  : Store * Result RequestBody :=
  let enableThinking := isEnableThinking modelName in
  let actualModelName := modelMapping modelName in
  let clientSystemMessage :=
    find (fun msg => String.eqb (role msg) "system") openaiMessages in
  let finalSystemInstruction :=
    match clientSystemMessage with
    | Some msg => contentOrEmpty (content msg)
    | None => VStr (default EmptyString (systemInstruction config))
    end in
  match openaiMessageToAntigravity openaiMessages with
  | Throw e => (σ, Throw e)
  | Ok turns =>
      let '(σ, r) := convertOpenAIToolsToAntigravity openaiTools σ in
      (σ,
       let! declarations := r in
       Ok {| project := projectId token;
             requestId := newRequestId;
             request :=
               {| contents := turns;
                  rq_systemInstruction :=
                    Some {| si_role := "user"; si_text := finalSystemInstruction |};
                  tools := Some declarations;
                  toolConfig := Some "VALIDATED";
                  generationConfig :=
                    generateGenerationConfig config parameters enableThinking
                      actualModelName;
                  rq_sessionId := sessionId token |};
             model := actualModelName;
             userAgent := "antigravity";
             requestType := None |})
  end.

(** *** getDefaultIp *)

(** An entry of [os.networkInterfaces()]. *)
Record NetworkInterface := {
  family : string;
  internal : bool;
  address : string
}.

(** The two adapters the function looks at; [None] when the operating
    system reports no adapter of that name. *)
Record NetworkInterfaces := {
  WLAN : option (list NetworkInterface);
  wlan2 : option (list NetworkInterface)
}.

(** [for (const inter of list) if (inter.family === 'IPv4' && !inter.internal)
    return inter.address] *)
Fixpoint firstExternalIPv4 (list : list NetworkInterface) : option string :=
  match list with
  | [] => None
  | inter :: rest =>
      if String.eqb (family inter) "IPv4" && negb (internal inter)
      then Some (address inter)
      else firstExternalIPv4 rest
  end.

Definition getDefaultIp (interfaces : NetworkInterfaces) : string :=
  match WLAN interfaces with
  | Some list => default "127.0.0.1" (firstExternalIPv4 list)
  | None =>
      match wlan2 interfaces with
      | Some list => default "127.0.0.1" (firstExternalIPv4 list)
      | None => "127.0.0.1"
      end
  end.

End Utils.

Import Utils.

(** ** The server: Express response, auth middleware, chat-completions handler *)

Module Server.

(** *** What is written to the client *)

Inductive Delta : Type :=
| DeltaEmpty                                  (* {} *)
| DeltaContent (content : string)             (* {content} *)
| DeltaReasoning (reasoning_content : string) (* {reasoning_content} *)
| DeltaToolCalls (tool_calls : list ToolCall). (* {tool_calls} *)

Record Choice := { index : Z; delta : Delta; finish_reason : option string }.

Record Chunk := {
  ch_id : string;
  ch_object : string;
  ch_created : Z;
  ch_model : string;
  choices : list Choice
}.

Record AssistantMessage := {
  am_role : string;
  am_content : string;
  am_tool_calls : option (list ToolCall);
  am_reasoning_content : option string
}.

Record ErrorObject := {
  eo_message : string;
  eo_type : string;
  eo_param : option string;       (* always null *)
  eo_code : string
}.

Inductive JsonPayload : Type :=
| ErrorText (error : string)                       (* {error: "..."} *)
| ErrorResponse (error : ErrorObject)              (* {error: {...}} *)
| Completion (id : string) (created : Z) (model : string)
    (message : AssistantMessage) (finish : string).

Inductive Sent : Type :=
| SseData (chunk : Chunk)        (* data: <JSON of the chunk>, blank line *)
| SseDone                        (* data: [DONE], blank line *)
| JsonBody (payload : JsonPayload).

(** *** The response object *)

Record Response := {
  statusCode : Z;
  headers : gmap string string;
  headersSent : bool;
  sent : list Sent;
  ended : bool
}.

Definition freshResponse : Response :=
  {| statusCode := 200; headers := ∅; headersSent := false; sent := []; ended := false |}.

Definition ERR_HTTP_HEADERS_SENT : Error :=
  {| message := "Cannot set headers after they are sent to the client"; status := None |}.

Definition decimal (z : Z) : string := NilZero.string_of_int (Z.to_int z).

(** The status codes Node accepts when it writes the head of a response;
    for any other code it raises the range error below and writes
    nothing. *)
Definition validStatusCode (code : Z) : bool := (100 <=? code) && (code <=? 999).

(** Node's [RangeError [ERR_HTTP_INVALID_STATUS_CODE]]. *)
Definition ERR_HTTP_INVALID_STATUS_CODE (code : Z) : Error :=
  {| message := "Invalid status code: " +:+ decimal code; status := None |}.

(** The status codes whose response carries no body: 1xx, 204 and 304 for
    Node, 204, 205 and 304 for [res.send]. *)
Definition hasNoBody (code : Z) : bool :=
  (code <=? 199) || (code =? 204) || (code =? 205) || (code =? 304).

(** [res.setHeader(k, v)] *)
Definition setHeader (k v : string) (res : Response) : Response * Result unit :=
  if headersSent res then (res, Throw ERR_HTTP_HEADERS_SENT)
  else ({| statusCode := statusCode res; headers := <[k := v]> (headers res);
           headersSent := false; sent := sent res; ended := ended res |}, Ok tt).

(** [res.status(code)], as Express 4 has it: the code is stored as it is
    and checked when the head of the response is written (see [json]).
    Express 5 makes the same check in [res.status] itself; for
    [res.status(code).json(payload)] the outcome is the same, nothing is
    sent and a range error is raised. *)
Definition setStatus (code : Z) (res : Response) : Response :=
  {| statusCode := code; headers := headers res; headersSent := headersSent res;
     sent := sent res; ended := ended res |}.

(** [res.write(data)]: the first write sends the headers; a write after
    [end] is dropped. *)
Definition write (data : Sent) (res : Response) : Response :=
  if ended res then res
  else {| statusCode := statusCode res; headers := headers res; headersSent := true;
          sent := sent res ++ [data]; ended := false |}.

(** [res.end()] *)
Definition endResponse (res : Response) : Response :=
  {| statusCode := statusCode res; headers := headers res; headersSent := true;
     sent := sent res; ended := true |}.

(** [res.json(payload)]: sets the content type unless one is set, then
    writes the head with the status code of the response and the body, and
    ends the response. A status code outside 100..999 makes the writing of
    the head fail: the range error is raised and nothing is sent. With a
    status code that allows no body the head alone is sent (for 204 and 304
    without content type). *)
Definition json (payload : JsonPayload) (res : Response) : Response * Result unit :=
  if headersSent res then (res, Throw ERR_HTTP_HEADERS_SENT)
  else
    let headers :=
      match headers res !! "Content-Type" with
      | Some _ => headers res
      | None => <["Content-Type" := "application/json; charset=utf-8"]> (headers res)
      end in
    if negb (validStatusCode (statusCode res)) then
      ({| statusCode := statusCode res; headers := headers; headersSent := false;
          sent := sent res; ended := ended res |},
       Throw (ERR_HTTP_INVALID_STATUS_CODE (statusCode res)))
    else if hasNoBody (statusCode res) then
      ({| statusCode := statusCode res;
          headers := if (statusCode res =? 204) || (statusCode res =? 304)
                     then delete "Content-Type" headers else headers;
          headersSent := true; sent := sent res; ended := true |}, Ok tt)
    else
      ({| statusCode := statusCode res; headers := headers; headersSent := true;
          sent := sent res ++ [JsonBody payload]; ended := true |}, Ok tt).

(** *** The request *)

Record Body := {
  messages : option (list Message);
  b_model : option string;
  stream : option bool;
  b_tools : option (list Tool);
  params : Parameters
}.

Record HttpRequest := {
  method : string;
  path : string;
  authorization : option string;      (* req.headers.authorization *)
  body : Body
}.

(** *** The auth middleware *)

Inductive Outcome : Type :=
| Next          (* next() was called *)
| Responded.    (* the middleware answered the request itself *)

Definition authMiddleware (config : Config) (req : HttpRequest) (res : Response)
  : Response * Result Outcome :=
  if startsWith (path req) "/v1/" then
    let apiKey := apiKey config in
    if truthy apiKey then
      let authHeader := authorization req in
      let providedKey :=
        match authHeader with
        | Some h => if startsWith h "Bearer " then Some (slice 7 h) else authHeader
        | None => authHeader
        end in
      if negb (strictEq providedKey apiKey) then
        let '(res, r) := json (ErrorText "Invalid API Key") (setStatus 401 res) in
        (res, let! _ := r in Ok Responded)
      else (res, Ok Next)
    else (res, Ok Next)
  else (res, Ok Next).

(** *** The collaborators of the handler *)

Record Event := {
  ev_type : string;
  ev_content : string;
  ev_tool_calls : list ToolCall
}.

Record Reply := {
  r_content : string;
  r_toolCalls : list ToolCall;
  r_reasoning_content : option string
}.

(** What the code outside the sources at hand does for one request: the
    configuration, the credential provider, the clock, the id generator,
    and the two entry points of the upstream invoker. The streaming
    invoker hands its events to the callback one by one and then resolves,
    or rejects with an error. *)
Record Env := {
  config : Config;
  getToken : Result (option Token);
  dateNow1 : Z;                       (* first Date.now() *)
  dateNow2 : Z;                       (* second Date.now() *)
  generateRequestId : string;
  generateAssistantResponse : RequestBody -> Token -> list Event * option Error;
  generateAssistantResponseNoStream : RequestBody -> Token -> Result Reply
}.

Inductive Call : Type :=
| CallGetToken
| CallStream (requestBody : RequestBody) (token : Token)
| CallNoStream (requestBody : RequestBody) (token : Token).

(** The state a handler run acts on: the response, the objects of the
    parsed request body, and the upstream calls made so far. *)
Record State := { res : Response; store : Store; calls : list Call }.

Definition M (A : Type) : Type := State -> State * Result A.

Definition ret {A} (a : A) : M A := fun st => (st, Ok a).
Definition throw {A} (e : Error) : M A := fun st => (st, Throw e).
Definition bindM {A B} (m : M A) (k : A -> M B) : M B :=
  fun st =>
    match m st with
    | (st', Ok a) => k a st'
    | (st', Throw e) => (st', Throw e)
    end.

Notation "'do!' x <- m 'in' k" := (bindM m (fun x => k))
  (at level 10, x name, m at level 100, k at level 200).
Notation "'run' m 'in' k" := (bindM m (fun _ => k))
  (at level 10, m at level 100, k at level 200).

Definition onRes (f : Response -> Response) : M unit :=
  fun st => ({| res := f (res st); store := store st; calls := calls st |}, Ok tt).

Definition onResR (f : Response -> Response * Result unit) : M unit :=
  fun st =>
    let '(r, out) := f (res st) in
    ({| res := r; store := store st; calls := calls st |}, out).

Definition onStore {A} (f : Store -> Store * Result A) : M A :=
  fun st =>
    let '(σ, out) := f (store st) in
    ({| res := res st; store := σ; calls := calls st |}, out).

Definition logCall (c : Call) : M unit :=
  fun st => ({| res := res st; store := store st; calls := calls st ++ [c] |}, Ok tt).

Definition ofResult {A} (r : Result A) : M A := fun st => (st, r).

(** *** Helpers of the handler *)

Record ResponseMeta := { id : string; created : Z }.

Definition createResponseMeta (env : Env) : ResponseMeta :=
  {| id := "chatcmpl-" +:+ decimal (dateNow1 env);
     created := dateNow2 env / 1000 |}.

Definition setStreamHeaders : M unit :=
  run onResR (setHeader "Content-Type" "text/event-stream") in
  run onResR (setHeader "Cache-Control" "no-cache") in
  onResR (setHeader "Connection" "keep-alive").

Definition createStreamChunk (id : string) (created : Z) (model : string)
    (delta : Delta) (finish_reason : option string) : Chunk :=
  {| ch_id := id;
     ch_object := "chat.completion.chunk";
     ch_created := created;
     ch_model := model;
     choices := [{| index := 0; delta := delta; finish_reason := finish_reason |}] |}.

Definition writeStreamData (data : Chunk) : M unit := onRes (write (SseData data)).

Definition endStream (id : string) (created : Z) (model : string) (finish_reason : string)
  : M unit :=
  run writeStreamData (createStreamChunk id created model DeltaEmpty (Some finish_reason)) in
  run onRes (write SseDone) in
  onRes endResponse.

(** The callback given to [generateAssistantResponse]; [hasToolCall] is the
    variable of the enclosing block, which the callback assigns. *)
Definition onData (id : string) (created : Z) (model : string)
    (hasToolCall : bool) (data : Event) : M bool :=
  let '(delta, hasToolCall) :=
    if String.eqb (ev_type data) "tool_calls" then
      (DeltaToolCalls (ev_tool_calls data), true)
    else if String.eqb (ev_type data) "thinking" then
      (DeltaReasoning (ev_content data), hasToolCall)
    else
      (DeltaContent (ev_content data), hasToolCall) in
  run writeStreamData (createStreamChunk id created model delta None) in
  ret hasToolCall.

Fixpoint deliver (callback : bool -> Event -> M bool) (hasToolCall : bool)
    (events : list Event) : M bool :=
  match events with
  | [] => ret hasToolCall
  | data :: rest =>
      do! hasToolCall <- callback hasToolCall data in
      deliver callback hasToolCall rest
  end.

(** [await generateAssistantResponse(requestBody, token, callback)] *)
Definition awaitStream (env : Env) (requestBody : RequestBody) (token : Token)
    (callback : bool -> Event -> M bool) : M bool :=
  run logCall (CallStream requestBody token) in
  let '(events, failure) := generateAssistantResponse env requestBody token in
  do! hasToolCall <- deliver callback false events in
  match failure with
  | Some e => throw e
  | None => ret hasToolCall
  end.

(** [await generateAssistantResponseNoStream(requestBody, token)] *)
Definition awaitNoStream (env : Env) (requestBody : RequestBody) (token : Token)
  : M Reply :=
  run logCall (CallNoStream requestBody token) in
  ofResult (generateAssistantResponseNoStream env requestBody token).

(** [await tokenManager.getToken()] *)
Definition awaitToken (env : Env) : M (option Token) :=
  run logCall CallGetToken in
  ofResult (getToken env).

(** The message of the error thrown when there is no token (held as the
    bytes of its UTF-8 encoding). *)
Definition noTokenMessage : string :=
  "没有可用的token，请运行 npm run login 获取token".

(** The rewriting of the request body for an image model. *)
Definition asImageRequest (requestBody : RequestBody) : RequestBody :=
  let rq := request requestBody in
  {| project := project requestBody;
     requestId := requestId requestBody;
     request :=
       {| contents := contents rq;
          rq_systemInstruction := None;
          tools := None;
          toolConfig := None;
          generationConfig :=
            {| topP := None; topK := None; gc_temperature := None;
               candidateCount := 1; maxOutputTokens := None;
               stopSequences := None; thinkingConfig := None |};
          rq_sessionId := rq_sessionId rq |};
     model := Utils.model requestBody;
     userAgent := userAgent requestBody;
     requestType := Some "image_gen" |}.

(** *** POST /v1/chat/completions: the [try] block *)

Definition tryBlock (env : Env) (body : Body) : M unit :=
  let stream := default false (stream body) in
  match messages body with
  | None =>
      run onRes (setStatus 400) in onResR (json (ErrorText "messages is required"))
  | Some messages =>
      do! token <- awaitToken env in
      match token with
      | None => throw {| message := noTokenMessage; status := None |}
      | Some token =>
          do! model <-
            match b_model body with
            | Some model => ret model
            | None =>
                throw (TypeError
                         "Cannot read properties of undefined (reading 'includes')")
            end in
          let isImageModel := includes model "-image" in
          do! requestBody <-
            onStore (generateRequestBody (config env) (generateRequestId env)
                       messages model (params body) (b_tools body) token) in
          let requestBody :=
            if isImageModel then asImageRequest requestBody else requestBody in
          let '{| id := id; created := created |} := createResponseMeta env in
          if stream then
            run setStreamHeaders in
            if isImageModel then
              do! reply <- awaitNoStream env requestBody token in
              run writeStreamData
                    (createStreamChunk id created model (DeltaContent (r_content reply))
                       None) in
              endStream id created model "stop"
            else
              do! hasToolCall <-
                awaitStream env requestBody token (onData id created model) in
              endStream id created model (if hasToolCall then "tool_calls" else "stop")
          else
            do! reply <- awaitNoStream env requestBody token in
            let hasCalls := (0 <? length (r_toolCalls reply))%nat in
            let message :=
              {| am_role := "assistant";
                 am_content := r_content reply;
                 am_tool_calls := if hasCalls then Some (r_toolCalls reply) else None;
                 am_reasoning_content :=
                   if truthy (r_reasoning_content reply)
                   then r_reasoning_content reply else None |} in
            onResR (json (Completion id created model message
                            (if hasCalls then "tool_calls" else "stop")))
      end
  end.

(** *** POST /v1/chat/completions: the [catch] block *)

Definition classifyStatus (error : Error) : Z :=
  let status := 500 in
  if includes (message error) "429" || includes (message error) "capacity" ||
     includes (message error) "RESOURCE_EXHAUSTED"
  then 429
  else match JS.status error with
       | Some s => if s =? 0 then status else s
       | None => status
       end.

(** [id] and [created] are declared inside the [try] block: the [catch]
    block has no binding for them. *)
Definition ReferenceError : Error :=
  {| message := "id is not defined"; status := None |}.

Definition catchBlock (stream : bool) (error : Error) : M unit :=
  fun st =>
    if negb (headersSent (res st)) then
      let status := classifyStatus error in
      let errorResponse :=
        ErrorResponse
          {| eo_message :=
               match message error with
               | EmptyString => "Internal Server Error"
               | m => m
               end;
             eo_type := "server_error";
             eo_param := None;
             eo_code := if status =? 429 then "rate_limit_exceeded" else "internal_error" |} in
      if stream then
        if negb (headersSent (res st)) then
          (run onRes (setStatus status) in onResR (json errorResponse)) st
        else
          throw ReferenceError st
      else
        (run onRes (setStatus status) in onResR (json errorResponse)) st
    else (st, Ok tt).

(** The handler: what it leaves behind, and the error that escapes it, if
    any. *)
Definition chatCompletions (env : Env) (body : Body) (st : State) : State * Result unit :=
  let stream := default false (stream body) in
  match tryBlock env body st with
  | (st, Ok _) => (st, Ok tt)
  | (st, Throw error) => catchBlock stream error st
  end.

(** The state when a request arrives: nothing written, no call made. *)
Definition initialState (σ : Store) : State :=
  {| res := freshResponse; store := σ; calls := [] |}.

(** [s.toLowerCase()] on the letters A to Z. *)
Definition lowerChar (c : ascii) : ascii :=
  let n := nat_of_ascii c in
  if ((65 <=? n) && (n <=? 90))%nat then ascii_of_nat (n + 32) else c.

Fixpoint toLowerCase (s : string) : string :=
  match s with
  | EmptyString => EmptyString
  | String c s' => String (lowerChar c) (toLowerCase s')
  end.

(** The requests that [app.post('/v1/chat/completions', ...)] takes: the
    router compares the path without regard to the case of the letters and
    allows one trailing slash. *)
Definition routesToChatCompletions (req : HttpRequest) : bool :=
  String.eqb (method req) "POST" &&
  (String.eqb (toLowerCase (path req)) "/v1/chat/completions" ||
   String.eqb (toLowerCase (path req)) "/v1/chat/completions/").

(** The static file servers, which come before the middleware, look at
    [GET] and [HEAD] requests only and pass every other request on. *)
Definition staticMayAnswer (req : HttpRequest) : bool :=
  String.eqb (method req) "GET" || String.eqb (method req) "HEAD".

(** A request whose body was parsed, through the auth middleware and the
    router. [None]: the request is not described here; it is a [GET] or
    [HEAD] request, which a static file may answer before the middleware
    runs, or it passed the middleware and belongs to another route. *)
Definition serve (env : Env) (req : HttpRequest) (σ : Store)
  : option (State * Result unit) :=
  let st := initialState σ in
  if staticMayAnswer req then None
  else
    match authMiddleware (config env) req (res st) with
    | (r, Ok Next) =>
        if routesToChatCompletions req then
          Some (chatCompletions env (body req)
                  {| res := r; store := store st; calls := calls st |})
        else None
    | (r, Ok Responded) =>
        Some ({| res := r; store := store st; calls := calls st |}, Ok tt)
    | (r, Throw e) =>
        Some ({| res := r; store := store st; calls := calls st |}, Throw e)
    end.

End Server.

Import Server.

(** ** The vocabulary of the specification *)

Module Spec.

(** [text] contains the [pieces], one after the other, in the order of
    the list, without overlap. *)
Fixpoint containsInOrder (text : string) (pieces : list string) : Prop :=
  match pieces with
  | [] => True
  | p :: rest =>
      exists before after : string,
        text = before +:+ p +:+ after /\ containsInOrder after rest
  end.

(** The parts of the [model] turns, from the most recent turn to the
    oldest, the parts of one turn in their own order. *)
Definition isModelTurn (t : Turn) : bool := String.eqb (turn_role t) "model".

Definition modelPartsBackward (turns : list Turn) : list Part :=
  concat (map parts (List.filter isModelTurn (rev turns))).

Definition isCallWithId (id : option string) (p : Part) : bool :=
  match p with
  | PFunctionCall cid _ => strictEq cid id
  | _ => false
  end.

Definition callName (p : Part) : string :=
  match p with
  | PFunctionCall _ n => n
  | _ => EmptyString
  end.

(** The function name of a tool result: the message's own name when it
    has one; otherwise the name of the first function call with the
    message's [tool_call_id] met when the prior [model] turns are scanned
    backward; otherwise the sentinel. *)
Definition toolFunctionName (message : Message) (turns : list Turn) : string :=
  match name message with
  | Some n => n
  | None =>
      match List.find (isCallWithId (tool_call_id message)) (modelPartsBackward turns) with
      | Some p => callName p
      | None => "unknown_tool"
      end
  end.

(** Function names are not empty. *)
Definition callNamesNonEmpty (turns : list Turn) : Prop :=
  forall (t : Turn) (id : option string) (n : string),
    In t turns -> In (PFunctionCall id n) (parts t) -> n <> EmptyString.

(** No turn carries a function-call part. *)
Definition noFunctionCall (turns : list Turn) : Prop :=
  forall (t : Turn) (id : option string) (n : string),
    In t turns -> ~ In (PFunctionCall id n) (parts t).

(** The messages that contribute a turn, and the turn a message
    contributes. *)
Definition contributes (m : Message) : bool :=
  String.eqb (role m) "user" || String.eqb (role m) "assistant" ||
  String.eqb (role m) "tool".


Definition userTurn (m : Message) : Turn :=
  let extracted := extractImagesFromContent (content m) in
  {| turn_role := "user"; parts := PText (ex_text extracted) :: ex_images extracted |}.

Definition mirrors (m : Message) (t : Turn) : Prop :=
  (role m = "user" /\ t = userTurn m) \/
  (role m = "assistant" /\ turn_role t = "model" /\
     exists text : string, parts t = [PText text]) \/
  (role m = "tool" /\ turn_role t = "user" /\
     exists fname : string,
       parts t = [PFunctionResponse None fname (RespContent (content m))]).


(** The upstream declaration of a tool whose parameters object is at [l]:
    it refers to that same object. *)
Definition declarationOf (tool : Tool) (l : loc) : ToolDeclaration :=
  {| functionDeclarations :=
       [{| fd_name := tf_name (tool_function tool);
           fd_description := tf_description (tool_function tool);
           fd_parameters := l |}] |}.

Definition parametersOf (tool : Tool) : option loc := tf_parameters (tool_function tool).

(** [σ'] is [σ] with [$schema] deleted from the parameters object of every
    tool of the list, and nothing else changed. *)
Definition schemaStripped (tools : list Tool) (σ σ' : Store) : Prop :=
  (forall (tool : Tool) (l : loc),
      In tool tools -> parametersOf tool = Some l ->
      σ' !! l = delete "$schema" <$> σ !! l) /\
  (forall l : loc,
      (forall tool : Tool, In tool tools -> parametersOf tool <> Some l) ->
      σ' !! l = σ !! l).

(** The key a client presents: the header without its [Bearer ] prefix,
    when it has one. *)
Definition stripBearer (header : string) : string :=
  if startsWith header "Bearer " then slice 7 header else header.

(** The fixed rate-limit and capacity markers. *)
Definition hasRateLimitMarker (msg : string) : bool :=
  existsb (includes msg) ["429"; "capacity"; "RESOURCE_EXHAUSTED"].

(** The delta of an upstream event, and its chunk. *)
Definition deltaOf (data : Event) : Delta :=
  if String.eqb (ev_type data) "tool_calls" then DeltaToolCalls (ev_tool_calls data)
  else if String.eqb (ev_type data) "thinking" then DeltaReasoning (ev_content data)
  else DeltaContent (ev_content data).

Definition chunkOf (meta : ResponseMeta) (model : string) (data : Event) : Sent :=
  SseData {| ch_id := id meta;
             ch_object := "chat.completion.chunk";
             ch_created := created meta;
             ch_model := model;
             choices := [{| index := 0; delta := deltaOf data; finish_reason := None |}] |}.

Definition sawToolCall (events : list Event) : bool :=
  existsb (fun data => String.eqb (ev_type data) "tool_calls") events.

Definition finishChunk (meta : ResponseMeta) (model : string) (reason : string) : Sent :=
  SseData {| ch_id := id meta;
             ch_object := "chat.completion.chunk";
             ch_created := created meta;
             ch_model := model;
             choices := [{| index := 0; delta := DeltaEmpty;
                            finish_reason := Some reason |}] |}.

(** The chunk of a [content] delta. *)
Definition contentChunk (meta : ResponseMeta) (model : string) (content : string) : Sent :=
  SseData {| ch_id := id meta;
             ch_object := "chat.completion.chunk";
             ch_created := created meta;
             ch_model := model;
             choices := [{| index := 0; delta := DeltaContent content;
                            finish_reason := None |}] |}.

(** The chunk of a [reasoning_content] delta. *)
Definition reasoningChunk (meta : ResponseMeta) (model : string) (text : string) : Sent :=
  SseData {| ch_id := id meta;
             ch_object := "chat.completion.chunk";
             ch_created := created meta;
             ch_model := model;
             choices := [{| index := 0; delta := DeltaReasoning text;
                            finish_reason := None |}] |}.

(** The chunk of a [tool_calls] delta. *)
Definition toolCallsChunk (meta : ResponseMeta) (model : string)
    (calls : list ToolCall) : Sent :=
  SseData {| ch_id := id meta;
             ch_object := "chat.completion.chunk";
             ch_created := created meta;
             ch_model := model;
             choices := [{| index := 0; delta := DeltaToolCalls calls;
                            finish_reason := None |}] |}.

(** What is written for one upstream event: reasoning text goes to
    [reasoning_content], tool calls go to [tool_calls], anything else goes
    to [content]. *)
Inductive relayed (meta : ResponseMeta) (model : string) (data : Event) : Sent -> Prop :=
| relayed_thinking :
    ev_type data = "thinking" ->
    relayed meta model data (reasoningChunk meta model (ev_content data))
| relayed_tool_calls :
    ev_type data = "tool_calls" ->
    relayed meta model data (toolCallsChunk meta model (ev_tool_calls data))
| relayed_text :
    ev_type data <> "thinking" -> ev_type data <> "tool_calls" ->
    relayed meta model data (contentChunk meta model (ev_content data)).

(** A status code with which a response carries a body: 200 to 999, but
    204, 205 and 304. *)
Definition carriesBody (code : Z) : bool :=
  (200 <=? code) && (code <=? 999) &&
  negb ((code =? 204) || (code =? 205) || (code =? 304)).

(** A status code that is sent without body: 100 to 199, 204, 205, 304. *)
Definition sentWithoutBody (code : Z) : bool :=
  (100 <=? code) && (code <=? 199) || (code =? 204) || (code =? 205) || (code =? 304).

(** The JSON error body with message [msg] and code [code]. *)
Definition errorBody (msg code : string) : Sent :=
  JsonBody (ErrorResponse
    {| eo_message := match msg with
                     | EmptyString => "Internal Server Error"
                     | String c m => String c m
                     end;
       eo_type := "server_error"; eo_param := None; eo_code := code |}).

End Spec.

Import Spec.

(** ** Sample requests and collaborators *)

Module Sample.

Definition config0 : Config :=
  {| defaults := {| d_top_p := 0.85; d_top_k := 50; d_temperature := 1;
                    d_max_tokens := 8096 |};
     systemInstruction := Some "You are a helpful assistant.";
     apiKey := Some "sk-text" |}.

Definition token0 : Token := {| projectId := "proj-1"; sessionId := "sess-1" |}.

Definition params0 : Parameters :=
  {| top_p := None; top_k := None; temperature := None; max_tokens := None |}.

Definition hello : Message :=
  {| role := "user"; content := CStr "hi"; tool_calls := None;
     tool_call_id := None; name := None |}.

Definition tc1 : ToolCall :=
  {| tc_id := "call_1";
     tc_function := {| fn_name := "get_weather"; fn_arguments := "{}" |} |}.

(** One tool, whose parameters object is at location 1. *)
Definition tool0 : Tool :=
  {| tool_type := "function";
     tool_function := {| tf_name := "get_weather";
                         tf_description := Some "Current weather";
                         tf_parameters := Some 1%positive |} |}.

Definition store0 : Store :=
  {[ 1%positive :=
       {[ "$schema" := JStr "http://json-schema.org/draft-07/schema#";
          "type" := JStr "object" ]} ]}.

Definition body0 (stream : bool) : Body :=
  {| messages := Some [hello]; b_model := Some "gemini-2.5-flash";
     stream := Some stream; b_tools := None; params := params0 |}.

Definition thinking (s : string) : Event :=
  {| ev_type := "thinking"; ev_content := s; ev_tool_calls := [] |}.
Definition text (s : string) : Event :=
  {| ev_type := "text"; ev_content := s; ev_tool_calls := [] |}.
Definition toolCalls (tcs : list ToolCall) : Event :=
  {| ev_type := "tool_calls"; ev_content := EmptyString; ev_tool_calls := tcs |}.

(** An upstream that streams [events] and then resolves, or rejects with
    [failure]; its batched entry point rejects with [noStreamFailure]. *)
Definition env0 (events : list Event) (failure : option Error)
    (noStreamFailure : Error) : Env :=
  {| config := config0;
     getToken := Ok (Some token0);
     dateNow1 := 1700000000123;
     dateNow2 := 1700000000124;
     generateRequestId := "req-1";
     generateAssistantResponse := fun _ _ => (events, failure);
     generateAssistantResponseNoStream := fun _ _ => Throw noStreamFailure |}.

Definition boom : Error := {| message := "socket hang up"; status := None |}.

Definition exhausted : Error :=
  {| message := "Upstream said: RESOURCE_EXHAUSTED"; status := None |}.

End Sample.

(** ** Further vocabulary, for the properties of the code beyond the
    specification *)

Module Props.

(** Every code unit is a word character. *)
Fixpoint allWord (s : string) : bool :=
  match s with
  | EmptyString => true
  | String c s' => isWordChar c && allWord s'
  end.

(** The data URI of an image of format [format] with payload [data]. *)
Definition dataUri (format data : string) : string :=
  "data:image/" +:+ format +:+ ";base64," +:+ data.

(** What one item of an array content contributes: its text, its image. *)
Definition itemText (item : ContentItem) : string :=
  match item with
  | ItemText t => t
  | _ => EmptyString
  end.

Definition itemImage (item : ContentItem) : option Part :=
  match item with
  | ItemImageUrl (Some url) =>
      match matchDataUri url with
      | Some (format, base64Data) => Some (PInlineData ("image/" +:+ format) base64Data)
      | None => None
      end
  | _ => None
  end.

Definition concatText (l : list string) : string :=
  fold_right String.append EmptyString l.

(** An assistant message the translator fails on: an array as content and
    no tool call. *)
Definition unrenderable (m : Message) : bool :=
  String.eqb (role m) "assistant" &&
  match content m, tool_calls m with
  | CArr _, None | CArr _, Some [] => true
  | _, _ => false
  end.

(** The turn of a tool message whose name is not resolved. *)
Definition unknownToolTurn (m : Message) : Turn :=
  {| turn_role := "user";
     parts := [PFunctionResponse None "unknown_tool" (RespContent (content m))] |}.

(** The function response [handleToolCall] builds for [message] when the
    turns before it are [turns]. *)
Definition mergedResponse (turns : list Turn) (message : Message) : Part :=
  PFunctionResponse (tool_call_id message)
    (default EmptyString
       (scanTurnsMerge (rev turns) (tool_call_id message) (Some EmptyString)))
    (RespOutput (content message)).

(** The last turn is a [user] turn that carries a function response. *)
Definition endsWithToolResults (turns : list Turn) : bool :=
  match rev turns with
  | lastMessage :: _ =>
      String.eqb (turn_role lastMessage) "user" &&
      existsb isFunctionResponse (parts lastMessage)
  | [] => false
  end.

(** The external IPv4 entries of an adapter. *)
Definition isExternalIPv4 (inter : NetworkInterface) : bool :=
  String.eqb (family inter) "IPv4" && negb (internal inter).

(** The part of the [try] block that follows the building of the request
    body, as a function of what was built. *)
Definition respond (env : Env) (stream : bool) (model : string)
    (requestBody : RequestBody) (token : Token) : M unit :=
  let meta := createResponseMeta env in
  if stream then
    bindM setStreamHeaders (fun _ =>
      if includes model "-image" then
        bindM (awaitNoStream env requestBody token) (fun reply =>
          bindM (writeStreamData
                   (createStreamChunk (id meta) (created meta) model
                      (DeltaContent (r_content reply)) None))
                (fun _ => endStream (id meta) (created meta) model "stop"))
      else
        bindM (awaitStream env requestBody token
                 (onData (id meta) (created meta) model))
              (fun hasToolCall =>
                 endStream (id meta) (created meta) model
                   (if hasToolCall then "tool_calls" else "stop")))
  else
    bindM (awaitNoStream env requestBody token) (fun reply =>
      let hasCalls := (0 <? length (r_toolCalls reply))%nat in
      onResR (json (Completion (id meta) (created meta) model
                      {| am_role := "assistant";
                         am_content := r_content reply;
                         am_tool_calls :=
                           if hasCalls then Some (r_toolCalls reply) else None;
                         am_reasoning_content :=
                           if truthy (r_reasoning_content reply)
                           then r_reasoning_content reply else None |}
                      (if hasCalls then "tool_calls" else "stop")))).

(** How a run of the handler ends: the response is ended; or the stream
    broke after its first event and the response is left open; or the
    answer of the [catch] block failed on its status code, nothing was
    written and the range error leaves the handler. *)
Definition endsAs (env : Env) (st out : State) (result : Result unit) (made : list Call) : Prop :=
  (result = Ok tt /\ ended (res out) = true) \/
  (result = Ok tt /\
   exists requestBody token data events error,
     made = [CallGetToken; CallStream requestBody token] /\
     generateAssistantResponse env requestBody token = (data :: events, Some error) /\
     ended (res out) = false) \/
  (exists code : Z,
     validStatusCode code = false /\
     result = Throw (ERR_HTTP_INVALID_STATUS_CODE code) /\
     sent (res out) = sent (res st) /\ ended (res out) = false).

(** The chunks of a response share the identity of the response, and each
    has one choice, of index 0. *)
Definition chunkOfResponse (meta : ResponseMeta) (model : string) (item : Sent) : Prop :=
  match item with
  | SseData chunk =>
      ch_id chunk = id meta /\ ch_created chunk = created meta /\
      ch_model chunk = model /\ ch_object chunk = "chat.completion.chunk" /\
      exists d fr, choices chunk = [{| index := 0; delta := d; finish_reason := fr |}]
  | SseDone => True
  | JsonBody _ => False
  end.

End Props.

Import Props.

(** ** Strings *)

Section StringFacts.

Lemma string_app_nil (s : string) : s +:+ EmptyString = s.
Proof. induction s as [|c s IH]; simpl; [reflexivity | now rewrite IH]. Qed.

Lemma string_app_assoc (a b c : string) : (a +:+ b) +:+ c = a +:+ b +:+ c.
Proof. induction a as [|x a IH]; simpl; [reflexivity | now rewrite IH]. Qed.

Lemma string_length_app (a b : string) :
  String.length (a +:+ b) = (String.length a + String.length b)%nat.
Proof. induction a as [|x a IH]; simpl; [reflexivity | now rewrite IH]. Qed.

Lemma trimNonEmpty_app (a b : string) :
  trimNonEmpty (a +:+ b) = trimNonEmpty a || trimNonEmpty b.
Proof.
  induction a as [|x a IH]; simpl; [reflexivity |].
  rewrite IH. now rewrite orb_assoc.
Qed.

Lemma trimNonEmpty_nonempty (s : string) : trimNonEmpty s = true -> s <> EmptyString.
Proof. now destruct s. Qed.

Lemma eqb_string_true (a b : string) : String.eqb a b = true -> a = b.
Proof. apply String.eqb_eq. Qed.

Lemma eqb_string_false (a b : string) : String.eqb a b = false -> a <> b.
Proof. apply String.eqb_neq. Qed.

End StringFacts.

(** ** Model policy *)

(** C6. Alias resolution is a total function of the model name: the three
    names of the table are remapped (the sonnet name loses [-thinking], the
    opus name gains it, the flash name loses it) and every other name is
    returned as it is. *)
Theorem modelMapping_table :
  modelMapping "claude-sonnet-4-5-thinking" = "claude-sonnet-4-5" /\
  modelMapping "claude-opus-4-5" = "claude-opus-4-5-thinking" /\
  modelMapping "gemini-2.5-flash-thinking" = "gemini-2.5-flash" /\
  forall modelName : string,
    modelName <> "claude-sonnet-4-5-thinking" ->
    modelName <> "claude-opus-4-5" ->
    modelName <> "gemini-2.5-flash-thinking" ->
    modelMapping modelName = modelName.
Proof.
  repeat split; try reflexivity.
  intros n H1 H2 H3. unfold modelMapping.
  apply String.eqb_neq in H1, H2, H3.
  now rewrite H1, H2, H3.
Qed.

Lemma modelMapping_table_witness :
  modelMapping "unknown-model" = "unknown-model".
Proof.
  apply (proj2 (proj2 (proj2 modelMapping_table))); discriminate.
Defined.

(** ** The assistant branch *)

Section Assistant.

Lemma toolNote_trim (tc : ToolCall) : trimNonEmpty (toolNote tc) = true.
Proof. reflexivity. Qed.

Lemma join_notes_trim (tc : ToolCall) (tcs : list ToolCall) :
  trimNonEmpty (join LF (map toolNote (tc :: tcs))) = true.
Proof. destruct tcs; reflexivity. Qed.

Lemma containsInOrder_join (sep : string) (pieces : list string) :
  containsInOrder (join sep pieces) pieces.
Proof.
  induction pieces as [|p rest IH]; simpl; [exact I |].
  destruct rest as [|q rest'].
  - exists EmptyString, EmptyString. simpl. now rewrite string_app_nil.
  - exists EmptyString, (sep +:+ join sep (q :: rest')). split; [reflexivity |].
    destruct IH as (b & a & Heq & Hrest).
    exists (sep +:+ b), a. split; [| exact Hrest].
    rewrite Heq. now rewrite string_app_assoc.
Qed.

Lemma handleAssistantMessage_shape (message : Message) (acc turns : list Turn) :
  handleAssistantMessage message acc = Ok turns ->
  exists text : string,
    turns = acc ++ [{| turn_role := "model"; parts := [PText text] |}] /\
    text <> EmptyString.
Proof.
  unfold handleAssistantMessage.
  set (c := if match tool_calls message with Some (_ :: _) => true | _ => false end
            then _ else _).
  destruct (isTruthy c) eqn:Ht; simpl.
  - destruct c as [s|items]; simpl; [| discriminate].
    destruct (trimNonEmpty s) eqn:Hs; intros [= <-].
    + exists s. split; [reflexivity | now apply trimNonEmpty_nonempty].
    + exists "...". split; [reflexivity | discriminate].
  - intros [= <-]. exists "...". split; [reflexivity | discriminate].
Qed.

End Assistant.

(** C5, as the code has it. For an assistant message with text content and
    tool calls, the translator appends exactly one [model] turn with a
    single non-empty text part: the original content FIRST, a line feed, and
    then one note per tool call in call order, separated by line feeds;
    without tool calls the text is the content itself (when it is not only
    white space). When the combined content is empty the placeholder
    ["..."] is the text, and in every case the turn has one text part that
    is not empty. *)
Theorem handleAssistantMessage_content_then_notes :
  (forall (message : Message) (acc : list Turn) (c : string) (tcs : list ToolCall),
      content message = CStr c -> c <> EmptyString ->
      tool_calls message = Some tcs -> tcs <> [] ->
      let text := c +:+ LF +:+ join LF (map toolNote tcs) in
      handleAssistantMessage message acc =
        Ok (acc ++ [{| turn_role := "model"; parts := [PText text] |}]) /\
      text <> EmptyString /\
      containsInOrder text (c :: map toolNote tcs)) /\
  (forall (message : Message) (acc : list Turn) (c : string),
      content message = CStr c -> trimNonEmpty c = true ->
      tool_calls message = None \/ tool_calls message = Some [] ->
      handleAssistantMessage message acc =
        Ok (acc ++ [{| turn_role := "model"; parts := [PText c] |}])) /\
  (forall (message : Message) (acc : list Turn),
      content message = CNull \/ content message = CStr EmptyString ->
      tool_calls message = None \/ tool_calls message = Some [] ->
      handleAssistantMessage message acc =
        Ok (acc ++ [{| turn_role := "model"; parts := [PText "..."] |}])) /\
  (forall (message : Message) (acc turns : list Turn),
      handleAssistantMessage message acc = Ok turns ->
      exists text : string,
        turns = acc ++ [{| turn_role := "model"; parts := [PText text] |}] /\
        text <> EmptyString).
Proof.
  split; [| split; [| split]].
  - intros message acc c tcs Hc Hne Htc Htcs text.
    assert (Htrim : trimNonEmpty text = true).
    { subst text. destruct tcs as [|tc tcs]; [congruence |].
      rewrite !trimNonEmpty_app, join_notes_trim. now rewrite !orb_true_r. }
    split; [| split].
    + unfold handleAssistantMessage. rewrite Hc, Htc.
      destruct tcs as [|tc tcs]; [congruence |].
      destruct c as [|x c]; [congruence |].
      cbn [default Datatypes.id contentOrEmpty isTruthy toString JS.bind].
      rewrite string_app_assoc. fold text. rewrite Htrim.
      subst text. reflexivity.
    + now apply trimNonEmpty_nonempty.
    + subst text. cbn [containsInOrder].
      exists EmptyString, (LF +:+ join LF (map toolNote tcs)). split; [reflexivity |].
      pose proof (containsInOrder_join LF (map toolNote tcs)) as Hj.
      destruct (map toolNote tcs) as [|p rest] eqn:Hm; [exact I |].
      cbn [containsInOrder] in Hj |- *.
      destruct Hj as (b & a & Heq & Hrest).
      exists (LF +:+ b), a. split; [| exact Hrest].
      rewrite Heq. now rewrite string_app_assoc.
  - intros message acc c Hc Htrim Ht.
    unfold handleAssistantMessage. rewrite Hc.
    destruct c as [|x c]; [discriminate |].
    destruct Ht as [-> | ->]; cbn [contentOrEmpty isTruthy JS.bind]; now rewrite Htrim.
  - intros message acc [Hc | Hc] [Ht | Ht];
      unfold handleAssistantMessage; rewrite Hc, Ht; reflexivity.
  - apply handleAssistantMessage_shape.
Qed.

Lemma handleAssistantMessage_content_then_notes_witness :
  handleAssistantMessage
    {| role := "assistant"; content := CStr "hi";
       tool_calls :=
         Some [{| tc_id := "c1";
                  tc_function := {| fn_name := "f"; fn_arguments := "{}" |} |}];
       tool_call_id := None; name := None |} [] =
  Ok [{| turn_role := "model";
         parts := [PText ("hi" +:+ LF +:+
                          "[System Note: Model requested tool 'f' with args: {}]")] |}].
Proof.
  apply (proj1 handleAssistantMessage_content_then_notes
           {| role := "assistant"; content := CStr "hi";
              tool_calls :=
                Some [{| tc_id := "c1";
                         tc_function := {| fn_name := "f"; fn_arguments := "{}" |} |}];
              tool_call_id := None; name := None |} [] "hi"
           [{| tc_id := "c1";
               tc_function := {| fn_name := "f"; fn_arguments := "{}" |} |}]);
    [reflexivity | discriminate | reflexivity | discriminate].
Defined.

(** C5, as the specification words it (the notes first, the original
    content after them), fails: for content ["hi"] and one call of [f] the
    text is ["hi"], a line feed, and the note, and no occurrence of the
    content follows the note. *)
Lemma notes_then_content_counterexample :
  let tc := {| tc_id := "c1";
               tc_function := {| fn_name := "f"; fn_arguments := "{}" |} |} in
  exists text : string,
    handleAssistantMessage
      {| role := "assistant"; content := CStr "hi"; tool_calls := Some [tc];
         tool_call_id := None; name := None |} [] =
      Ok [{| turn_role := "model"; parts := [PText text] |}] /\
    ~ containsInOrder text (map toolNote [tc] ++ ["hi"]).
Proof.
  cbv zeta. eexists. split; [reflexivity |].
  cbn [map app containsInOrder].
  intros (before & after & Heq & before2 & after2 & Hafter & _).
  pose proof (f_equal String.length Heq) as Hlen.
  rewrite !string_length_app in Hlen.
  pose proof (f_equal String.length Hafter) as Hlen2.
  rewrite !string_length_app in Hlen2.
  cbn in Hlen, Hlen2.
  destruct before as [|x [|y before]].
  - cbn in Heq. discriminate.
  - cbn in Heq. injection Heq as _ Heq. discriminate.
  - cbn in Hlen. lia.
Qed.

(** ** The tool branch *)

Section ToolBranch.

Lemma find_app_first {A} (f : A -> bool) (l1 l2 : list A) :
  List.find f (l1 ++ l2) =
  match List.find f l1 with Some x => Some x | None => List.find f l2 end.
Proof.
  induction l1 as [|x l1 IH]; simpl; [reflexivity |].
  now destruct (f x).
Qed.

Lemma scanParts_find (ps : list Part) (id functionName : option string) :
  scanParts ps id functionName =
  match List.find (isCallWithId id) ps with
  | Some p => Some (callName p)
  | None => functionName
  end.
Proof.
  induction ps as [|p ps IH]; simpl; [reflexivity |].
  destruct p as [t | m d | cid cname | rid rname r]; simpl; try exact IH.
  now destruct (strictEq cid id).
Qed.

Lemma find_call_name (ps : list Part) (id : option string) (p : Part) :
  List.find (isCallWithId id) ps = Some p ->
  exists cid, p = PFunctionCall cid (callName p) /\ In p ps.
Proof.
  intros H. apply List.find_some in H as [Hin Hp].
  destruct p; try discriminate. eexists. split; [reflexivity | exact Hin].
Qed.

Lemma truthy_nonempty (n : string) : n <> EmptyString -> truthy (Some n) = true.
Proof. now destruct n. Qed.

Lemma orUnknownTool_nonempty (n : string) :
  n <> EmptyString -> orUnknownTool (Some n) = n.
Proof. now destruct n. Qed.

Lemma orUnknownTool_falsy (functionName : option string) :
  truthy functionName = false -> orUnknownTool functionName = "unknown_tool".
Proof. now destruct functionName as [[|c s]|]. Qed.

(** The scan of the tool branch, over turns listed from the most recent:
    it stops at the first function call with the wanted id. *)
Lemma scanTurns_first_call (revTurns : list Turn) (id functionName : option string) :
  truthy functionName = false ->
  (forall t cid n, In t revTurns -> In (PFunctionCall cid n) (parts t) ->
                   n <> EmptyString) ->
  orUnknownTool (scanTurns revTurns id functionName) =
  match List.find (isCallWithId id)
          (concat (map parts (List.filter isModelTurn revTurns))) with
  | Some p => callName p
  | None => "unknown_tool"
  end.
Proof.
  revert functionName.
  induction revTurns as [|t older IH]; intros functionName Hf Hnames; simpl.
  - now apply orUnknownTool_falsy.
  - assert (Holder : forall t' cid n, In t' older ->
              In (PFunctionCall cid n) (parts t') -> n <> EmptyString).
    { intros t' cid n Hin. apply Hnames. now right. }
    unfold isModelTurn at 1.
    destruct (String.eqb (turn_role t) "model").
    + simpl. rewrite find_app_first, scanParts_find.
      destruct (List.find (isCallWithId id) (parts t)) as [p|] eqn:Hfind.
      * destruct (find_call_name _ _ _ Hfind) as (cid & Hp & Hin).
        assert (Hn : callName p <> EmptyString).
        { apply (Hnames t cid); [now left | now rewrite <- Hp]. }
        rewrite (truthy_nonempty _ Hn). now apply orUnknownTool_nonempty.
      * rewrite Hf. now apply IH.
    + rewrite Hf. now apply IH.
Qed.

End ToolBranch.

(** The merge path, for comparison: [handleToolCall] adds its function
    response to a last [user] turn that already carries one, where the tool
    branch of the translator starts a new turn. *)
Example handleToolCall_merges :
  let last := {| turn_role := "user";
                 parts := [PFunctionResponse None "f" (RespContent (CStr "1"))] |} in
  let message := {| role := "tool"; content := CStr "2"; tool_calls := None;
                    tool_call_id := Some "c2"; name := Some "g" |} in
  length (handleToolCall message [last]) = 1%nat /\
  (forall turns, translateMessage [last] message = Ok turns -> length turns = 2%nat).
Proof. cbv zeta. split; [reflexivity |]. now intros turns [= <-]. Qed.

(** One step of the tool branch, on any sequence of turns: a [tool]
    message becomes one new [user] turn at the end of the sequence, its
    single part a function response (the turns before it are left as they
    were: nothing is merged). With names that are non-empty strings, the
    name of the response is the message's own [name] when it has one;
    otherwise the name of the first function-call part with the message's
    [tool_call_id] found scanning the [model] turns backward from the most
    recent; and ["unknown_tool"] when there is none. *)
Theorem tool_message_function_response :
  forall (message : Message) (acc : list Turn),
    role message = "tool" ->
    (exists fname : string,
        translateMessage acc message =
          Ok (acc ++ [{| turn_role := "user";
                         parts := [PFunctionResponse None fname
                                     (RespContent (content message))] |}])) /\
    (name message <> Some EmptyString ->
     callNamesNonEmpty acc ->
     translateMessage acc message =
       Ok (acc ++ [{| turn_role := "user";
                      parts := [PFunctionResponse None (toolFunctionName message acc)
                                  (RespContent (content message))] |}])).
Proof.
  intros message acc Hrole.
  assert (Hstep : translateMessage acc message =
                  Ok (acc ++ [fakeUserToolMessage message acc])).
  { unfold translateMessage. now rewrite Hrole. }
  split.
  - eexists. rewrite Hstep. reflexivity.
  - intros Hname Hcalls. rewrite Hstep. unfold fakeUserToolMessage.
    assert (Hres : orUnknownTool (resolveFunctionName message acc) =
                   toolFunctionName message acc); [| now rewrite Hres].
    unfold resolveFunctionName, toolFunctionName.
    destruct (name message) as [n|] eqn:Hn.
    + assert (Hne : n <> EmptyString) by congruence.
      rewrite (truthy_nonempty _ Hne). cbn [negb].
      now apply orUnknownTool_nonempty.
    + cbn [truthy negb]. apply scanTurns_first_call; [reflexivity |].
      intros t cid n Hin. apply Hcalls. now apply in_rev.
Qed.

Lemma tool_message_function_response_witness :
  translateMessage
    [{| turn_role := "model"; parts := [PText "calling"; PFunctionCall (Some "c1") "f"] |};
     {| turn_role := "model"; parts := [PFunctionCall (Some "c2") "g"] |}]
    {| role := "tool"; content := CStr "42"; tool_calls := None;
       tool_call_id := Some "c1"; name := None |} =
  Ok [{| turn_role := "model"; parts := [PText "calling"; PFunctionCall (Some "c1") "f"] |};
      {| turn_role := "model"; parts := [PFunctionCall (Some "c2") "g"] |};
      {| turn_role := "user";
         parts := [PFunctionResponse None "f" (RespContent (CStr "42"))] |}].
Proof.
  apply (proj2 (tool_message_function_response
           {| role := "tool"; content := CStr "42"; tool_calls := None;
              tool_call_id := Some "c1"; name := None |}
           [{| turn_role := "model";
               parts := [PText "calling"; PFunctionCall (Some "c1") "f"] |};
            {| turn_role := "model"; parts := [PFunctionCall (Some "c2") "g"] |}]
           eq_refl)).
  - discriminate.
  - intros t id n [<- | [<- | []]] Hin; simpl in Hin;
      repeat (destruct Hin as [Hin | Hin]; [injection Hin as <- <- || discriminate Hin |]);
      try discriminate; destruct Hin.
Defined.


(** ** The translator as a whole *)

Section Translator.

Lemma translateMessage_step (acc acc' : list Turn) (m : Message) :
  translateMessage acc m = Ok acc' ->
  if contributes m
  then exists t : Turn, acc' = acc ++ [t] /\ mirrors m t
  else acc' = acc.
Proof.
  unfold translateMessage, contributes.
  destruct (String.eqb (role m) "user") eqn:Hu.
  - intros [= <-]. apply eqb_string_true in Hu. simpl.
    exists (userTurn m). split; [reflexivity |]. left. now split.
  - destruct (String.eqb (role m) "assistant") eqn:Ha.
    + intros H. apply eqb_string_true in Ha. simpl.
      destruct (handleAssistantMessage_shape _ _ _ H) as (text & -> & _).
      eexists. split; [reflexivity |]. right; left. simpl. eauto.
    + destruct (String.eqb (role m) "tool") eqn:Ht.
      * intros [= <-]. apply eqb_string_true in Ht. simpl.
        eexists. split; [reflexivity |]. right; right. simpl. eauto.
      * now intros [= <-].
Qed.

Lemma translateFrom_mirrors (msgs : list Message) :
  forall acc turns : list Turn,
    translateFrom acc msgs = Ok turns ->
    exists new : list Turn,
      turns = acc ++ new /\ Forall2 mirrors (List.filter contributes msgs) new.
Proof.
  induction msgs as [|m msgs IH]; intros acc turns; simpl.
  - intros [= <-]. exists []. split; [now rewrite app_nil_r | constructor].
  - destruct (translateMessage acc m) as [acc'|e] eqn:Hm; simpl; [| discriminate].
    intros Hrest. apply translateMessage_step in Hm.
    destruct (IH _ _ Hrest) as (new & -> & Hnew).
    destruct (contributes m).
    + destruct Hm as (t & -> & Ht). exists (t :: new).
      split; [now rewrite <- app_assoc | now constructor].
    + subst acc'. now exists new.
Qed.

Ltac returns_ok :=
  repeat (cbn [contentOrEmpty isTruthy toString default Datatypes.id JS.bind];
          match goal with
          | |- context [if ?b then _ else _] => destruct b
          | |- context [match ?s with EmptyString => _ | String _ _ => _ end] =>
              destruct s
          end);
  cbn [JS.bind]; eauto.

Lemma handleAssistantMessage_returns (m : Message) (acc : list Turn) :
  ((exists items, content m = CArr items) ->
   exists tc tcs, tool_calls m = Some (tc :: tcs)) ->
  exists turns : list Turn, handleAssistantMessage m acc = Ok turns.
Proof.
  intros Hr. unfold handleAssistantMessage.
  destruct (content m) as [|s|items] eqn:Hc.
  - destruct (tool_calls m) as [[|tc tcs]|]; returns_ok.
  - destruct (tool_calls m) as [[|tc tcs]|]; returns_ok.
  - destruct Hr as (tc & tcs & ->); [eauto |]. returns_ok.
Qed.



(** The translator never builds a function-call part: the scan of the
    tool branch has none to find in the turns it is given. *)
Lemma extractImages_no_call (items : list ContentItem) :
  forall (result : Extracted) (id : option string) (n : string),
    ~ In (PFunctionCall id n) (ex_images result) ->
    ~ In (PFunctionCall id n) (ex_images (fold_left extractItem items result)).
Proof.
  induction items as [|item items IH]; intros result id n Hres; simpl; [exact Hres |].
  apply IH. destruct item as [t | url | ty]; simpl; try exact Hres.
  destruct (matchDataUri _) as [[format base64Data]|]; simpl; [| exact Hres].
  rewrite in_app_iff. intros [H | [H | []]]; [now apply Hres | discriminate].
Qed.

Lemma translateMessage_noFunctionCall (acc acc' : list Turn) (m : Message) :
  noFunctionCall acc -> translateMessage acc m = Ok acc' -> noFunctionCall acc'.
Proof.
  intros Hacc Hm. pose proof (translateMessage_step _ _ _ Hm) as Hstep.
  destruct (contributes m); [| now subst].
  destruct Hstep as (t & -> & Ht). intros t' id n Hin.
  apply in_app_iff in Hin as [Hin | [<- | []]]; [now apply Hacc |].
  destruct Ht as [[_ ->] | [(_ & _ & text & ->) | (_ & _ & fname & ->)]].
  - simpl. intros [H | H]; [discriminate |]. revert H.
    destruct (content m) as [|s|items]; simpl; try tauto.
    apply extractImages_no_call. simpl. tauto.
  - simpl. intros [H | []]. discriminate.
  - simpl. intros [H | []]. discriminate.
Qed.

Lemma translateFrom_noFunctionCall (msgs : list Message) :
  forall acc turns : list Turn,
    noFunctionCall acc -> translateFrom acc msgs = Ok turns -> noFunctionCall turns.
Proof.
  induction msgs as [|m msgs IH]; intros acc turns Hacc; simpl.
  - now intros [= <-].
  - destruct (translateMessage acc m) as [acc'|e] eqn:Hm; simpl; [| discriminate].
    apply IH. now apply (translateMessage_noFunctionCall acc _ m).
Qed.

End Translator.



(** ** The tool schema adapter *)

Section ToolSchema.

Lemma deleteSchema_lookup (l l' : loc) (σ : Store) :
  deleteSchema l σ !! l' =
  if decide (l = l') then delete "$schema" <$> σ !! l' else σ !! l'.
Proof.
  unfold deleteSchema. destruct (decide (l = l')) as [<- | Hne].
  - apply lookup_alter_eq.
  - now apply lookup_alter_ne.
Qed.

Lemma delete_schema_twice (o : option (gmap string JValue)) :
  delete "$schema" <$> (delete "$schema" <$> o) = delete "$schema" <$> o.
Proof.
  destruct o as [m|]; simpl; [| reflexivity].
  f_equal. apply map_eq. intros k.
  destruct (decide (k = "$schema")) as [-> | Hk].
  - now rewrite !lookup_delete_eq.
  - now rewrite !lookup_delete_ne by congruence.
Qed.

Lemma convertEach_spec (tools : list Tool) :
  forall (σ σ' : Store) (declarations : list ToolDeclaration),
    convertEach tools σ = (σ', Ok declarations) ->
    schemaStripped tools σ σ' /\
    Forall2 (fun tool d => exists l, parametersOf tool = Some l /\
                                     d = declarationOf tool l)
      tools declarations.
Proof.
  induction tools as [|tool rest IH]; intros σ σ' declarations; simpl.
  - intros [= <- <-]. repeat split; [intros ? ? [] | constructor].
  - destruct (tf_parameters (tool_function tool)) as [l0|] eqn:Hp; [| discriminate].
    destruct (convertEach rest (deleteSchema l0 σ)) as [σ1 [ds|e]] eqn:Hrest;
      simpl; [| discriminate].
    intros [= <- <-].
    destruct (IH _ _ _ Hrest) as ((Hin & Hout) & Hds).
    assert (Hl0 : σ1 !! l0 = delete "$schema" <$> σ !! l0).
    { destruct (List.existsb (fun t => bool_decide (parametersOf t = Some l0)) rest)
        eqn:Hex.
      - apply List.existsb_exists in Hex as (t & Ht & Hpt).
        apply bool_decide_eq_true in Hpt.
        rewrite (Hin t l0 Ht Hpt), deleteSchema_lookup.
        rewrite decide_True by reflexivity. apply delete_schema_twice.
      - rewrite Hout, deleteSchema_lookup; [now rewrite decide_True |].
        intros t Ht Hpt.
        assert (List.existsb (fun t => bool_decide (parametersOf t = Some l0)) rest
                = true); [| congruence].
        apply List.existsb_exists. exists t. split; [exact Ht |].
        now apply bool_decide_eq_true. }
    repeat split.
    + intros t l [<- | Ht] Hpt.
      * unfold parametersOf in Hpt. rewrite Hp in Hpt. injection Hpt as <-. exact Hl0.
      * rewrite (Hin t l Ht Hpt), deleteSchema_lookup.
        destruct (decide (l0 = l)); [apply delete_schema_twice | reflexivity].
    + intros l Hl. rewrite Hout.
      * rewrite deleteSchema_lookup. rewrite decide_False; [reflexivity |].
        intros <-. apply (Hl tool); [now left | exact Hp].
      * intros t Ht. apply Hl. now right.
    + constructor; [| exact Hds]. exists l0. now split.
Qed.

Lemma convertEach_returns (tools : list Tool) :
  Forall (fun tool => is_Some (parametersOf tool)) tools ->
  forall σ : Store, exists σ' declarations, convertEach tools σ = (σ', Ok declarations).
Proof.
  induction 1 as [|tool rest [l Hl] _ IH]; intros σ; simpl; [eauto |].
  unfold parametersOf in Hl. rewrite Hl.
  destruct (IH (deleteSchema l σ)) as (σ' & ds & ->). simpl. eauto.
Qed.

Lemma convertTools_spec (openaiTools : option (list Tool)) (σ σ' : Store)
    (declarations : list ToolDeclaration) :
  convertOpenAIToolsToAntigravity openaiTools σ = (σ', Ok declarations) ->
  schemaStripped (default [] openaiTools) σ σ' /\
  Forall2 (fun tool d => exists l, parametersOf tool = Some l /\
                                   d = declarationOf tool l)
    (default [] openaiTools) declarations.
Proof.
  destruct openaiTools as [[|tool rest]|]; simpl.
  - intros [= <- <-]. repeat split; [intros ? ? [] | constructor].
  - apply (convertEach_spec (tool :: rest)).
  - intros [= <- <-]. repeat split; [intros ? ? [] | constructor].
Qed.

End ToolSchema.

(** C9. The adapter works on the caller's own objects. When
    [generateRequestBody] returns, the parameters object of every tool of
    the client's list has lost its [$schema] key and kept every other key,
    every other object is as it was, and each upstream declaration refers
    to the very object of its tool; the adapter returns whenever every tool
    has a parameters object. An absent or empty tool list gives the empty
    list and leaves the store alone. *)
Theorem convertOpenAIToolsToAntigravity_strips_in_place :
  (forall (config : Config) (newRequestId : string) (openaiMessages : list Message)
          (modelName : string) (parameters : Parameters) (openaiTools : list Tool)
          (token : Token) (σ σ' : Store) (requestBody : RequestBody),
      generateRequestBody config newRequestId openaiMessages modelName parameters
        (Some openaiTools) token σ = (σ', Ok requestBody) ->
      schemaStripped openaiTools σ σ' /\
      (forall (tool : Tool) (l : loc) (o' : gmap string JValue),
          In tool openaiTools -> parametersOf tool = Some l -> σ' !! l = Some o' ->
          o' !! "$schema" = None /\
          exists o : gmap string JValue,
            σ !! l = Some o /\ forall k : string, k <> "$schema" -> o' !! k = o !! k) /\
      exists declarations : list ToolDeclaration,
        tools (request requestBody) = Some declarations /\
        Forall2 (fun tool d => exists l, parametersOf tool = Some l /\
                                         d = declarationOf tool l)
          openaiTools declarations) /\
  (forall (openaiTools : list Tool) (σ : Store),
      Forall (fun tool => is_Some (parametersOf tool)) openaiTools ->
      exists σ' declarations,
        convertOpenAIToolsToAntigravity (Some openaiTools) σ = (σ', Ok declarations)) /\
  (forall σ : Store,
      convertOpenAIToolsToAntigravity None σ = (σ, Ok []) /\
      convertOpenAIToolsToAntigravity (Some []) σ = (σ, Ok [])).
Proof.
  split; [| split].
  - intros config newRequestId openaiMessages modelName parameters openaiTools token
      σ σ' requestBody. unfold generateRequestBody.
    destruct (openaiMessageToAntigravity openaiMessages) as [turns|e]; [| discriminate].
    destruct (convertOpenAIToolsToAntigravity (Some openaiTools) σ) as [σ1 [ds|e]] eqn:Hc;
      simpl; [| discriminate].
    intros [= <- <-].
    destruct (convertTools_spec _ _ _ _ Hc) as (Hs & Hds). simpl in Hs, Hds.
    split; [exact Hs |]. split.
    + intros tool l o' Hin Hp Ho'. destruct Hs as (Hs & _).
      rewrite (Hs tool l Hin Hp) in Ho'.
      destruct (σ !! l) as [o|]; [| discriminate]. injection Ho' as <-.
      split; [apply lookup_delete_eq |].
      exists o. split; [reflexivity |]. intros k Hk. apply lookup_delete_ne. congruence.
    + exists ds. now split.
  - intros openaiTools σ H. destruct openaiTools as [|tool rest]; simpl; [eauto |].
    now apply (convertEach_returns (tool :: rest)).
  - intros σ. now split.
Qed.

Lemma convertOpenAIToolsToAntigravity_strips_in_place_witness :
  fst (generateRequestBody Sample.config0 "req-1" [Sample.hello] "gemini-2.5-flash"
         Sample.params0 (Some [Sample.tool0]) Sample.token0 Sample.store0)
    !! 1%positive =
  Some {[ "type" := JStr "object" ]}.
Proof.
  destruct (proj1 convertOpenAIToolsToAntigravity_strips_in_place
              Sample.config0 "req-1" [Sample.hello] "gemini-2.5-flash" Sample.params0
              [Sample.tool0] Sample.token0 Sample.store0 _ _ eq_refl)
    as ((Hin & _) & _).
  exact (eq_trans (Hin Sample.tool0 1%positive (or_introl eq_refl) eq_refl) eq_refl).
Defined.

(** ** The response object *)

Section ResponseFacts.

Lemma carriesBody_codes (code : Z) :
  carriesBody code = true -> validStatusCode code = true /\ hasNoBody code = false.
Proof.
  unfold carriesBody, validStatusCode, hasNoBody. intros H.
  apply andb_true_iff in H as [H12 H3]. apply andb_true_iff in H12 as [H1 H2].
  apply negb_true_iff in H3. apply orb_false_iff in H3 as [H34 H5].
  apply orb_false_iff in H34 as [H3 H4]. rewrite H3, H4, H5.
  apply Z.leb_le in H1, H2. split.
  - apply andb_true_iff. split; apply Z.leb_le; lia.
  - assert (Hlow : (code <=? 199) = false) by (apply Z.leb_gt; lia).
    now rewrite Hlow.
Qed.

Lemma json_unsent (payload : JsonPayload) (res : Response) :
  headersSent res = false ->
  carriesBody (statusCode res) = true ->
  exists res' : Response,
    json payload res = (res', Ok tt) /\
    statusCode res' = statusCode res /\
    sent res' = sent res ++ [JsonBody payload] /\
    ended res' = true /\ headersSent res' = true.
Proof.
  intros H Hcode. apply carriesBody_codes in Hcode as [Hvalid Hbody].
  unfold json. rewrite H, Hvalid, Hbody. eexists. split; [reflexivity |]. now simpl.
Qed.

Lemma sentWithoutBody_codes (code : Z) :
  sentWithoutBody code = true -> validStatusCode code = true /\ hasNoBody code = true.
Proof.
  unfold sentWithoutBody, validStatusCode, hasNoBody.
  rewrite !orb_true_iff, !andb_true_iff, !Z.leb_le, !Z.eqb_eq.
  intros H. split; [lia | tauto].
Qed.

Lemma invalid_status_codes (code : Z) :
  validStatusCode code = false <-> code < 100 \/ 999 < code.
Proof.
  unfold validStatusCode. rewrite andb_false_iff, !Z.leb_gt. reflexivity.
Qed.

Lemma status_code_kinds (code : Z) :
  carriesBody code = true \/ sentWithoutBody code = true \/ validStatusCode code = false.
Proof.
  destruct (validStatusCode code) eqn:Hv; [| tauto].
  unfold validStatusCode in Hv. apply andb_true_iff in Hv as [H1 H2].
  apply Z.leb_le in H1, H2.
  destruct (sentWithoutBody code) eqn:Hs; [tauto |]. left.
  unfold sentWithoutBody in Hs. unfold carriesBody.
  apply orb_false_iff in Hs as [Hs H304]. apply orb_false_iff in Hs as [Hs H205].
  apply orb_false_iff in Hs as [Hs H204]. rewrite H204, H205, H304.
  apply andb_false_iff in Hs as [Hs | Hs]; apply Z.leb_gt in Hs; [lia |].
  assert (H200 : (200 <=? code) = true) by (apply Z.leb_le; lia).
  assert (H999 : (code <=? 999) = true) by (apply Z.leb_le; lia).
  now rewrite H200, H999.
Qed.

Lemma json_no_body (payload : JsonPayload) (res : Response) :
  headersSent res = false ->
  sentWithoutBody (statusCode res) = true ->
  exists res' : Response,
    json payload res = (res', Ok tt) /\
    statusCode res' = statusCode res /\
    sent res' = sent res /\
    ended res' = true /\ headersSent res' = true.
Proof.
  intros H Hcode. apply sentWithoutBody_codes in Hcode as [Hvalid Hbody].
  unfold json. rewrite H, Hvalid, Hbody. eexists. split; [reflexivity |]. now simpl.
Qed.

Lemma json_invalid_status (payload : JsonPayload) (res : Response) :
  headersSent res = false ->
  validStatusCode (statusCode res) = false ->
  exists res' : Response,
    json payload res = (res', Throw (ERR_HTTP_INVALID_STATUS_CODE (statusCode res))) /\
    statusCode res' = statusCode res /\
    sent res' = sent res /\
    ended res' = ended res /\ headersSent res' = false.
Proof.
  intros H Hcode. unfold json. rewrite H, Hcode. eexists. split; [reflexivity |]. now simpl.
Qed.

Lemma strictEq_Some (a : option string) (key : string) :
  strictEq a (Some key) = true <-> a = Some key.
Proof.
  destruct a as [x|]; simpl.
  - rewrite String.eqb_eq. split; congruence.
  - split; discriminate.
Qed.

Lemma stripBearer_prefixed (key : string) : stripBearer ("Bearer " +:+ key) = key.
Proof.
  unfold stripBearer, startsWith. simpl.
  destruct key; reflexivity.
Qed.

Lemma stripBearer_bare (key : string) :
  startsWith key "Bearer " = false -> stripBearer key = key.
Proof. intros H. unfold stripBearer. now rewrite H. Qed.

End ResponseFacts.

(** ** The auth middleware *)

(** C10. On a path under [/v1/], with a configured (non-empty) key, the
    middleware answers 401 with [{error: "Invalid API Key"}] exactly when
    the [Authorization] header, with its [Bearer ] prefix removed if it has
    one, is not the configured key: so [Bearer <key>] passes, the bare key
    passes (a key is not itself prefixed by [Bearer ]), and an absent header
    is refused. With no key configured every request passes. *)
Theorem authMiddleware_checks_key :
  forall (config : Config) (req : HttpRequest) (res : Response),
    startsWith (path req) "/v1/" = true ->
    headersSent res = false ->
    (forall key : string,
        apiKey config = Some key -> key <> EmptyString ->
        (stripBearer <$> authorization req <> Some key <->
         exists res' : Response,
           authMiddleware config req res = (res', Ok Responded) /\
           statusCode res' = 401 /\
           sent res' = sent res ++ [JsonBody (ErrorText "Invalid API Key")] /\
           ended res' = true) /\
        (stripBearer <$> authorization req = Some key ->
         authMiddleware config req res = (res, Ok Next)) /\
        (authorization req = Some ("Bearer " +:+ key) ->
         authMiddleware config req res = (res, Ok Next)) /\
        (authorization req = Some key -> startsWith key "Bearer " = false ->
         authMiddleware config req res = (res, Ok Next)) /\
        (authorization req = None ->
         exists res' : Response,
           authMiddleware config req res = (res', Ok Responded) /\
           statusCode res' = 401 /\
           sent res' = sent res ++ [JsonBody (ErrorText "Invalid API Key")] /\
           ended res' = true)) /\
    (truthy (apiKey config) = false -> authMiddleware config req res = (res, Ok Next)).
Proof.
  intros config req res Hpath Hfresh. split.
  - intros key Hkey Hne.
    assert (Hprovided : forall h : option string,
               match h with
               | Some h' => if startsWith h' "Bearer " then Some (slice 7 h') else h
               | None => h
               end = stripBearer <$> h).
    { intros [h|]; simpl; [| reflexivity]. unfold stripBearer.
      now destruct (startsWith h "Bearer "). }
    assert (Hpass : stripBearer <$> authorization req = Some key ->
                    authMiddleware config req res = (res, Ok Next)).
    { intros Heq. unfold authMiddleware.
      rewrite Hpath, Hkey, (truthy_nonempty _ Hne), Hprovided.
      apply strictEq_Some in Heq. now rewrite Heq. }
    assert (Hrefuse : stripBearer <$> authorization req <> Some key ->
              exists res' : Response,
                authMiddleware config req res = (res', Ok Responded) /\
                statusCode res' = 401 /\
                sent res' = sent res ++ [JsonBody (ErrorText "Invalid API Key")] /\
                ended res' = true).
    { intros Hneq. unfold authMiddleware.
      rewrite Hpath, Hkey, (truthy_nonempty _ Hne), Hprovided.
      destruct (strictEq (stripBearer <$> authorization req) (Some key)) eqn:Heq.
      - apply strictEq_Some in Heq. contradiction.
      - simpl. destruct (json_unsent (ErrorText "Invalid API Key") (setStatus 401 res))
          as (res' & -> & Hs & Hsent & Hend & _); [exact Hfresh | reflexivity |].
        exists res'. simpl. now repeat split. }
    repeat split.
    + exact Hrefuse.
    + intros (res' & Hr & _) Heq. rewrite (Hpass Heq) in Hr. discriminate.
    + exact Hpass.
    + intros Hh. apply Hpass. rewrite Hh. cbn [fmap option_fmap option_map].
      now rewrite stripBearer_prefixed.
    + intros Hh Hbare. apply Hpass. rewrite Hh. cbn [fmap option_fmap option_map].
      now rewrite stripBearer_bare.
    + intros Hh. apply Hrefuse. now rewrite Hh.
  - intros Hnone. unfold authMiddleware. now rewrite Hpath, Hnone.
Qed.

Lemma authMiddleware_checks_key_witness :
  authMiddleware Sample.config0
    {| method := "POST"; path := "/v1/chat/completions";
       authorization := Some "Bearer sk-text"; body := Sample.body0 true |}
    freshResponse = (freshResponse, Ok Next).
Proof.
  refine (proj1 (proj2 (proj2
            (proj1 (authMiddleware_checks_key Sample.config0
                      {| method := "POST"; path := "/v1/chat/completions";
                         authorization := Some "Bearer sk-text";
                         body := Sample.body0 true |}
                      freshResponse eq_refl eq_refl) "sk-text" eq_refl _))) eq_refl).
  discriminate.
Defined.

(** ** The chat-completions handler *)

Section Handler.

Variable env : Env.

Lemma write_open (data : Sent) (r : Response) :
  ended r = false ->
  write data r =
  {| statusCode := statusCode r; headers := headers r; headersSent := true;
     sent := sent r ++ [data]; ended := false |}.
Proof. intros H. unfold write. now rewrite H. Qed.

(** The relay of the events: one chunk per event, in the order of
    arrival. *)
Lemma deliver_onData (meta : ResponseMeta) (model : string) (events : list Event) :
  forall (hasToolCall : bool) (st : State),
    ended (res st) = false ->
    exists r : Response,
      deliver (onData (id meta) (created meta) model) hasToolCall events st =
        ({| res := r; store := store st; calls := calls st |},
         Ok (hasToolCall || sawToolCall events)) /\
      statusCode r = statusCode (res st) /\
      sent r = sent (res st) ++ map (chunkOf meta model) events /\
      ended r = false /\
      headersSent r =
        match events with [] => headersSent (res st) | _ :: _ => true end.
Proof.
  induction events as [|data events IH]; intros hasToolCall st Hopen.
  - exists (res st). simpl. unfold ret. destruct st. simpl.
    now rewrite orb_false_r, app_nil_r.
  - cbn [deliver]. unfold bindM at 1.
    set (st1 := {| res := write (chunkOf meta model data) (res st);
                   store := store st; calls := calls st |}).
    assert (Hstep : onData (id meta) (created meta) model hasToolCall data st =
              (st1, Ok (hasToolCall || String.eqb (ev_type data) "tool_calls"))).
    { subst st1. unfold onData, chunkOf, deltaOf.
      destruct (String.eqb (ev_type data) "tool_calls");
        [| destruct (String.eqb (ev_type data) "thinking")];
        unfold bindM, writeStreamData, onRes, ret; simpl;
        now rewrite ?orb_true_r, ?orb_false_r. }
    rewrite Hstep.
    destruct (IH (hasToolCall || String.eqb (ev_type data) "tool_calls") st1)
      as (r & Hrun & Hstatus & Hsent & Hended & Hhs).
    { simpl. now rewrite write_open. }
    exists r. rewrite Hrun. simpl. rewrite orb_assoc.
    split; [reflexivity |]. subst st1. simpl in *.
    rewrite write_open in * by exact Hopen. simpl in *.
    repeat split; try assumption.
    + now rewrite Hsent, <- app_assoc.
    + now destruct events.
Qed.

Lemma endStream_open (meta : ResponseMeta) (model reason : string) (st : State) :
  ended (res st) = false ->
  endStream (id meta) (created meta) model reason st =
    ({| res := {| statusCode := statusCode (res st); headers := headers (res st);
                  headersSent := true;
                  sent := sent (res st) ++ [finishChunk meta model reason; SseDone];
                  ended := true |};
        store := store st; calls := calls st |}, Ok tt).
Proof.
  intros Hopen.
  unfold endStream, writeStreamData, bindM, onRes, write, endResponse, finishChunk.
  simpl. rewrite Hopen. simpl. now rewrite <- app_assoc.
Qed.

Lemma setStreamHeaders_unsent (st : State) :
  headersSent (res st) = false ->
  exists r : Response,
    setStreamHeaders st = ({| res := r; store := store st; calls := calls st |}, Ok tt) /\
    statusCode r = statusCode (res st) /\ sent r = sent (res st) /\
    ended r = ended (res st) /\ headersSent r = false.
Proof.
  intros H. unfold setStreamHeaders, bindM, onResR, setHeader. simpl.
  rewrite H. simpl. eexists. split; [reflexivity |]. now simpl.
Qed.

(** The [try] block up to the call of the streaming invoker. *)
Lemma tryBlock_streaming (body : Body) (st : State) (msgs : list Message)
    (token : Token) (model : string) (σ' : Store) (requestBody : RequestBody)
    (events : list Event) (failure : option Error) :
  messages body = Some msgs ->
  getToken env = Ok (Some token) ->
  b_model body = Some model ->
  includes model "-image" = false ->
  stream body = Some true ->
  generateRequestBody (config env) (generateRequestId env) msgs model (params body)
    (b_tools body) token (store st) = (σ', Ok requestBody) ->
  generateAssistantResponse env requestBody token = (events, failure) ->
  headersSent (res st) = false ->
  ended (res st) = false ->
  let meta := createResponseMeta env in
  let calls' := calls st ++ [CallGetToken; CallStream requestBody token] in
  exists r : Response,
    statusCode r = statusCode (res st) /\
    sent r = sent (res st) ++ map (chunkOf meta model) events /\
    ended r = false /\
    headersSent r = match events with [] => false | _ :: _ => true end /\
    tryBlock env body st =
      match failure with
      | None =>
          endStream (id meta) (created meta) model
            (if sawToolCall events then "tool_calls" else "stop")
            {| res := r; store := σ'; calls := calls' |}
      | Some e => ({| res := r; store := σ'; calls := calls' |}, Throw e)
      end.
Proof.
  intros Hm Ht Hmodel Himg Hs Hgen Hup Hunsent Hopen meta calls'.
  set (st1 := {| res := res st; store := σ'; calls := calls st ++ [CallGetToken] |}).
  destruct (setStreamHeaders_unsent st1 Hunsent) as (r1 & Hr1 & Hst1 & Hse1 & He1 & Hh1).
  destruct (deliver_onData meta model events false
              {| res := r1; store := σ';
                 calls := (calls st ++ [CallGetToken]) ++ [CallStream requestBody token] |})
    as (r & Hrun & Hstatus & Hsent & Hended & Hhs).
  { simpl. now rewrite He1. }
  cbn [res store calls orb] in *.
  exists r. rewrite Hstatus, Hsent, Hst1, Hse1, Hhs, Hh1.
  repeat (split; [assumption || reflexivity |]).
  unfold tryBlock.
  rewrite Hm, Hs. cbn [default Datatypes.id].
  unfold bindM at 1. unfold awaitToken, bindM at 1, logCall, ofResult. rewrite Ht.
  rewrite Hmodel. unfold bindM at 1. unfold ret at 1.
  unfold bindM at 1. unfold onStore at 1. cbn [store res calls]. rewrite Hgen.
  rewrite !Himg.
  change (createResponseMeta env) with meta.
  destruct meta as [id0 created0].
  unfold bindM at 1. fold st1. rewrite Hr1.
  unfold bindM at 1. unfold awaitStream. unfold bindM at 1. unfold logCall at 1.
  cbn [res store calls]. rewrite Hup.
  unfold bindM at 1. cbn [id created] in Hrun.
  subst st1. cbn [res store calls]. rewrite Hrun. cbn [id created].
  subst calls'. rewrite <- app_assoc. cbn [app].
  destruct failure as [e|]; reflexivity.
Qed.
End Handler.

Section Catch.

(** The [catch] block when nothing has been sent: it answers with the
    classified status and the JSON error. *)
Lemma catchBlock_unsent_run (stream : bool) (error : Error) (st : State) :
  headersSent (res st) = false ->
  let status := classifyStatus error in
  catchBlock stream error st =
  let '(r, out) :=
    json (ErrorResponse
            {| eo_message := match message error with
                             | EmptyString => "Internal Server Error"
                             | m => m
                             end;
               eo_type := "server_error";
               eo_param := None;
               eo_code := if status =? 429 then "rate_limit_exceeded"
                          else "internal_error" |})
      (setStatus status (res st)) in
  ({| res := r; store := store st; calls := calls st |}, out).
Proof.
  intros Hunsent status. unfold catchBlock. rewrite Hunsent. cbn [negb].
  fold status. unfold bindM, onRes, onResR. cbn [res store calls].
  now destruct (default false (Some stream)), stream.
Qed.

(** ... with a status a body goes with: the JSON error is sent. *)
Lemma catchBlock_unsent (stream : bool) (error : Error) (st : State) :
  headersSent (res st) = false ->
  carriesBody (classifyStatus error) = true ->
  let status := classifyStatus error in
  let payload :=
    ErrorResponse
      {| eo_message := match message error with
                       | EmptyString => "Internal Server Error"
                       | m => m
                       end;
         eo_type := "server_error";
         eo_param := None;
         eo_code := if status =? 429 then "rate_limit_exceeded" else "internal_error" |} in
  exists r : Response,
    catchBlock stream error st =
      ({| res := r; store := store st; calls := calls st |}, Ok tt) /\
    statusCode r = status /\
    sent r = sent (res st) ++ [JsonBody payload] /\
    ended r = true.
Proof.
  intros Hunsent Hcode status payload.
  destruct (json_unsent payload (setStatus status (res st)) Hunsent Hcode)
    as (r & Hjson & Hstatus & Hsent & Hended & _).
  exists r. rewrite (catchBlock_unsent_run stream error st Hunsent). cbv zeta.
  fold status. fold payload. rewrite Hjson. now repeat split.
Qed.

(** ... with a status that allows no body: the head alone is sent. *)
Lemma catchBlock_unsent_no_body (stream : bool) (error : Error) (st : State) :
  headersSent (res st) = false ->
  sentWithoutBody (classifyStatus error) = true ->
  exists r : Response,
    catchBlock stream error st =
      ({| res := r; store := store st; calls := calls st |}, Ok tt) /\
    statusCode r = classifyStatus error /\
    sent r = sent (res st) /\
    ended r = true.
Proof.
  intros Hunsent Hcode.
  rewrite (catchBlock_unsent_run stream error st Hunsent). cbv zeta.
  match goal with
  | |- context [json ?p ?r0] =>
      destruct (json_no_body p r0 Hunsent Hcode) as (r & -> & Hstatus & Hsent & Hended & _)
  end.
  exists r. now repeat split.
Qed.

(** ... with a status outside 100..999: the answer fails, nothing is sent
    and the range error leaves the [catch] block. *)
Lemma catchBlock_unsent_invalid (stream : bool) (error : Error) (st : State) :
  headersSent (res st) = false ->
  validStatusCode (classifyStatus error) = false ->
  exists r : Response,
    catchBlock stream error st =
      ({| res := r; store := store st; calls := calls st |},
       Throw (ERR_HTTP_INVALID_STATUS_CODE (classifyStatus error))) /\
    sent r = sent (res st) /\
    ended r = ended (res st) /\ headersSent r = false.
Proof.
  intros Hunsent Hcode.
  rewrite (catchBlock_unsent_run stream error st Hunsent). cbv zeta.
  match goal with
  | |- context [json ?p ?r0] =>
      destruct (json_invalid_status p r0 Hunsent Hcode)
        as (r & -> & Hstatus & Hsent & Hended & Hhs)
  end.
  exists r. now repeat split.
Qed.

(** The [catch] block once something has been written: it does nothing. *)
Lemma catchBlock_sent (stream : bool) (error : Error) (st : State) :
  headersSent (res st) = true -> catchBlock stream error st = (st, Ok tt).
Proof. intros H. unfold catchBlock. now rewrite H. Qed.

Lemma classifyStatus_marker (error : Error) :
  hasRateLimitMarker (message error) = true -> classifyStatus error = 429.
Proof.
  unfold hasRateLimitMarker, classifyStatus. simpl. rewrite orb_false_r, orb_assoc.
  now intros ->.
Qed.

Lemma classifyStatus_no_marker (error : Error) :
  hasRateLimitMarker (message error) = false ->
  classifyStatus error =
  match JS.status error with
  | Some s => if s =? 0 then 500 else s
  | None => 500
  end.
Proof.
  unfold hasRateLimitMarker, classifyStatus. simpl. rewrite orb_false_r, orb_assoc.
  now intros ->.
Qed.

End Catch.

(** C8. A body without [messages] is answered 400 with
    [{error: "messages is required"}], the response is ended, and no call is
    made: the list of upstream calls (credential fetch, invoker) is as it
    was, empty for a request that has just arrived. *)
Theorem missing_messages_is_400 :
  forall (env : Env) (body : Body) (st : State),
    messages body = None ->
    headersSent (res st) = false ->
    exists r : Response,
      chatCompletions env body st =
        ({| res := r; store := store st; calls := calls st |}, Ok tt) /\
      statusCode r = 400 /\
      sent r = sent (res st) ++ [JsonBody (ErrorText "messages is required")] /\
      ended r = true.
Proof.
  intros env body st Hm Hunsent.
  destruct (json_unsent (ErrorText "messages is required") (setStatus 400 (res st))
              Hunsent eq_refl)
    as (r & Hjson & Hstatus & Hsent & Hended & _).
  exists r. unfold chatCompletions, tryBlock. rewrite Hm.
  unfold bindM, onRes, onResR. cbn [res store calls]. rewrite Hjson.
  now repeat split.
Qed.

Lemma missing_messages_is_400_witness :
  let body := {| messages := None; b_model := Some "gemini-2.5-flash";
                 stream := Some true; b_tools := None; params := Sample.params0 |} in
  let st := fst (chatCompletions (Sample.env0 [] None Sample.boom) body (initialState ∅)) in
  statusCode (res st) = 400 /\
  sent (res st) = [JsonBody (ErrorText "messages is required")] /\
  calls st = [].
Proof.
  cbv zeta.
  destruct (missing_messages_is_400 (Sample.env0 [] None Sample.boom)
              {| messages := None; b_model := Some "gemini-2.5-flash";
                 stream := Some true; b_tools := None; params := Sample.params0 |}
              (initialState ∅) eq_refl eq_refl)
    as (r & Hrun & Hstatus & Hsent & _).
  rewrite Hrun. cbn [fst res calls initialState]. now split.
Defined.

(** C4, as the code has it. When the [try] block fails and nothing has
    been sent, the handler answers with a JSON error of the shape
    [{error: {message, type: "server_error", param: null, code}}] and ends
    the response: with status 429 and code [rate_limit_exceeded] when the
    message of the failure contains [429], [capacity] or
    [RESOURCE_EXHAUSTED]; otherwise with the failure's own status, when it
    has one that a body goes with (200 to 999, but 204, 205 and 304), and
    code [rate_limit_exceeded] for 429, [internal_error] for any other;
    otherwise, when the failure has no status, with status 500 and code
    [internal_error]. *)
Theorem failure_before_headers_is_classified :
  forall (env : Env) (body : Body) (st st1 : State) (error : Error),
    tryBlock env body st = (st1, Throw error) ->
    headersSent (res st1) = false ->
    (hasRateLimitMarker (message error) = true ->
     exists r : Response,
       chatCompletions env body st =
         ({| res := r; store := store st1; calls := calls st1 |}, Ok tt) /\
       statusCode r = 429 /\
       sent r = sent (res st1) ++ [errorBody (message error) "rate_limit_exceeded"] /\
       ended r = true) /\
    (hasRateLimitMarker (message error) = false ->
     forall s : Z,
       JS.status error = Some s -> carriesBody s = true ->
       exists r : Response,
         chatCompletions env body st =
           ({| res := r; store := store st1; calls := calls st1 |}, Ok tt) /\
         statusCode r = s /\
         sent r = sent (res st1) ++
                  [errorBody (message error)
                     (if s =? 429 then "rate_limit_exceeded" else "internal_error")] /\
         ended r = true) /\
    (hasRateLimitMarker (message error) = false ->
     JS.status error = None ->
     exists r : Response,
       chatCompletions env body st =
         ({| res := r; store := store st1; calls := calls st1 |}, Ok tt) /\
       statusCode r = 500 /\
       sent r = sent (res st1) ++ [errorBody (message error) "internal_error"] /\
       ended r = true).
Proof.
  intros env body st st1 error Htry Hunsent.
  assert (Hanswer : forall code : Z,
             classifyStatus error = code -> carriesBody code = true ->
             exists r : Response,
               chatCompletions env body st =
                 ({| res := r; store := store st1; calls := calls st1 |}, Ok tt) /\
               statusCode r = code /\
               sent r = sent (res st1) ++
                        [errorBody (message error)
                           (if code =? 429 then "rate_limit_exceeded"
                            else "internal_error")] /\
               ended r = true).
  { intros code Hcode Hbody. rewrite <- Hcode in Hbody.
    destruct (catchBlock_unsent (default false (stream body)) error st1 Hunsent Hbody)
      as (r & Hcatch & Hstatus & Hsent & Hended).
    exists r. unfold chatCompletions. rewrite Htry, Hcatch.
    rewrite Hcode in Hstatus, Hsent. unfold errorBody. now repeat split. }
  split; [| split].
  - intros Hmarker. apply (Hanswer 429); [| reflexivity].
    now apply classifyStatus_marker.
  - intros Hno s Hs Hbody. apply (Hanswer s); [| exact Hbody].
    rewrite (classifyStatus_no_marker _ Hno), Hs.
    destruct (Z.eqb_spec s 0) as [-> | _]; [discriminate Hbody | reflexivity].
  - intros Hno Hnone. apply (Hanswer 500); [| reflexivity].
    now rewrite (classifyStatus_no_marker _ Hno), Hnone.
Qed.

Lemma failure_before_headers_is_classified_witness :
  let st := fst (chatCompletions (Sample.env0 [] (Some Sample.exhausted) Sample.boom)
                   (Sample.body0 true) (initialState ∅)) in
  statusCode (res st) = 429 /\
  sent (res st) =
    [JsonBody (ErrorResponse
       {| eo_message := "Upstream said: RESOURCE_EXHAUSTED";
          eo_type := "server_error"; eo_param := None;
          eo_code := "rate_limit_exceeded" |})].
Proof.
  cbv zeta.
  destruct (proj1 (failure_before_headers_is_classified
              (Sample.env0 [] (Some Sample.exhausted) Sample.boom)
              (Sample.body0 true) (initialState ∅) _ Sample.exhausted eq_refl eq_refl)
              eq_refl)
    as (r & Hrun & Hstatus & Hsent & _).
  rewrite Hrun. cbn [fst res]. split; [exact Hstatus | exact Hsent].
Defined.

(** C4, as the specification words it (the status of the failure is used
    whenever it has one, and the body always has the error shape), fails:
    the batched invoker rejects with an error without marker whose status
    is 204, and the answer has status 204 and no body; it rejects with an
    error whose status is 99, and the answer itself fails: nothing is sent,
    the response is not ended and the range error leaves the handler. *)
Lemma own_status_counterexample :
  let no_content := {| message := "upstream said nothing"; status := Some 204 |} in
  let out204 := chatCompletions (Sample.env0 [] None no_content) (Sample.body0 false)
                  (initialState ∅) in
  let odd := {| message := "upstream said something odd"; status := Some 99 |} in
  let out99 := chatCompletions (Sample.env0 [] None odd) (Sample.body0 false)
                 (initialState ∅) in
  (statusCode (res (fst out204)) = 204 /\ sent (res (fst out204)) = [] /\
   ended (res (fst out204)) = true) /\
  (snd out99 = Throw (ERR_HTTP_INVALID_STATUS_CODE 99) /\
   sent (res (fst out99)) = [] /\ headersSent (res (fst out99)) = false /\
   ended (res (fst out99)) = false).
Proof. cbv zeta. repeat split; reflexivity. Qed.

(** ** The streaming relay *)

Section Relay.

(** The chunk the callback writes for an event is the one its type asks
    for. *)
Lemma chunkOf_relayed (meta : ResponseMeta) (model : string) (data : Event) :
  relayed meta model data (chunkOf meta model data).
Proof.
  unfold chunkOf, deltaOf.
  destruct (String.eqb_spec (ev_type data) "tool_calls") as [Htool | Htool].
  - now apply relayed_tool_calls.
  - destruct (String.eqb_spec (ev_type data) "thinking") as [Hthink | Hthink].
    + now apply relayed_thinking.
    + now apply relayed_text.
Qed.

(** A failure of the streaming invoker after at least one event: the
    chunks of the events were written, the [catch] block finds the
    headers sent and writes nothing, and the response is left open. *)
Lemma partial_stream_failure_leaves_stream_open
    (env : Env) (body : Body) (st : State) (msgs : list Message) (token : Token)
    (model : string) (σ' : Store) (requestBody : RequestBody)
    (data : Event) (events : list Event) (error : Error) :
  messages body = Some msgs ->
  getToken env = Ok (Some token) ->
  b_model body = Some model ->
  includes model "-image" = false ->
  stream body = Some true ->
  generateRequestBody (config env) (generateRequestId env) msgs model (params body)
    (b_tools body) token (store st) = (σ', Ok requestBody) ->
  generateAssistantResponse env requestBody token = (data :: events, Some error) ->
  headersSent (res st) = false ->
  ended (res st) = false ->
  exists r : Response,
    chatCompletions env body st =
      ({| res := r; store := σ';
          calls := calls st ++ [CallGetToken; CallStream requestBody token] |}, Ok tt) /\
    statusCode r = statusCode (res st) /\
    sent r = sent (res st) ++
             map (chunkOf (createResponseMeta env) model) (data :: events) /\
    ended r = false.
Proof.
  intros Hm Ht Hmodel Himg Hs Hgen Hup Hunsent Hopen.
  destruct (tryBlock_streaming env body st msgs token model σ' requestBody
              (data :: events) (Some error) Hm Ht Hmodel Himg Hs Hgen Hup Hunsent Hopen)
    as (r & Hstatus & Hsent & Hended & Hhs & Htry).
  exists r. unfold chatCompletions. rewrite Htry.
  rewrite catchBlock_sent by exact Hhs. now repeat split.
Qed.

End Relay.

(** C3. In the streaming path every upstream event is written as one chunk,
    in the order of arrival: a [thinking] event as a chunk whose delta is
    [{reasoning_content}], a [tool_calls] event as a chunk whose delta is
    [{tool_calls}], any other event as a chunk whose delta is [{content}],
    each with finish reason [null]. After the chunks of the events comes a
    chunk with an empty delta and finish reason [tool_calls] if some event
    was a tool call, [stop] otherwise, then [data: [DONE]], and the
    response is ended. *)
Theorem streaming_relay_chunks :
  forall (env : Env) (body : Body) (st : State) (msgs : list Message) (token : Token)
         (model : string) (σ' : Store) (requestBody : RequestBody) (events : list Event),
    messages body = Some msgs ->
    getToken env = Ok (Some token) ->
    b_model body = Some model ->
    includes model "-image" = false ->
    stream body = Some true ->
    generateRequestBody (config env) (generateRequestId env) msgs model (params body)
      (b_tools body) token (store st) = (σ', Ok requestBody) ->
    generateAssistantResponse env requestBody token = (events, None) ->
    headersSent (res st) = false ->
    ended (res st) = false ->
    let meta := {| id := "chatcmpl-" +:+ decimal (dateNow1 env);
                   created := dateNow2 env / 1000 |} in
    exists (r : Response) (chunks : list Sent),
      chatCompletions env body st =
        ({| res := r; store := σ';
            calls := calls st ++ [CallGetToken; CallStream requestBody token] |}, Ok tt) /\
      statusCode r = statusCode (res st) /\
      sent r = sent (res st) ++ chunks ++
               [finishChunk meta model
                  (if sawToolCall events then "tool_calls" else "stop");
                SseDone] /\
      Forall2 (relayed meta model) events chunks /\
      ended r = true.
Proof.
  intros env body st msgs token model σ' requestBody events
    Hm Ht Hmodel Himg Hs Hgen Hup Hunsent Hopen meta.
  destruct (tryBlock_streaming env body st msgs token model σ' requestBody
              events None Hm Ht Hmodel Himg Hs Hgen Hup Hunsent Hopen)
    as (r & Hstatus & Hsent & Hended & Hhs & Htry).
  change (createResponseMeta env) with meta in Hsent, Htry.
  rewrite endStream_open in Htry by exact Hended.
  eexists. exists (map (chunkOf meta model) events).
  unfold chatCompletions. rewrite Htry. cbn [res store calls].
  split; [reflexivity |]. cbn [statusCode sent ended].
  rewrite Hsent, <- app_assoc. repeat split; [exact Hstatus |].
  clear. induction events as [|data events IH]; constructor; [| exact IH].
  apply chunkOf_relayed.
Qed.

Lemma streaming_relay_chunks_witness :
  let env := Sample.env0
               [Sample.thinking "a"; Sample.text "b"; Sample.toolCalls [Sample.tc1]]
               None Sample.boom in
  let st := fst (chatCompletions env (Sample.body0 true) (initialState ∅)) in
  let chunk := fun (delta : Delta) (finish_reason : option string) =>
    SseData {| ch_id := "chatcmpl-1700000000123";
               ch_object := "chat.completion.chunk";
               ch_created := 1700000000;
               ch_model := "gemini-2.5-flash";
               choices := [{| index := 0; delta := delta;
                              finish_reason := finish_reason |}] |} in
  sent (res st) =
    [chunk (DeltaReasoning "a") None;
     chunk (DeltaContent "b") None;
     chunk (DeltaToolCalls
              [{| tc_id := "call_1";
                  tc_function := {| fn_name := "get_weather"; fn_arguments := "{}" |} |}])
           None;
     chunk DeltaEmpty (Some "tool_calls");
     SseDone] /\
  ended (res st) = true /\ statusCode (res st) = 200.
Proof.
  cbv zeta.
  destruct (streaming_relay_chunks
              (Sample.env0
                 [Sample.thinking "a"; Sample.text "b"; Sample.toolCalls [Sample.tc1]]
                 None Sample.boom)
              (Sample.body0 true) (initialState ∅) [Sample.hello] Sample.token0
              "gemini-2.5-flash" ∅ _
              [Sample.thinking "a"; Sample.text "b"; Sample.toolCalls [Sample.tc1]]
              eq_refl eq_refl eq_refl eq_refl eq_refl eq_refl eq_refl eq_refl eq_refl)
    as (r & chunks & Hrun & Hstatus & Hsent & Hrel & Hended).
  rewrite Hrun. cbn [fst res]. split; [| split; [exact Hended | exact Hstatus]].
  rewrite Hsent. clear Hrun Hstatus Hsent Hended.
  repeat match goal with
         | H : Forall2 _ _ _ |- _ => inversion H; subst; clear H
         end.
  repeat match goal with
         | H : relayed _ _ _ _ |- _ =>
             inversion H; subst; clear H; try discriminate;
             try (exfalso; match goal with Hne : _ <> _ |- _ => now apply Hne end)
         end.
  reflexivity.
Defined.

(** C1, on the code. The streaming invoker delivers one text event and
    then fails. The handler writes the chunk of that event and nothing
    else: no delta carrying the error, no chunk with finish reason [stop],
    no [data: [DONE]], and the response is not ended. The status stays
    200. *)
Theorem failure_after_first_chunk_is_dropped :
  let env := Sample.env0 [Sample.text "a"] (Some Sample.boom) Sample.boom in
  let out := chatCompletions env (Sample.body0 true) (initialState ∅) in
  let chunk :=
    {| ch_id := "chatcmpl-1700000000123";
       ch_object := "chat.completion.chunk";
       ch_created := 1700000000;
       ch_model := "gemini-2.5-flash";
       choices := [{| index := 0; delta := DeltaContent "a"; finish_reason := None |}] |} in
  snd out = Ok tt /\
  sent (res (fst out)) = [SseData chunk] /\
  ended (res (fst out)) = false /\
  headersSent (res (fst out)) = true /\
  statusCode (res (fst out)) = 200.
Proof. cbv zeta. repeat split; reflexivity. Qed.

(** A request with a wrong key is answered by the middleware: the handler
    does not run and no call is made. *)
Example serve_wrong_key :
  let req := {| method := "POST"; path := "/v1/chat/completions";
                authorization := Some "Bearer wrong"; body := Sample.body0 false |} in
  exists out : State * Result unit,
    serve (Sample.env0 [] None Sample.boom) req ∅ = Some out /\
    statusCode (res (fst out)) = 401 /\
    sent (res (fst out)) = [JsonBody (ErrorText "Invalid API Key")] /\
    calls (fst out) = [].
Proof. cbv zeta. eexists. repeat split; reflexivity. Qed.

(** A request with the right key for another route does not reach the
    chat handler. *)
Example serve_other_route :
  serve (Sample.env0 [] None Sample.boom)
    {| method := "POST"; path := "/v1/completions";
       authorization := Some "Bearer sk-text"; body := Sample.body0 false |} ∅ = None /\
  serve (Sample.env0 [] None Sample.boom)
    {| method := "GET"; path := "/v1/models";
       authorization := Some "Bearer sk-text"; body := Sample.body0 false |} ∅ = None.
Proof. split; reflexivity. Qed.

(** ** The string operations, against their meaning *)

Section StringOperations.

Lemma startsWith_spec (s p : string) :
  startsWith s p = true <-> exists r : string, s = p +:+ r.
Proof.
  unfold startsWith. revert s.
  induction p as [|a p IH]; intros s.
  - split; [intros _; now exists s | intros _; now destruct s].
  - destruct s as [|b s]; simpl.
    + split; [discriminate | intros [r Hr]; discriminate].
    + destruct (ascii_dec a b) as [<- | Hne].
      * rewrite IH. split; intros [r Hr]; exists r; [now rewrite Hr | now injection Hr].
      * split; [discriminate | intros [r Hr]; injection Hr as Hab _; congruence].
Qed.

Lemma slice_app (p r : string) : slice (String.length p) (p +:+ r) = r.
Proof. induction p as [|a p IH]; simpl; [now destruct r | exact IH]. Qed.

Lemma slice_split (n : nat) (s : string) :
  (n <= String.length s)%nat ->
  exists p : string, s = p +:+ slice n s /\ String.length p = n.
Proof.
  revert s. induction n as [|n IH]; intros s Hn.
  - exists EmptyString. now destruct s.
  - destruct s as [|a s]; simpl in *; [lia |].
    destruct (IH s) as (p & Hp & Hlen); [lia |].
    exists (String a p). simpl. split; [now rewrite <- Hp | now rewrite Hlen].
Qed.

Lemma endsWith_spec (s suffix : string) :
  endsWith s suffix = true <-> exists p : string, s = p +:+ suffix.
Proof.
  unfold endsWith. rewrite andb_true_iff, Nat.leb_le, String.eqb_eq. split.
  - intros [Hlen Heq].
    destruct (slice_split (String.length s - String.length suffix) s) as (p & Hp & _);
      [lia |].
    exists p. now rewrite <- Heq.
  - intros [p ->]. rewrite string_length_app. split; [lia |].
    replace (String.length p + String.length suffix - String.length suffix)%nat
      with (String.length p) by lia.
    apply slice_app.
Qed.

Lemma includes_spec (s needle : string) :
  includes s needle = true <-> exists a b : string, s = a +:+ needle +:+ b.
Proof.
  induction s as [|c s IH].
  - change (includes EmptyString needle) with (startsWith EmptyString needle || false).
    rewrite orb_false_r, startsWith_spec.
    split.
    + intros [r Hr]. now exists EmptyString, r.
    + intros (a & b & Hab). destruct a; [now exists b | discriminate].
  - change (includes (String c s) needle)
      with (startsWith (String c s) needle || includes s needle).
    rewrite orb_true_iff, startsWith_spec, IH. split.
    + intros [[r Hr] | (a & b & Hab)].
      * now exists EmptyString, r.
      * exists (String c a), b. simpl. now rewrite Hab.
    + intros (a & b & Hab). destruct a as [|x a]; simpl in Hab.
      * left. now exists b.
      * right. injection Hab as _ Hab. now exists a, b.
Qed.

End StringOperations.

(** ** The content extractor *)

Section ContentExtractor.

Lemma spanWord_app (w rest : string) :
  allWord w = true ->
  match rest with
  | EmptyString => True
  | String c _ => isWordChar c = false
  end ->
  spanWord (w +:+ rest) = (w, rest).
Proof.
  intros Hw Hrest. induction w as [|a w IH]; simpl in *.
  - destruct rest as [|c rest]; [reflexivity |]. simpl. now rewrite Hrest.
  - apply andb_true_iff in Hw as [Ha Hw]. rewrite Ha, (IH Hw). reflexivity.
Qed.

Lemma spanWord_spec (s w rest : string) :
  spanWord s = (w, rest) -> s = w +:+ rest /\ allWord w = true.
Proof.
  revert w rest. induction s as [|c s IH]; intros w rest; simpl.
  - now intros [= <- <-].
  - destruct (isWordChar c) eqn:Hc.
    + destruct (spanWord s) as [w' r'] eqn:Hs. intros [= <- <-].
      destruct (IH _ _ eq_refl) as [-> Hw]. simpl. now rewrite Hc, Hw.
    + now intros [= <- <-].
Qed.

Lemma extract_fold (items : list ContentItem) :
  forall result : Extracted,
    fold_left extractItem items result =
    {| ex_text := ex_text result +:+ concatText (map itemText items);
       ex_images := ex_images result ++ omap itemImage items |}.
Proof.
  induction items as [|item items IH]; intros result; simpl.
  - rewrite string_app_nil, app_nil_r. now destruct result.
  - rewrite IH. destruct item as [t | [url|] | ty]; simpl.
    + now rewrite string_app_assoc.
    + destruct (matchDataUri url) as [[format base64Data]|]; simpl;
        [now rewrite <- app_assoc | reflexivity].
    + reflexivity.
    + reflexivity.
Qed.

End ContentExtractor.

(** X1. Round trip of an inline image: the data URI built from a format made
    of word characters and a payload without line terminators, both
    non-empty, is decoded to that format and that payload. *)
Theorem matchDataUri_decodes_dataUri :
  forall format data : string,
    format <> EmptyString -> allWord format = true ->
    data <> EmptyString -> allDot data = true ->
    matchDataUri (dataUri format data) = Some (format, data).
Proof.
  intros format data Hf Hw Hd Hdot. unfold matchDataUri, dataUri.
  assert (Hstart : startsWith ("data:image/" +:+ format +:+ ";base64," +:+ data)
                     "data:image/" = true).
  { apply startsWith_spec. now eexists. }
  rewrite Hstart.
  change (slice 11 ("data:image/" +:+ format +:+ ";base64," +:+ data))
    with (format +:+ ";base64," +:+ data).
  rewrite (spanWord_app format (";base64," +:+ data) Hw) by reflexivity.
  destruct format as [|a format]; [congruence |].
  assert (Hb : startsWith (";base64," +:+ data) ";base64," = true).
  { apply startsWith_spec. now eexists. }
  rewrite Hb.
  change (slice 8 (";base64," +:+ data)) with data.
  destruct data as [|b data]; [congruence |]. now rewrite Hdot.
Qed.

Lemma matchDataUri_decodes_dataUri_witness :
  matchDataUri "data:image/png;base64,iVBORw0KGgo=" = Some ("png", "iVBORw0KGgo=").
Proof.
  apply (matchDataUri_decodes_dataUri "png" "iVBORw0KGgo=");
    [discriminate | reflexivity | discriminate | reflexivity].
Defined.

(** X2. Only data URIs of images decode: when a URL is decoded to a format
    and a payload, it is [data:image/<format>;base64,<payload>] with a
    non-empty format of word characters and a non-empty payload free of
    line feeds and carriage returns. Every other URL gives no image. *)
Theorem matchDataUri_only_dataUri :
  forall url format data : string,
    matchDataUri url = Some (format, data) ->
    url = dataUri format data /\
    format <> EmptyString /\ allWord format = true /\
    data <> EmptyString /\ allDot data = true.
Proof.
  intros url format data. unfold matchDataUri.
  destruct (startsWith url "data:image/") eqn:Hstart; [| discriminate].
  apply startsWith_spec in Hstart as [r ->].
  change (slice 11 ("data:image/" +:+ r)) with r.
  destruct (spanWord r) as [w r'] eqn:Hspan.
  apply spanWord_spec in Hspan as [-> Hw].
  destruct w as [|a w]; [discriminate |].
  destruct (startsWith r' ";base64,") eqn:Hb; [| discriminate].
  apply startsWith_spec in Hb as [d ->].
  change (slice 8 (";base64," +:+ d)) with d.
  destruct d as [|b d]; [discriminate |].
  destruct (allDot (String b d)) eqn:Hdot; [| discriminate].
  intros [= <- <-]. unfold dataUri. repeat split; try assumption; discriminate.
Qed.

Lemma matchDataUri_only_dataUri_witness :
  "data:image/jpeg;base64,AAAA" = dataUri "jpeg" "AAAA".
Proof.
  apply (matchDataUri_only_dataUri "data:image/jpeg;base64,AAAA" "jpeg" "AAAA" eq_refl).
Defined.

(** X3. For an array content the extracted text is the texts of the [text]
    items, concatenated in their order, and the images are the decoded
    [image_url] items, in their order: an item of another type, an image
    without URL and an image whose URL does not decode are skipped, and no
    item makes the extraction fail. *)
Theorem extractImagesFromContent_array :
  forall items : list ContentItem,
    extractImagesFromContent (CArr items) =
    {| ex_text := concatText (map itemText items);
       ex_images := omap itemImage items |}.
Proof.
  intros items. unfold extractImagesFromContent. now rewrite extract_fold.
Qed.

(** ** The translator, beyond the specification *)

Section TranslatorProperties.

Lemma noFunctionCall_nil : noFunctionCall [].
Proof. intros t id n []. Qed.

Lemma scanParts_no_call (ps : list Part) (id functionName : option string) :
  (forall cid n, ~ In (PFunctionCall cid n) ps) ->
  scanParts ps id functionName = functionName.
Proof.
  induction ps as [|p ps IH]; intros Hno; simpl; [reflexivity |].
  assert (Hps : forall cid n, ~ In (PFunctionCall cid n) ps).
  { intros cid n Hin. apply (Hno cid n). now right. }
  destruct p as [t | m d | cid cname | rid rname r]; try now apply IH.
  exfalso. apply (Hno cid cname). now left.
Qed.

Lemma scanTurns_no_call (revTurns : list Turn) (id functionName : option string) :
  (forall t cid n, In t revTurns -> ~ In (PFunctionCall cid n) (parts t)) ->
  truthy functionName = false ->
  scanTurns revTurns id functionName = functionName.
Proof.
  induction revTurns as [|t older IH]; intros Hno Hf; simpl; [reflexivity |].
  rewrite scanParts_no_call by (intros cid n; apply Hno; now left).
  destruct (String.eqb (turn_role t) "model"); rewrite Hf;
    apply IH; try assumption; intros t' cid n Hin; apply Hno; now right.
Qed.

(** With no function call in the turns, the name of a tool result does not
    depend on them. *)
Lemma resolve_without_calls (m : Message) (acc : list Turn) :
  noFunctionCall acc ->
  orUnknownTool (resolveFunctionName m acc) = orUnknownTool (name m).
Proof.
  intros Hno. unfold resolveFunctionName.
  destruct (truthy (name m)) eqn:Hn; simpl; [reflexivity |].
  rewrite scanTurns_no_call; [reflexivity | | exact Hn].
  intros t cid n Hin. apply Hno. now apply in_rev.
Qed.

(** A message is translated the same way after any turns without function
    call as at the start of the conversation. *)
Lemma translateMessage_shift (acc : list Turn) (m : Message) :
  noFunctionCall acc ->
  translateMessage acc m = let! new := translateMessage [] m in Ok (acc ++ new).
Proof.
  intros Hno. unfold translateMessage.
  destruct (String.eqb (role m) "user"); [reflexivity |].
  destruct (String.eqb (role m) "assistant").
  - unfold handleAssistantMessage.
    match goal with
    | |- JS.bind ?p _ = _ => destruct p as [ps|e]; reflexivity
    end.
  - destruct (String.eqb (role m) "tool"); simpl; [| now rewrite app_nil_r].
    unfold fakeUserToolMessage.
    now rewrite (resolve_without_calls m acc Hno),
                (resolve_without_calls m [] noFunctionCall_nil).
Qed.

Lemma translateFrom_shift (msgs : list Message) :
  forall acc : list Turn,
    noFunctionCall acc ->
    translateFrom acc msgs = let! new := translateFrom [] msgs in Ok (acc ++ new).
Proof.
  induction msgs as [|m msgs IH]; intros acc Hno; simpl.
  - now rewrite app_nil_r.
  - rewrite (translateMessage_shift acc m Hno).
    destruct (translateMessage [] m) as [new|e] eqn:Hm; simpl; [| reflexivity].
    assert (Hnew : noFunctionCall new).
    { now apply (translateMessage_noFunctionCall [] new m noFunctionCall_nil). }
    assert (Hboth : noFunctionCall (acc ++ new)).
    { intros t id n Hin. apply in_app_iff in Hin as [Hin | Hin];
        [now apply Hno | now apply Hnew]. }
    rewrite (IH _ Hboth), (IH _ Hnew).
    destruct (translateFrom [] msgs) as [rest|e]; simpl; [| reflexivity].
    now rewrite app_assoc.
Qed.

Lemma translateFrom_app (a b : list Message) :
  forall acc : list Turn,
    translateFrom acc (a ++ b) = let! mid := translateFrom acc a in translateFrom mid b.
Proof.
  induction a as [|m a IH]; intros acc; simpl; [reflexivity |].
  destruct (translateMessage acc m) as [acc'|e]; simpl; [apply IH | reflexivity].
Qed.

Lemma translateMessage_unrenderable (acc : list Turn) (m : Message) :
  translateMessage acc m =
  if unrenderable m
  then Throw (TypeError "content.trim is not a function")
  else match translateMessage acc m with
       | Ok acc' => Ok acc'
       | Throw _ => Ok acc
       end.
Proof.
  unfold unrenderable, translateMessage.
  destruct (String.eqb (role m) "user") eqn:Hu.
  - apply eqb_string_true in Hu. rewrite Hu. reflexivity.
  - destruct (String.eqb (role m) "assistant") eqn:Ha; simpl.
    + destruct (content m) as [|s|items] eqn:Hc.
      * destruct (handleAssistantMessage_returns m acc) as [turns Hr];
          [rewrite Hc; intros [? ?]; discriminate | now rewrite Hr].
      * destruct (handleAssistantMessage_returns m acc) as [turns Hr];
          [rewrite Hc; intros [? ?]; discriminate | now rewrite Hr].
      * destruct (tool_calls m) as [[|tc tcs]|] eqn:Ht.
        -- unfold handleAssistantMessage. now rewrite Hc, Ht.
        -- destruct (handleAssistantMessage_returns m acc) as [turns Hr];
             [rewrite Ht; eauto | now rewrite Hr].
        -- unfold handleAssistantMessage. now rewrite Hc, Ht.
    + now destruct (String.eqb (role m) "tool").
Qed.

End TranslatorProperties.

(** X4. Every turn the translator returns is a [user] or a [model] turn
    with at least one part, and there are never more turns than
    messages. *)
Theorem translated_turns_are_well_formed :
  forall (msgs : list Message) (turns : list Turn),
    openaiMessageToAntigravity msgs = Ok turns ->
    Forall (fun t => (turn_role t = "user" \/ turn_role t = "model") /\ parts t <> [])
      turns /\
    (length turns <= length msgs)%nat.
Proof.
  intros msgs turns H. unfold openaiMessageToAntigravity in H.
  destruct (translateFrom_mirrors _ _ _ H) as (new & -> & Hnew). simpl. split.
  - clear H. induction Hnew as [|m t ms ts Hmt _ IH]; constructor; [| exact IH].
    destruct Hmt as [[_ ->] | [(_ & Hr & text & Hp) | (_ & Hr & fname & Hp)]].
    + simpl. split; [now left | discriminate].
    + rewrite Hr, Hp. split; [now right | discriminate].
    + rewrite Hr, Hp. split; [now left | discriminate].
  - rewrite <- (Forall2_length _ _ _ Hnew). apply List.filter_length_le.
Qed.

Lemma translated_turns_are_well_formed_witness :
  Forall (fun t => (turn_role t = "user" \/ turn_role t = "model") /\ parts t <> [])
    [{| turn_role := "user"; parts := [PText "hi"] |}].
Proof.
  apply (translated_turns_are_well_formed [Sample.hello]
           [{| turn_role := "user"; parts := [PText "hi"] |}] eq_refl).
Defined.

(** X5. After any conversation the translator has translated, a [tool]
    message without a (non-empty) [name] gets the name ["unknown_tool"],
    whatever its [tool_call_id]: the tool calls of assistant messages are
    rendered as text, so the scan of the prior turns has no function call
    to find. *)
Theorem unnamed_tool_result_is_unknown_tool :
  forall (msgs : list Message) (acc : list Turn) (m : Message),
    openaiMessageToAntigravity msgs = Ok acc ->
    role m = "tool" ->
    truthy (name m) = false ->
    translateMessage acc m = Ok (acc ++ [unknownToolTurn m]).
Proof.
  intros msgs acc m Hacc Hrole Hname.
  assert (Hno : noFunctionCall acc).
  { apply (translateFrom_noFunctionCall msgs [] acc noFunctionCall_nil Hacc). }
  unfold translateMessage. rewrite Hrole. simpl.
  unfold fakeUserToolMessage, unknownToolTurn.
  rewrite (resolve_without_calls m acc Hno).
  now rewrite (orUnknownTool_falsy _ Hname).
Qed.

Lemma unnamed_tool_result_is_unknown_tool_witness :
  let call := {| role := "assistant"; content := CStr "let me check";
                 tool_calls := Some [Sample.tc1]; tool_call_id := None; name := None |} in
  let result := {| role := "tool"; content := CStr "sunny"; tool_calls := None;
                   tool_call_id := Some "call_1"; name := None |} in
  let said := {| turn_role := "model";
                 parts := [PText ("let me check" +:+ LF +:+
                   "[System Note: Model requested tool 'get_weather' with args: {}]")] |} in
  openaiMessageToAntigravity [call] = Ok [said] /\
  translateMessage [said] result =
    Ok [said;
        {| turn_role := "user";
           parts := [PFunctionResponse None "unknown_tool" (RespContent (CStr "sunny"))] |}].
Proof.
  cbv zeta. split; [reflexivity |].
  apply (unnamed_tool_result_is_unknown_tool
           [{| role := "assistant"; content := CStr "let me check";
               tool_calls := Some [Sample.tc1]; tool_call_id := None; name := None |}]
           [{| turn_role := "model";
               parts := [PText ("let me check" +:+ LF +:+
                 "[System Note: Model requested tool 'get_weather' with args: {}]")] |}]
           {| role := "tool"; content := CStr "sunny"; tool_calls := None;
              tool_call_id := Some "call_1"; name := None |}
           eq_refl eq_refl eq_refl).
Defined.

(** X6. The translation of a conversation is the translation of its
    beginning followed by the translation of its end: no message is
    translated differently because of the messages before it, and a failure
    in either part is the failure of the whole. *)
Theorem openaiMessageToAntigravity_app :
  forall a b : list Message,
    openaiMessageToAntigravity (a ++ b) =
    let! first := openaiMessageToAntigravity a in
    let! second := openaiMessageToAntigravity b in
    Ok (first ++ second).
Proof.
  intros a b. unfold openaiMessageToAntigravity.
  rewrite translateFrom_app.
  destruct (translateFrom [] a) as [first|e] eqn:Ha; simpl; [| reflexivity].
  apply translateFrom_shift.
  apply (translateFrom_noFunctionCall a [] first noFunctionCall_nil Ha).
Qed.

(** X7. The translator fails exactly when some assistant message has an
    array as content and no tool call: it then raises the type error of
    [content.trim], for the whole conversation; in every other case it
    returns turns. *)
Theorem openaiMessageToAntigravity_fails_on_array_content :
  forall msgs : list Message,
    (existsb unrenderable msgs = true ->
     openaiMessageToAntigravity msgs = Throw (TypeError "content.trim is not a function")) /\
    (existsb unrenderable msgs = false ->
     exists turns : list Turn, openaiMessageToAntigravity msgs = Ok turns).
Proof.
  intros msgs. unfold openaiMessageToAntigravity. generalize (@nil Turn) as acc.
  induction msgs as [|m msgs IH]; intros acc; simpl.
  - split; [discriminate | eauto].
  - rewrite (translateMessage_unrenderable acc m).
    destruct (unrenderable m); simpl.
    + split; [reflexivity | discriminate].
    + destruct (translateMessage acc m) as [acc'|e]; simpl; apply IH.
Qed.

Lemma openaiMessageToAntigravity_fails_on_array_content_witness :
  openaiMessageToAntigravity
    [Sample.hello;
     {| role := "assistant"; content := CArr [ItemText "hello"]; tool_calls := None;
        tool_call_id := None; name := None |}] =
  Throw (TypeError "content.trim is not a function").
Proof.
  apply (proj1 (openaiMessageToAntigravity_fails_on_array_content
                  [Sample.hello;
                   {| role := "assistant"; content := CArr [ItemText "hello"];
                      tool_calls := None; tool_call_id := None; name := None |}])).
  reflexivity.
Defined.

(** ** The merge path of tool results *)

Section MergePath.

Lemma scanTurnsMerge_skips_user (t : Turn) (older : list Turn)
    (id functionName : option string) :
  String.eqb (turn_role t) "model" = false ->
  scanTurnsMerge (t :: older) id functionName = scanTurnsMerge older id functionName.
Proof. intros H. simpl. now rewrite H. Qed.

Lemma mergedResponse_after_user (before : list Turn) (ps : list Part) (m : Message) :
  mergedResponse (before ++ [{| turn_role := "user"; parts := ps |}]) m =
  mergedResponse before m.
Proof.
  unfold mergedResponse. rewrite rev_app_distr. simpl rev. simpl app.
  now rewrite scanTurnsMerge_skips_user.
Qed.

Lemma handleToolCall_starts_turn (m : Message) (acc : list Turn) :
  endsWithToolResults acc = false ->
  handleToolCall m acc =
  acc ++ [{| turn_role := "user"; parts := [mergedResponse acc m] |}].
Proof.
  unfold endsWithToolResults, handleToolCall, mergedResponse.
  destruct (rev acc) as [|lastMessage before]; [reflexivity |].
  now intros ->.
Qed.

Lemma handleToolCall_extends_turn (m : Message) (before : list Turn) (ps : list Part) :
  existsb isFunctionResponse ps = true ->
  handleToolCall m (before ++ [{| turn_role := "user"; parts := ps |}]) =
  before ++ [{| turn_role := "user"; parts := ps ++ [mergedResponse before m] |}].
Proof.
  intros Hps. rewrite <- (mergedResponse_after_user before ps m).
  unfold handleToolCall, mergedResponse.
  rewrite rev_app_distr. simpl rev. simpl app. cbn [turn_role parts].
  rewrite Hps. simpl. now rewrite rev_involutive.
Qed.

Lemma handleToolCall_fold_extends (ms : list Message) (before : list Turn) :
  forall ps : list Part,
    existsb isFunctionResponse ps = true ->
    fold_left (fun turns m => handleToolCall m turns) ms
      (before ++ [{| turn_role := "user"; parts := ps |}]) =
    before ++ [{| turn_role := "user";
                  parts := ps ++ map (mergedResponse before) ms |}].
Proof.
  induction ms as [|m ms IH]; intros ps Hps; simpl.
  - now rewrite app_nil_r.
  - rewrite (handleToolCall_extends_turn m before ps Hps), IH.
    + now rewrite <- app_assoc.
    + rewrite existsb_app, Hps. reflexivity.
Qed.

End MergePath.

(** X8. The merge path, [handleToolCall]: when the conversation does not
    already end with tool results, any number of consecutive tool results
    are gathered, in their order, in ONE new [user] turn, each as a function
    response that keeps its [tool_call_id]; the turns before are left as
    they were. *)
Theorem handleToolCall_gathers_results :
  forall (acc : list Turn) (m : Message) (ms : list Message),
    endsWithToolResults acc = false ->
    fold_left (fun turns m => handleToolCall m turns) (m :: ms) acc =
    acc ++ [{| turn_role := "user"; parts := map (mergedResponse acc) (m :: ms) |}].
Proof.
  intros acc m ms Hacc. simpl.
  rewrite (handleToolCall_starts_turn m acc Hacc).
  now rewrite handleToolCall_fold_extends.
Qed.

Lemma handleToolCall_gathers_results_witness :
  let asked := {| turn_role := "model";
                  parts := [PFunctionCall (Some "c1") "f"; PFunctionCall (Some "c2") "g"] |} in
  let r1 := {| role := "tool"; content := CStr "1"; tool_calls := None;
               tool_call_id := Some "c1"; name := None |} in
  let r2 := {| role := "tool"; content := CStr "2"; tool_calls := None;
               tool_call_id := Some "c2"; name := None |} in
  handleToolCall r2 (handleToolCall r1 [asked]) =
    [asked;
     {| turn_role := "user";
        parts := [PFunctionResponse (Some "c1") "f" (RespOutput (CStr "1"));
                  PFunctionResponse (Some "c2") "g" (RespOutput (CStr "2"))] |}].
Proof.
  cbv zeta.
  apply (handleToolCall_gathers_results
           [{| turn_role := "model";
               parts := [PFunctionCall (Some "c1") "f"; PFunctionCall (Some "c2") "g"] |}]
           {| role := "tool"; content := CStr "1"; tool_calls := None;
              tool_call_id := Some "c1"; name := None |}
           [{| role := "tool"; content := CStr "2"; tool_calls := None;
               tool_call_id := Some "c2"; name := None |}]
           eq_refl).
Defined.

(** ** Model policy and request assembly, beyond the specification *)

Section ModelPolicy.

Lemma modelMapping_cases (n : string) :
  (n = "claude-sonnet-4-5-thinking" /\ modelMapping n = "claude-sonnet-4-5") \/
  (n = "claude-opus-4-5" /\ modelMapping n = "claude-opus-4-5-thinking") \/
  (n = "gemini-2.5-flash-thinking" /\ modelMapping n = "gemini-2.5-flash") \/
  (n <> "claude-sonnet-4-5-thinking" /\ n <> "claude-opus-4-5" /\
   n <> "gemini-2.5-flash-thinking" /\ modelMapping n = n).
Proof.
  unfold modelMapping.
  destruct (String.eqb_spec n "claude-sonnet-4-5-thinking") as [-> | H1]; [now left |].
  destruct (String.eqb_spec n "claude-opus-4-5") as [-> | H2]; [right; now left |].
  destruct (String.eqb_spec n "gemini-2.5-flash-thinking") as [-> | H3];
    [right; right; now left |].
  right; right; right. now repeat split.
Qed.

Lemma modelMapping_keeps_claude (n : string) :
  includes (modelMapping n) "claude" = includes n "claude".
Proof.
  destruct (modelMapping_cases n)
    as [[-> ->] | [[-> ->] | [[-> ->] | (_ & _ & _ & ->)]]]; reflexivity.
Qed.

End ModelPolicy.

(** X9. Alias resolution is idempotent: a name it returns is returned
    unchanged when resolved again. *)
Theorem modelMapping_idempotent :
  forall modelName : string,
    modelMapping (modelMapping modelName) = modelMapping modelName.
Proof.
  intros n.
  destruct (modelMapping_cases n)
    as [[-> ->] | [[-> ->] | [[-> ->] | (H1 & H2 & H3 & Hid)]]]; try reflexivity.
  now rewrite !Hid.
Qed.

(** X10. In the request body the reasoning channel follows the
    client-facing name, not the resolved one: the thoughts are included and
    the budget is 1024 exactly when [isEnableThinking] holds of the name the
    client sent (the budget is 0 otherwise); the nucleus-sampling parameter
    is absent exactly when that name is reasoning-enabled and contains
    [claude]; one candidate is always requested; and the model sent upstream
    is the resolved name. *)
Theorem generateRequestBody_generation_config :
  forall (config : Config) (newRequestId : string) (openaiMessages : list Message)
         (modelName : string) (parameters : Parameters)
         (openaiTools : option (list Tool)) (token : Token) (σ σ' : Store)
         (requestBody : RequestBody),
    generateRequestBody config newRequestId openaiMessages modelName parameters
      openaiTools token σ = (σ', Ok requestBody) ->
    let gc := generationConfig (request requestBody) in
    model requestBody = modelMapping modelName /\
    thinkingConfig gc =
      Some {| includeThoughts := isEnableThinking modelName;
              thinkingBudget := if isEnableThinking modelName then 1024 else 0 |} /\
    (topP gc = None <->
     isEnableThinking modelName = true /\ includes modelName "claude" = true) /\
    candidateCount gc = 1 /\
    is_Some (topK gc) /\ is_Some (gc_temperature gc) /\ is_Some (maxOutputTokens gc).
Proof.
  intros config newRequestId openaiMessages modelName parameters openaiTools token
    σ σ' requestBody. unfold generateRequestBody.
  destruct (openaiMessageToAntigravity openaiMessages) as [turns|e]; [| discriminate].
  destruct (convertOpenAIToolsToAntigravity openaiTools σ) as [σ1 [ds|e]];
    simpl; [| discriminate].
  intros [= <- <-]. cbn [request generationConfig model].
  unfold generateGenerationConfig. rewrite modelMapping_keeps_claude.
  destruct (isEnableThinking modelName), (includes modelName "claude"); simpl;
    repeat split; eauto; try discriminate; intros [? ?]; discriminate.
Qed.

Lemma generateRequestBody_generation_config_witness :
  exists (σ' : Store) (requestBody : RequestBody),
    generateRequestBody Sample.config0 "req-1" [Sample.hello]
      "claude-sonnet-4-5-thinking" Sample.params0 None Sample.token0 ∅ =
      (σ', Ok requestBody) /\
    model requestBody = "claude-sonnet-4-5" /\
    topP (generationConfig (request requestBody)) = None.
Proof.
  eexists. eexists. split; [reflexivity |].
  destruct (generateRequestBody_generation_config Sample.config0 "req-1" [Sample.hello]
              "claude-sonnet-4-5-thinking" Sample.params0 None Sample.token0 ∅ _ _ eq_refl)
    as (Hmodel & _ & Htop & _).
  split; [exact Hmodel |]. apply Htop. split; reflexivity.
Defined.

(** X11. A model name is reasoning-enabled exactly when it ends with
    [-thinking], is [gemini-2.5-pro], starts with [gemini-3-pro-], or is
    [rev19-uic3-1p] or [gpt-oss-120b-medium]. *)
Theorem isEnableThinking_names :
  forall modelName : string,
    isEnableThinking modelName = true <->
    (exists p : string, modelName = p +:+ "-thinking") \/
    modelName = "gemini-2.5-pro" \/
    (exists r : string, modelName = "gemini-3-pro-" +:+ r) \/
    modelName = "rev19-uic3-1p" \/
    modelName = "gpt-oss-120b-medium".
Proof.
  intros n. unfold isEnableThinking.
  rewrite !orb_true_iff, endsWith_spec, startsWith_spec, !String.eqb_eq. tauto.
Qed.

Lemma isEnableThinking_names_witness :
  isEnableThinking "claude-opus-4-5-thinking" = true.
Proof.
  apply (proj2 (isEnableThinking_names "claude-opus-4-5-thinking")).
  left. now exists "claude-opus-4-5".
Defined.

(** X12. The system instruction of the request is the content of the FIRST
    [system] message of the conversation, whatever the configuration says
    and even when that content is empty or absent (the text is then empty);
    the configured instruction is used only when the conversation has no
    [system] message. *)
Theorem generateRequestBody_system_instruction :
  forall (config : Config) (newRequestId : string) (openaiMessages : list Message)
         (modelName : string) (parameters : Parameters)
         (openaiTools : option (list Tool)) (token : Token) (σ σ' : Store)
         (requestBody : RequestBody),
    generateRequestBody config newRequestId openaiMessages modelName parameters
      openaiTools token σ = (σ', Ok requestBody) ->
    (forall (before after : list Message) (sys : Message),
        openaiMessages = before ++ sys :: after ->
        Forall (fun m => role m <> "system") before ->
        role sys = "system" ->
        rq_systemInstruction (request requestBody) =
          Some {| si_role := "user"; si_text := contentOrEmpty (content sys) |}) /\
    (Forall (fun m => role m <> "system") openaiMessages ->
     rq_systemInstruction (request requestBody) =
       Some {| si_role := "user";
               si_text := VStr (default EmptyString (systemInstruction config)) |}).
Proof.
  intros config newRequestId openaiMessages modelName parameters openaiTools token
    σ σ' requestBody. unfold generateRequestBody.
  destruct (openaiMessageToAntigravity openaiMessages) as [turns|e]; [| discriminate].
  destruct (convertOpenAIToolsToAntigravity openaiTools σ) as [σ1 [ds|e]];
    simpl; [| discriminate].
  intros [= <- <-]. cbn [request rq_systemInstruction].
  assert (Hnone : forall l : list Message,
             Forall (fun m => role m <> "system") l ->
             forall rest, List.find (fun msg => String.eqb (role msg) "system") (l ++ rest)
                          = List.find (fun msg => String.eqb (role msg) "system") rest).
  { induction 1 as [|m l Hm _ IH]; intros rest; simpl; [reflexivity |].
    apply String.eqb_neq in Hm. now rewrite Hm. }
  split.
  - intros before after sys -> Hbefore Hsys.
    rewrite (Hnone before Hbefore). simpl. now rewrite Hsys.
  - intros Hall. rewrite <- (app_nil_r openaiMessages), (Hnone _ Hall). reflexivity.
Qed.

Lemma generateRequestBody_system_instruction_witness :
  let sys := {| role := "system"; content := CStr EmptyString; tool_calls := None;
                tool_call_id := None; name := None |} in
  exists (σ' : Store) (requestBody : RequestBody),
    generateRequestBody Sample.config0 "req-1" [Sample.hello; sys]
      "gemini-2.5-flash" Sample.params0 None Sample.token0 ∅ = (σ', Ok requestBody) /\
    rq_systemInstruction (request requestBody) =
      Some {| si_role := "user"; si_text := VStr EmptyString |}.
Proof.
  cbv zeta. eexists. eexists. split; [reflexivity |].
  apply (proj1 (generateRequestBody_system_instruction Sample.config0 "req-1"
                  [Sample.hello;
                   {| role := "system"; content := CStr EmptyString; tool_calls := None;
                      tool_call_id := None; name := None |}]
                  "gemini-2.5-flash" Sample.params0 None Sample.token0 ∅ _ _ eq_refl)
           [Sample.hello]
           []
           {| role := "system"; content := CStr EmptyString; tool_calls := None;
              tool_call_id := None; name := None |}
           eq_refl);
    [repeat constructor; discriminate | reflexivity].
Defined.

(** ** The tool schema adapter, beyond the specification *)

Section ToolSchemaFailure.

Lemma schemaStripped_nil (σ : Store) : schemaStripped [] σ σ.
Proof. split; [intros tool l [] | reflexivity]. Qed.

Lemma schemaStripped_cons (tool : Tool) (rest : list Tool) (l0 : loc) (σ σ' : Store) :
  parametersOf tool = Some l0 ->
  schemaStripped rest (deleteSchema l0 σ) σ' ->
  schemaStripped (tool :: rest) σ σ'.
Proof.
  intros Hp [Hin Hout].
  assert (Hl0 : σ' !! l0 = delete "$schema" <$> σ !! l0).
  { destruct (List.existsb (fun t => bool_decide (parametersOf t = Some l0)) rest) eqn:Hex.
    - apply List.existsb_exists in Hex as (t & Ht & Hpt).
      apply bool_decide_eq_true in Hpt.
      rewrite (Hin t l0 Ht Hpt), deleteSchema_lookup.
      rewrite decide_True by reflexivity. apply delete_schema_twice.
    - rewrite Hout, deleteSchema_lookup; [now rewrite decide_True |].
      intros t Ht Hpt.
      assert (List.existsb (fun t => bool_decide (parametersOf t = Some l0)) rest = true)
        as Habs; [| congruence].
      apply List.existsb_exists. exists t. split; [exact Ht |].
      now apply bool_decide_eq_true. }
  split.
  - intros t l [<- | Ht] Hpt.
    + rewrite Hp in Hpt. injection Hpt as <-. exact Hl0.
    + rewrite (Hin t l Ht Hpt), deleteSchema_lookup.
      destruct (decide (l0 = l)); [apply delete_schema_twice | reflexivity].
  - intros l Hl. rewrite Hout.
    + rewrite deleteSchema_lookup. rewrite decide_False; [reflexivity |].
      intros <-. apply (Hl tool); [now left | exact Hp].
    + intros t Ht. apply Hl. now right.
Qed.

Lemma convertEach_fails_at (before : list Tool) :
  forall (bad : Tool) (after : list Tool) (σ : Store),
    Forall (fun tool => is_Some (parametersOf tool)) before ->
    parametersOf bad = None ->
    exists σ' : Store,
      convertEach (before ++ bad :: after) σ =
        (σ', Throw (TypeError "Cannot convert undefined or null to object")) /\
      schemaStripped before σ σ'.
Proof.
  induction before as [|tool before IH]; intros bad after σ Hbefore Hbad; simpl.
  - unfold parametersOf in Hbad. rewrite Hbad. exists σ. split; [reflexivity |].
    apply schemaStripped_nil.
  - apply Forall_cons in Hbefore as [[l Hl] Hbefore].
    pose proof Hl as Hl'. unfold parametersOf in Hl'. rewrite Hl'.
    destruct (IH bad after (deleteSchema l σ) Hbefore Hbad) as (σ' & Hrun & Hs).
    exists σ'. rewrite Hrun. split; [reflexivity |].
    now apply (schemaStripped_cons tool before l).
Qed.

End ToolSchemaFailure.

(** X13. A tool without a [parameters] object makes the adapter raise a
    type error, and the adapter does not undo what it did: the tools that
    come before it in the list have already lost their [$schema] key, and no
    other object has changed (the tools after it are not touched). *)
Theorem convertOpenAIToolsToAntigravity_fails_midway :
  forall (before : list Tool) (bad : Tool) (after : list Tool) (σ : Store),
    Forall (fun tool => is_Some (parametersOf tool)) before ->
    parametersOf bad = None ->
    exists σ' : Store,
      convertOpenAIToolsToAntigravity (Some (before ++ bad :: after)) σ =
        (σ', Throw (TypeError "Cannot convert undefined or null to object")) /\
      schemaStripped before σ σ'.
Proof.
  intros before bad after σ Hbefore Hbad.
  destruct (convertEach_fails_at before bad after σ Hbefore Hbad) as (σ' & Hrun & Hs).
  exists σ'. split; [| exact Hs].
  unfold convertOpenAIToolsToAntigravity.
  destruct (before ++ bad :: after) as [|t ts] eqn:Hl; [| exact Hrun].
  now destruct before.
Qed.

Lemma convertOpenAIToolsToAntigravity_fails_midway_witness :
  let bad := {| tool_type := "function";
                tool_function := {| tf_name := "now"; tf_description := None;
                                    tf_parameters := None |} |} in
  exists σ' : Store,
    convertOpenAIToolsToAntigravity (Some [Sample.tool0; bad]) Sample.store0 =
      (σ', Throw (TypeError "Cannot convert undefined or null to object")) /\
    σ' !! 1%positive = Some {[ "type" := JStr "object" ]}.
Proof.
  cbv zeta.
  destruct (convertOpenAIToolsToAntigravity_fails_midway [Sample.tool0]
              {| tool_type := "function";
                 tool_function := {| tf_name := "now"; tf_description := None;
                                     tf_parameters := None |} |}
              [] Sample.store0)
    as (σ' & Hrun & Hin & _).
  - constructor; [now exists 1%positive | constructor].
  - reflexivity.
  - exists σ'. split; [exact Hrun |].
    exact (eq_trans (Hin Sample.tool0 1%positive (or_introl eq_refl) eq_refl) eq_refl).
Defined.

(** ** getDefaultIp *)

Section DefaultIp.

Lemma firstExternalIPv4_none (l : list NetworkInterface) :
  Forall (fun inter => isExternalIPv4 inter = false) l -> firstExternalIPv4 l = None.
Proof.
  induction 1 as [|inter l Hi _ IH]; simpl; [reflexivity |].
  unfold isExternalIPv4 in Hi. now rewrite Hi.
Qed.

Lemma firstExternalIPv4_first (l1 l2 : list NetworkInterface) (inter : NetworkInterface) :
  Forall (fun i => isExternalIPv4 i = false) l1 ->
  isExternalIPv4 inter = true ->
  firstExternalIPv4 (l1 ++ inter :: l2) = Some (address inter).
Proof.
  intros H1 Hi. induction H1 as [|i l1 Hf _ IH]; simpl.
  - unfold isExternalIPv4 in Hi. now rewrite Hi.
  - unfold isExternalIPv4 in Hf. now rewrite Hf.
Qed.

End DefaultIp.

(** X15. [getDefaultIp] looks at one adapter only: [WLAN] when the system
    reports it, [wlan2] otherwise. It returns the address of the first
    entry of that adapter that is IPv4 and not internal, and [127.0.0.1]
    when the adapter has no such entry or neither adapter exists; in
    particular [wlan2] is not consulted when [WLAN] exists without an
    external IPv4 address. *)
Theorem getDefaultIp_first_external_address :
  forall (interfaces : NetworkInterfaces) (chosen : list NetworkInterface),
    WLAN interfaces = Some chosen \/
    (WLAN interfaces = None /\ wlan2 interfaces = Some chosen) ->
    (forall (l1 l2 : list NetworkInterface) (inter : NetworkInterface),
        chosen = l1 ++ inter :: l2 ->
        Forall (fun i => isExternalIPv4 i = false) l1 ->
        isExternalIPv4 inter = true ->
        getDefaultIp interfaces = address inter) /\
    (Forall (fun i => isExternalIPv4 i = false) chosen ->
     getDefaultIp interfaces = "127.0.0.1").
Proof.
  intros interfaces chosen Hchosen.
  assert (Hrun : getDefaultIp interfaces =
                 default "127.0.0.1" (firstExternalIPv4 chosen)).
  { unfold getDefaultIp. destruct Hchosen as [-> | [-> ->]]; reflexivity. }
  rewrite Hrun. split.
  - intros l1 l2 inter -> H1 Hi. now rewrite (firstExternalIPv4_first l1 l2 inter H1 Hi).
  - intros Hnone. now rewrite (firstExternalIPv4_none chosen Hnone).
Qed.

Lemma getDefaultIp_first_external_address_witness :
  getDefaultIp
    {| WLAN := Some [{| family := "IPv6"; internal := false; address := "fe80::1" |}];
       wlan2 := Some [{| family := "IPv4"; internal := false;
                         address := "192.168.1.7" |}] |} = "127.0.0.1".
Proof.
  apply (proj2 (getDefaultIp_first_external_address
                  {| WLAN := Some [{| family := "IPv6"; internal := false;
                                      address := "fe80::1" |}];
                     wlan2 := Some [{| family := "IPv4"; internal := false;
                                       address := "192.168.1.7" |}] |}
                  [{| family := "IPv6"; internal := false; address := "fe80::1" |}]
                  (or_introl eq_refl))).
  repeat constructor.
Defined.

(** ** The handler, path by path *)

Section HandlerPaths.

Variable env : Env.

(** The [try] block up to the point where the request body is built. *)
Lemma tryBlock_cases (body : Body) (st : State) :
  tryBlock env body st =
  match messages body with
  | None =>
      bindM (onRes (setStatus 400))
        (fun _ => onResR (json (ErrorText "messages is required"))) st
  | Some msgs =>
      let st0 := {| res := res st; store := store st;
                    calls := calls st ++ [CallGetToken] |} in
      match getToken env with
      | Throw e => (st0, Throw e)
      | Ok None => (st0, Throw {| message := noTokenMessage; status := None |})
      | Ok (Some token) =>
          match b_model body with
          | None =>
              (st0, Throw (TypeError
                             "Cannot read properties of undefined (reading 'includes')"))
          | Some model =>
              match generateRequestBody (config env) (generateRequestId env) msgs model
                      (params body) (b_tools body) token (store st) with
              | (σ', Throw e) =>
                  ({| res := res st; store := σ'; calls := calls st ++ [CallGetToken] |},
                   Throw e)
              | (σ', Ok requestBody) =>
                  respond env (default false (stream body)) model
                    (if includes model "-image"
                     then asImageRequest requestBody else requestBody)
                    token
                    {| res := res st; store := σ'; calls := calls st ++ [CallGetToken] |}
              end
          end
      end
  end.
Proof.
  unfold tryBlock. destruct (messages body) as [msgs|]; [| reflexivity].
  unfold bindM at 1. unfold awaitToken, bindM at 1, logCall, ofResult.
  destruct (getToken env) as [[token|]|e]; [| reflexivity | reflexivity].
  destruct (b_model body) as [model|]; [| reflexivity].
  unfold bindM at 1. unfold ret at 1. unfold bindM at 1. unfold onStore at 1.
  cbn [store res calls].
  destruct (generateRequestBody _ _ _ _ _ _ _ _) as [σ' [requestBody|e]];
    [| reflexivity].
  unfold respond, createResponseMeta. cbn [id created].
  destruct (default false (stream body)); [| reflexivity].
  destruct (includes model "-image"); reflexivity.
Qed.

(** The batched path. *)
Lemma respond_batched (model : string) (requestBody : RequestBody) (token : Token)
    (st : State) :
  let st1 := {| res := res st; store := store st;
                calls := calls st ++ [CallNoStream requestBody token] |} in
  let meta := createResponseMeta env in
  respond env false model requestBody token st =
  match generateAssistantResponseNoStream env requestBody token with
  | Throw e => (st1, Throw e)
  | Ok reply =>
      let hasCalls := (0 <? length (r_toolCalls reply))%nat in
      onResR (json (Completion (id meta) (created meta) model
                      {| am_role := "assistant";
                         am_content := r_content reply;
                         am_tool_calls :=
                           if hasCalls then Some (r_toolCalls reply) else None;
                         am_reasoning_content :=
                           if truthy (r_reasoning_content reply)
                           then r_reasoning_content reply else None |}
                      (if hasCalls then "tool_calls" else "stop"))) st1
  end.
Proof.
  cbv zeta. unfold respond, awaitNoStream, bindM, logCall, ofResult.
  now destruct (generateAssistantResponseNoStream env requestBody token).
Qed.

(** The streaming path of an image model. *)
Lemma respond_image (model : string) (requestBody : RequestBody) (token : Token)
    (st : State) :
  includes model "-image" = true ->
  headersSent (res st) = false ->
  ended (res st) = false ->
  let meta := createResponseMeta env in
  let calls' := calls st ++ [CallNoStream requestBody token] in
  exists r1 : Response,
    statusCode r1 = statusCode (res st) /\ sent r1 = sent (res st) /\
    ended r1 = false /\ headersSent r1 = false /\
    respond env true model requestBody token st =
    match generateAssistantResponseNoStream env requestBody token with
    | Throw e => ({| res := r1; store := store st; calls := calls' |}, Throw e)
    | Ok reply =>
        ({| res := {| statusCode := statusCode (res st); headers := headers r1;
                      headersSent := true;
                      sent := sent (res st) ++
                              [SseData (createStreamChunk (id meta) (created meta) model
                                          (DeltaContent (r_content reply)) None);
                               finishChunk meta model "stop"; SseDone];
                      ended := true |};
            store := store st; calls := calls' |}, Ok tt)
    end.
Proof.
  intros Himg Hunsent Hopen meta calls'.
  destruct (setStreamHeaders_unsent st Hunsent) as (r1 & Hr1 & Hst1 & Hse1 & He1 & Hh1).
  exists r1. rewrite He1, Hopen. repeat (split; [assumption || reflexivity |]).
  unfold respond. rewrite Himg. unfold bindM at 1. rewrite Hr1.
  unfold awaitNoStream, bindM at 1, bindM at 1, logCall, ofResult. cbn [res store calls].
  destruct (generateAssistantResponseNoStream env requestBody token) as [reply|e];
    [| reflexivity].
  unfold bindM at 1. unfold writeStreamData at 1, onRes at 1. cbn [res store calls].
  rewrite write_open by (now rewrite He1).
  rewrite endStream_open by reflexivity. cbn [res store calls statusCode headers sent].
  rewrite Hst1, Hse1, <- app_assoc. reflexivity.
Qed.

(** The streaming path of any other model. *)
Lemma respond_streaming (model : string) (requestBody : RequestBody) (token : Token)
    (st : State) (events : list Event) (failure : option Error) :
  includes model "-image" = false ->
  generateAssistantResponse env requestBody token = (events, failure) ->
  headersSent (res st) = false ->
  ended (res st) = false ->
  let meta := createResponseMeta env in
  let calls' := calls st ++ [CallStream requestBody token] in
  exists r : Response,
    statusCode r = statusCode (res st) /\
    sent r = sent (res st) ++ map (chunkOf meta model) events /\
    ended r = false /\
    headersSent r = match events with [] => false | _ :: _ => true end /\
    respond env true model requestBody token st =
    match failure with
    | None =>
        endStream (id meta) (created meta) model
          (if sawToolCall events then "tool_calls" else "stop")
          {| res := r; store := store st; calls := calls' |}
    | Some e => ({| res := r; store := store st; calls := calls' |}, Throw e)
    end.
Proof.
  intros Himg Hup Hunsent Hopen meta calls'.
  destruct (setStreamHeaders_unsent st Hunsent) as (r1 & Hr1 & Hst1 & Hse1 & He1 & Hh1).
  destruct (deliver_onData meta model events false
              {| res := r1; store := store st;
                 calls := calls st ++ [CallStream requestBody token] |})
    as (r & Hrun & Hstatus & Hsent & Hended & Hhs).
  { simpl. now rewrite He1. }
  cbn [res store calls orb] in *.
  exists r. rewrite Hstatus, Hsent, Hst1, Hse1, Hhs, Hh1.
  repeat (split; [assumption || reflexivity |]).
  unfold respond. rewrite Himg. unfold bindM at 1. rewrite Hr1.
  unfold bindM at 1. unfold awaitStream. unfold bindM at 1. unfold logCall at 1.
  cbn [res store calls]. rewrite Hup. unfold bindM at 1.
  fold meta. rewrite Hrun.
  destruct failure as [e|]; reflexivity.
Qed.

End HandlerPaths.

Section HandlerOutcome.

Variable env : Env.

(** The answer of the [catch] block on a response nothing was written to:
    it ends the response, or it fails on a status code that cannot be sent
    and leaves the response as it was. *)
Lemma catch_answers (stream : bool) (error : Error) (st : State) :
  headersSent (res st) = false ->
  exists (out : State) (result : Result unit),
    catchBlock stream error st = (out, result) /\
    calls out = calls st /\ store out = store st /\
    ((result = Ok tt /\ ended (res out) = true /\
      statusCode (res out) = classifyStatus error) \/
     (validStatusCode (classifyStatus error) = false /\
      result = Throw (ERR_HTTP_INVALID_STATUS_CODE (classifyStatus error)) /\
      sent (res out) = sent (res st) /\ ended (res out) = ended (res st))).
Proof.
  intros Hunsent.
  destruct (status_code_kinds (classifyStatus error)) as [Hcode | [Hcode | Hcode]].
  - destruct (catchBlock_unsent stream error st Hunsent Hcode)
      as (r & Hrun & Hstatus & _ & Hended).
    do 2 eexists. split; [exact Hrun |]. cbn [calls store res]. auto 10.
  - destruct (catchBlock_unsent_no_body stream error st Hunsent Hcode)
      as (r & Hrun & Hstatus & _ & Hended).
    do 2 eexists. split; [exact Hrun |]. cbn [calls store res]. auto 10.
  - destruct (catchBlock_unsent_invalid stream error st Hunsent Hcode)
      as (r & Hrun & Hsent & Hended & _).
    do 2 eexists. split; [exact Hrun |]. cbn [calls store res]. auto 10.
Qed.

Ltac answer_by_catch Hcatch Hr :=
  match goal with
  | |- context [catchBlock ?s ?e {| res := ?r; store := ?σ;
                                    calls := calls _ ++ ?made |}] =>
      let out := fresh "out" in
      let result := fresh "result" in
      destruct (Hcatch s e σ r made Hr) as (out & result & -> & ? & ?);
      [try assumption; try reflexivity .. |
       exists out, result, made; repeat split; eauto 10]
  end.

(** What a run of the handler leaves behind, on a response nothing was
    written to: the calls it made, and how it ended. *)
Lemma chatCompletions_outcome (body : Body) (st : State) :
  headersSent (res st) = false ->
  ended (res st) = false ->
  exists (out : State) (result : Result unit) (made : list Call),
    chatCompletions env body st = (out, result) /\
    calls out = calls st ++ made /\
    (made = [] \/ made = [CallGetToken] \/
     exists requestBody token,
       getToken env = Ok (Some token) /\
       (made = [CallGetToken; CallStream requestBody token] \/
        made = [CallGetToken; CallNoStream requestBody token])) /\
    endsAs env st out result made.
Proof.
  intros Hunsent Hopen. unfold chatCompletions. rewrite tryBlock_cases.
  destruct (messages body) as [msgs|].
  2:{ destruct (json_unsent (ErrorText "messages is required") (setStatus 400 (res st))
                  Hunsent eq_refl) as (r & Hjson & _ & _ & Hended & _).
      unfold bindM, onRes, onResR. cbn [res store calls]. rewrite Hjson.
      eexists. exists (Ok tt), []. split; [reflexivity |]. cbn [calls res].
      rewrite app_nil_r. repeat split; auto. left. now split. }
  cbv zeta.
  assert (Hcatch : forall (stream : bool) (error : Error) (σ : Store) (r : Response)
                     (made : list Call),
             headersSent r = false ->
             sent r = sent (res st) ->
             ended r = false ->
             exists (out : State) (result : Result unit),
               catchBlock stream error {| res := r; store := σ; calls := calls st ++ made |}
                 = (out, result) /\
               calls out = calls st ++ made /\ endsAs env st out result made).
  { intros stream error σ r made Hr Hsent Hended.
    destruct (catch_answers stream error {| res := r; store := σ;
                                            calls := calls st ++ made |} Hr)
      as (out & result & Hrun & Hcalls & _ & Hcases).
    exists out, result. cbn [res calls] in *. repeat split; [exact Hrun | exact Hcalls |].
    destruct Hcases as [(-> & Hend & _) | (Hcode & -> & Hsent' & Hended')].
    - left. now split.
    - right. right. exists (classifyStatus error). repeat split; congruence. }
  destruct (getToken env) as [[token|]|e] eqn:Htoken;
    [| cbv beta iota; answer_by_catch Hcatch Hunsent ..].
  destruct (b_model body) as [model|];
    [| cbv beta iota; answer_by_catch Hcatch Hunsent].
  destruct (generateRequestBody _ _ _ _ _ _ _ _) as [σ' [requestBody0|e]];
    [| cbv beta iota; answer_by_catch Hcatch Hunsent].
  set (requestBody := if includes model "-image" then _ else _).
  destruct (default false (stream body)) eqn:Hstream.
  - destruct (includes model "-image") eqn:Himg.
    + destruct (respond_image env model requestBody token
                  {| res := res st; store := σ'; calls := calls st ++ [CallGetToken] |}
                  Himg Hunsent Hopen)
        as (r1 & _ & Hsent1 & Hended1 & Hh1 & ->).
      cbn [res store calls] in *. rewrite <- app_assoc. cbn [app].
      destruct (generateAssistantResponseNoStream env requestBody token) as [reply|e].
      * eexists. exists (Ok tt), [CallGetToken; CallNoStream requestBody token].
        split; [reflexivity |]. cbn [calls res ended].
        repeat split; eauto 10. left. now split.
      * cbv beta iota. answer_by_catch Hcatch Hh1.
    + destruct (generateAssistantResponse env requestBody token) as [events failure]
        eqn:Hup.
      destruct (respond_streaming env model requestBody token
                  {| res := res st; store := σ'; calls := calls st ++ [CallGetToken] |}
                  events failure Himg Hup Hunsent Hopen)
        as (r & _ & Hsent & Hended & Hhs & ->).
      cbn [res store calls] in *. rewrite <- app_assoc. cbn [app].
      destruct failure as [e|].
      * destruct events as [|data events].
        -- cbv beta iota. simpl in Hsent. rewrite app_nil_r in Hsent.
           answer_by_catch Hcatch Hhs.
        -- cbv beta iota. rewrite catchBlock_sent by exact Hhs.
           eexists. exists (Ok tt), [CallGetToken; CallStream requestBody token].
           split; [reflexivity |]. cbn [calls res].
           repeat split; eauto 10. right. left. split; [reflexivity |]. eauto 10.
      * rewrite endStream_open by exact Hended.
        eexists. exists (Ok tt), [CallGetToken; CallStream requestBody token].
        split; [reflexivity |]. cbn [calls res ended].
        repeat split; eauto 10. left. now split.
  - rewrite respond_batched. cbv zeta. cbn [res store calls].
    rewrite <- app_assoc. cbn [app].
    destruct (generateAssistantResponseNoStream env requestBody token) as [reply|e].
    + unfold onResR. cbn [res store calls].
      destruct (status_code_kinds (statusCode (res st))) as [Hcode | [Hcode | Hcode]].
      * match goal with
        | |- context [json ?p (res st)] =>
            destruct (json_unsent p (res st) Hunsent Hcode)
              as (r & -> & _ & _ & Hended & _)
        end.
        eexists. exists (Ok tt), [CallGetToken; CallNoStream requestBody token].
        split; [reflexivity |]. cbn [calls res]. repeat split; eauto 10.
        left. now split.
      * match goal with
        | |- context [json ?p (res st)] =>
            destruct (json_no_body p (res st) Hunsent Hcode)
              as (r & -> & _ & _ & Hended & _)
        end.
        eexists. exists (Ok tt), [CallGetToken; CallNoStream requestBody token].
        split; [reflexivity |]. cbn [calls res]. repeat split; eauto 10.
        left. now split.
      * match goal with
        | |- context [json ?p (res st)] =>
            destruct (json_invalid_status p (res st) Hunsent Hcode)
              as (r & -> & _ & Hsent & Hended & Hhs)
        end.
        rewrite Hopen in Hended.
        cbv beta iota. answer_by_catch Hcatch Hhs.
    + cbv beta iota. answer_by_catch Hcatch Hunsent.
Qed.

End HandlerOutcome.

(** ** The handler, beyond the specification *)

Section HandlerHelpers.

Lemma translateFrom_unrenderable (msgs : list Message) :
  existsb unrenderable msgs = true ->
  forall acc : list Turn,
    translateFrom acc msgs = Throw (TypeError "content.trim is not a function").
Proof.
  induction msgs as [|m msgs IH]; simpl; [discriminate |].
  intros H acc. rewrite (translateMessage_unrenderable acc m).
  destruct (unrenderable m); simpl in *; [reflexivity |].
  destruct (translateMessage acc m) as [acc'|e]; simpl; now apply IH.
Qed.

Lemma chunkOf_is_chunkOfResponse (meta : ResponseMeta) (model : string)
    (events : list Event) :
  Forall (chunkOfResponse meta model) (map (chunkOf meta model) events).
Proof.
  apply Forall_map, Forall_forall. intros data _. simpl. repeat split. eauto.
Qed.

Lemma routed_is_not_static (req : HttpRequest) :
  routesToChatCompletions req = true -> staticMayAnswer req = false.
Proof.
  unfold routesToChatCompletions, staticMayAnswer. intros H.
  apply andb_true_iff in H as [H _]. apply String.eqb_eq in H. now rewrite H.
Qed.

Lemma authMiddleware_decides (config : Config) (req : HttpRequest) (res : Response)
    (key : string) :
  startsWith (path req) "/v1/" = true ->
  apiKey config = Some key ->
  key <> EmptyString ->
  authMiddleware config req res =
  if strictEq (stripBearer <$> authorization req) (Some key)
  then (res, Ok Next)
  else let '(r, out) := json (ErrorText "Invalid API Key") (setStatus 401 res) in
       (r, let! _ := out in Ok Responded).
Proof.
  intros Hpath Hkey Hne. unfold authMiddleware.
  rewrite Hpath, Hkey, (truthy_nonempty _ Hne).
  assert (Hprovided :
            match authorization req with
            | Some h' => if startsWith h' "Bearer " then Some (slice 7 h')
                         else authorization req
            | None => authorization req
            end = stripBearer <$> authorization req).
  { destruct (authorization req) as [h|]; simpl; [| reflexivity]. unfold stripBearer.
    now destruct (startsWith h "Bearer "). }
  rewrite Hprovided.
  now destruct (strictEq (stripBearer <$> authorization req) (Some key)).
Qed.

End HandlerHelpers.

(** X14. A conversation with an assistant message whose content is an array
    and that has no tool call makes the whole request fail: once the token
    is fetched, the handler answers 500 with code [internal_error] and the
    message of the type error, calls no invoker, and leaves the objects of
    the request (the tools) untouched. *)
Theorem unrenderable_conversation_is_500 :
  forall (env : Env) (body : Body) (st : State) (msgs : list Message) (token : Token)
         (model : string),
    messages body = Some msgs ->
    getToken env = Ok (Some token) ->
    b_model body = Some model ->
    existsb unrenderable msgs = true ->
    headersSent (res st) = false ->
    exists r : Response,
      chatCompletions env body st =
        ({| res := r; store := store st; calls := calls st ++ [CallGetToken] |}, Ok tt) /\
      statusCode r = 500 /\
      sent r = sent (res st) ++
               [JsonBody (ErrorResponse
                  {| eo_message := "content.trim is not a function";
                     eo_type := "server_error"; eo_param := None;
                     eo_code := "internal_error" |})] /\
      ended r = true.
Proof.
  intros env body st msgs token model Hm Ht Hmodel Hbad Hunsent.
  unfold chatCompletions. rewrite tryBlock_cases, Hm, Ht, Hmodel. cbv zeta.
  unfold generateRequestBody, openaiMessageToAntigravity.
  rewrite (translateFrom_unrenderable msgs Hbad).
  destruct (catchBlock_unsent (default false (stream body))
              (TypeError "content.trim is not a function")
              {| res := res st; store := store st; calls := calls st ++ [CallGetToken] |}
              Hunsent eq_refl) as (r & Hrun & Hstatus & Hsent & Hended).
  exists r. rewrite Hrun. now repeat split.
Qed.

Lemma unrenderable_conversation_is_500_witness :
  let body := {| messages := Some [{| role := "assistant"; content := CArr [ItemText "x"];
                                      tool_calls := None; tool_call_id := None;
                                      name := None |}];
                 b_model := Some "gemini-2.5-flash"; stream := Some true;
                 b_tools := Some [Sample.tool0]; params := Sample.params0 |} in
  let out := fst (chatCompletions (Sample.env0 [] None Sample.boom) body
                    (initialState Sample.store0)) in
  statusCode (res out) = 500 /\ store out = Sample.store0 /\ calls out = [CallGetToken].
Proof.
  cbv zeta.
  destruct (unrenderable_conversation_is_500 (Sample.env0 [] None Sample.boom)
              {| messages := Some [{| role := "assistant"; content := CArr [ItemText "x"];
                                      tool_calls := None; tool_call_id := None;
                                      name := None |}];
                 b_model := Some "gemini-2.5-flash"; stream := Some true;
                 b_tools := Some [Sample.tool0]; params := Sample.params0 |}
              (initialState Sample.store0) _ Sample.token0 "gemini-2.5-flash"
              eq_refl eq_refl eq_refl eq_refl eq_refl)
    as (r & Hrun & Hstatus & _).
  rewrite Hrun. cbn [fst res store calls initialState app]. now repeat split.
Defined.

(** X16. The one error that can leave the handler is the range error of an
    answer whose status code cannot be sent. The handler throws exactly
    when its [try] block failed before anything was sent and the status
    the [catch] block chose for the failure lies outside 100..999; the
    error that leaves it is then [Invalid status code: <status>]. In every
    other case the handler returns normally (in particular the branch of
    the [catch] block that refers to the out-of-scope [id] and [created]
    is never run). *)
Theorem chatCompletions_throws_only_range_error :
  forall (env : Env) (body : Body) (st : State),
    (forall e : Error,
        snd (chatCompletions env body st) = Throw e <->
        exists (st1 : State) (error : Error),
          tryBlock env body st = (st1, Throw error) /\
          headersSent (res st1) = false /\
          (classifyStatus error < 100 \/ 999 < classifyStatus error) /\
          e = ERR_HTTP_INVALID_STATUS_CODE (classifyStatus error)) /\
    (snd (chatCompletions env body st) = Ok tt \/
     exists code : Z,
       (code < 100 \/ 999 < code) /\
       snd (chatCompletions env body st) = Throw (ERR_HTTP_INVALID_STATUS_CODE code)).
Proof.
  intros env body st. unfold chatCompletions.
  destruct (tryBlock env body st) as [st1 [u|error]].
  { split; [| now left]. intros e. split; [discriminate |].
    intros (st1' & error & [=] & _). }
  destruct (headersSent (res st1)) eqn:Hhs.
  { rewrite catchBlock_sent by exact Hhs. split; [| now left].
    intros e. split; [discriminate |].
    intros (st1' & error' & [= <- <-] & Hhs' & _). congruence. }
  destruct (validStatusCode (classifyStatus error)) eqn:Hcode.
  - destruct (catch_answers (default false (stream body)) error st1 Hhs)
      as (out & result & -> & _ & _ & [(-> & _) | (Hbad & _)]); [| congruence].
    split; [| now left]. intros e. split; [discriminate |].
    intros (st1' & error' & [= <- <-] & _ & Hbad & _).
    apply invalid_status_codes in Hbad. congruence.
  - destruct (catchBlock_unsent_invalid (default false (stream body)) error st1 Hhs Hcode)
      as (r & -> & _).
    apply invalid_status_codes in Hcode. cbn [snd]. split.
    + intros e. split.
      * intros [= <-]. now exists st1, error.
      * now intros (st1' & error' & [= <- <-] & _ & _ & ->).
    + right. now exists (classifyStatus error).
Qed.

Lemma chatCompletions_throws_only_range_error_witness :
  let odd := {| message := "upstream said something odd"; status := Some 99 |} in
  snd (chatCompletions (Sample.env0 [] None odd) (Sample.body0 false) (initialState ∅)) =
    Throw (ERR_HTTP_INVALID_STATUS_CODE 99).
Proof.
  cbv zeta.
  apply (proj2 (proj1 (chatCompletions_throws_only_range_error
                         (Sample.env0 [] None {| message := "upstream said something odd";
                                                 status := Some 99 |})
                         (Sample.body0 false) (initialState ∅)) _)).
  do 2 eexists. split; [cbv; reflexivity |]. split; [reflexivity |].
  split; [left |]; reflexivity.
Defined.

(** X17. On a response nothing was written to, a run of the handler ends in
    one of three ways: the handler returns and the response is ended; or
    the streaming invoker failed after it delivered at least one event,
    the handler returns and the response is left open; or the failure
    carried a status outside 100..999, the answer to it failed, nothing was
    written, the response is left open and the range error leaves the
    handler. *)
Theorem response_is_ended_unless_stream_breaks_or_answer_fails :
  forall (env : Env) (body : Body) (st : State),
    headersSent (res st) = false ->
    ended (res st) = false ->
    let out := fst (chatCompletions env body st) in
    let result := snd (chatCompletions env body st) in
    (result = Ok tt /\ ended (res out) = true) \/
    (result = Ok tt /\
     exists requestBody token data events error,
       generateAssistantResponse env requestBody token = (data :: events, Some error) /\
       In (CallStream requestBody token) (calls out) /\
       ended (res out) = false) \/
    (exists code : Z,
       (code < 100 \/ 999 < code) /\
       result = Throw (ERR_HTTP_INVALID_STATUS_CODE code) /\
       sent (res out) = sent (res st) /\
       ended (res out) = false).
Proof.
  intros env body st Hunsent Hopen.
  destruct (chatCompletions_outcome env body st Hunsent Hopen)
    as (out & result & made & Hrun & Hcalls & _ & [Hended | [Hbroken | Hfailed]]);
    rewrite Hrun; cbn [fst snd].
  - now left.
  - right. left. destruct Hbroken
      as (-> & requestBody & token & data & events & error & -> & Hup & Hopen').
    split; [reflexivity |].
    exists requestBody, token, data, events, error. repeat split; try assumption.
    rewrite Hcalls. apply in_app_iff. right. simpl. tauto.
  - right. right. destruct Hfailed as (code & Hcode & -> & Hsent & Hopen').
    apply invalid_status_codes in Hcode. now exists code.
Qed.

Lemma response_is_ended_unless_stream_breaks_or_answer_fails_witness :
  ended (res (fst (chatCompletions (Sample.env0 [] None Sample.exhausted)
                     (Sample.body0 false) (initialState ∅)))) = true.
Proof.
  destruct (response_is_ended_unless_stream_breaks_or_answer_fails
              (Sample.env0 [] None Sample.exhausted)
              (Sample.body0 false) (initialState ∅) eq_refl eq_refl)
    as [[_ Hended] | [(_ & requestBody & token & data & events & error & Hup & _) |
                      (code & _ & Hthrow & _)]].
  - exact Hended.
  - discriminate Hup.
  - discriminate Hthrow.
Defined.

(** X18. The handler calls the credential provider at most once and an
    invoker at most once, in that order: it makes no call, or fetches the
    token only, or fetches the token and then calls exactly one of the two
    entry points of the invoker, with the token it was given. *)
Theorem handler_fetches_token_then_calls_once :
  forall (env : Env) (body : Body) (st : State),
    headersSent (res st) = false ->
    ended (res st) = false ->
    exists made : list Call,
      calls (fst (chatCompletions env body st)) = calls st ++ made /\
      (made = [] \/ made = [CallGetToken] \/
       exists requestBody token,
         getToken env = Ok (Some token) /\
         (made = [CallGetToken; CallStream requestBody token] \/
          made = [CallGetToken; CallNoStream requestBody token])).
Proof.
  intros env body st Hunsent Hopen.
  destruct (chatCompletions_outcome env body st Hunsent Hopen)
    as (out & result & made & Hrun & Hcalls & Hmade & _).
  exists made. rewrite Hrun. now split.
Qed.

Lemma handler_fetches_token_then_calls_once_witness :
  exists made : list Call,
    calls (fst (chatCompletions (Sample.env0 [] None Sample.exhausted)
                  (Sample.body0 false) (initialState ∅))) = [] ++ made /\
    (made = [] \/ made = [CallGetToken] \/
     exists requestBody token,
       getToken (Sample.env0 [] None Sample.exhausted) = Ok (Some token) /\
       (made = [CallGetToken; CallStream requestBody token] \/
        made = [CallGetToken; CallNoStream requestBody token])).
Proof.
  exact (handler_fetches_token_then_calls_once (Sample.env0 [] None Sample.exhausted)
           (Sample.body0 false) (initialState ∅) eq_refl eq_refl).
Defined.

(** X19. The batched path: when the invoker returns a reply, the handler
    answers one JSON completion and ends the response, after one call of
    the batched entry point (the status code is the one the response has,
    200 for a request that has just arrived; it has to be one a body goes
    with). The message carries [tool_calls] exactly when
    the reply has tool calls, and then the finish reason is [tool_calls]
    (it is [stop] otherwise); it carries [reasoning_content] exactly when
    the reply has a non-empty one. *)
Theorem batched_reply_is_one_completion :
  forall (env : Env) (body : Body) (st : State) (msgs : list Message) (token : Token)
         (model : string) (σ' : Store) (requestBody : RequestBody) (reply : Reply),
    messages body = Some msgs ->
    getToken env = Ok (Some token) ->
    b_model body = Some model ->
    default false (stream body) = false ->
    generateRequestBody (config env) (generateRequestId env) msgs model (params body)
      (b_tools body) token (store st) = (σ', Ok requestBody) ->
    let sentBody :=
      if includes model "-image" then asImageRequest requestBody else requestBody in
    generateAssistantResponseNoStream env sentBody token = Ok reply ->
    headersSent (res st) = false ->
    carriesBody (statusCode (res st)) = true ->
    let meta := createResponseMeta env in
    exists r : Response,
      chatCompletions env body st =
        ({| res := r; store := σ';
            calls := calls st ++ [CallGetToken; CallNoStream sentBody token] |}, Ok tt) /\
      statusCode r = statusCode (res st) /\
      ended r = true /\
      sent r = sent (res st) ++
        [JsonBody (Completion (id meta) (created meta) model
           {| am_role := "assistant";
              am_content := r_content reply;
              am_tool_calls :=
                match r_toolCalls reply with [] => None | tcs => Some tcs end;
              am_reasoning_content :=
                match r_reasoning_content reply with
                | Some (String c s) => Some (String c s)
                | _ => None
                end |}
           match r_toolCalls reply with [] => "stop" | _ => "tool_calls" end)].
Proof.
  intros env body st msgs token model σ' requestBody reply
    Hm Ht Hmodel Hstream Hgen sentBody Hreply Hunsent Hcode meta.
  unfold chatCompletions. rewrite tryBlock_cases, Hm, Ht, Hmodel. cbv zeta.
  rewrite Hgen, Hstream. fold sentBody. rewrite respond_batched. cbv zeta.
  rewrite Hreply. unfold onResR. cbn [res store calls].
  match goal with
  | |- context [json ?p (res st)] =>
      destruct (json_unsent p (res st) Hunsent Hcode)
        as (r & -> & Hstatus & Hsent & Hended & _)
  end.
  exists r. rewrite <- app_assoc. cbn [app].
  repeat (split; [assumption || reflexivity |]).
  rewrite Hsent. fold meta. do 3 f_equal.
  destruct (r_toolCalls reply) as [|tc tcs], (r_reasoning_content reply) as [[|c s]|];
    reflexivity.
Qed.

Lemma batched_reply_is_one_completion_witness :
  let env := {| config := Sample.config0; getToken := Ok (Some Sample.token0);
                dateNow1 := 1700000000123; dateNow2 := 1700000000124;
                generateRequestId := "req-1";
                generateAssistantResponse := fun _ _ => ([], None);
                generateAssistantResponseNoStream := fun _ _ =>
                  Ok {| r_content := "It is sunny."; r_toolCalls := [];
                        r_reasoning_content := Some EmptyString |} |} in
  sent (res (fst (chatCompletions env (Sample.body0 false) (initialState ∅)))) =
    [JsonBody (Completion "chatcmpl-1700000000123" 1700000000 "gemini-2.5-flash"
       {| am_role := "assistant"; am_content := "It is sunny.";
          am_tool_calls := None; am_reasoning_content := None |} "stop")].
Proof.
  cbv zeta.
  destruct (batched_reply_is_one_completion
              {| config := Sample.config0; getToken := Ok (Some Sample.token0);
                 dateNow1 := 1700000000123; dateNow2 := 1700000000124;
                 generateRequestId := "req-1";
                 generateAssistantResponse := fun _ _ => ([], None);
                 generateAssistantResponseNoStream := fun _ _ =>
                   Ok {| r_content := "It is sunny."; r_toolCalls := [];
                         r_reasoning_content := Some EmptyString |} |}
              (Sample.body0 false) (initialState ∅) [Sample.hello] Sample.token0
              "gemini-2.5-flash" ∅ _ _
              eq_refl eq_refl eq_refl eq_refl eq_refl eq_refl eq_refl eq_refl)
    as (r & Hrun & _ & _ & Hsent).
  rewrite Hrun. exact Hsent.
Defined.

(** X20. A streaming request for an image model does not use the streaming
    invoker: the handler calls the batched entry point once, with the
    request rewritten for images (no system instruction, no tools, no tool
    configuration, a generation configuration that only asks for one
    candidate, request type [image_gen]; project, request id, contents,
    session, model and user agent as they were built), and on a reply
    writes exactly three events, a [content] delta with the whole reply,
    the chunk with finish reason [stop], and [data: [DONE]], then ends the
    response. *)
Theorem image_model_streams_one_chunk :
  forall (env : Env) (body : Body) (st : State) (msgs : list Message) (token : Token)
         (model : string) (σ' : Store) (requestBody : RequestBody) (reply : Reply),
    messages body = Some msgs ->
    getToken env = Ok (Some token) ->
    b_model body = Some model ->
    includes model "-image" = true ->
    default false (stream body) = true ->
    generateRequestBody (config env) (generateRequestId env) msgs model (params body)
      (b_tools body) token (store st) = (σ', Ok requestBody) ->
    let sentBody :=
      {| project := project requestBody;
         requestId := requestId requestBody;
         request :=
           {| contents := contents (request requestBody);
              rq_systemInstruction := None;
              tools := None;
              toolConfig := None;
              generationConfig :=
                {| topP := None; topK := None; gc_temperature := None;
                   candidateCount := 1; maxOutputTokens := None;
                   stopSequences := None; thinkingConfig := None |};
              rq_sessionId := rq_sessionId (request requestBody) |};
         model := Utils.model requestBody;
         userAgent := userAgent requestBody;
         requestType := Some "image_gen" |} in
    generateAssistantResponseNoStream env sentBody token = Ok reply ->
    headersSent (res st) = false ->
    ended (res st) = false ->
    let meta := {| id := "chatcmpl-" +:+ decimal (dateNow1 env);
                   created := dateNow2 env / 1000 |} in
    exists r : Response,
      chatCompletions env body st =
        ({| res := r; store := σ';
            calls := calls st ++ [CallGetToken; CallNoStream sentBody token] |},
         Ok tt) /\
      statusCode r = statusCode (res st) /\
      ended r = true /\
      sent r = sent (res st) ++
        [contentChunk meta model (r_content reply);
         finishChunk meta model "stop"; SseDone].
Proof.
  intros env body st msgs token model σ' requestBody reply
    Hm Ht Hmodel Himg Hstream Hgen sentBody Hreply Hunsent Hopen meta.
  unfold chatCompletions. rewrite tryBlock_cases, Hm, Ht, Hmodel. cbv zeta.
  rewrite Hgen, Hstream, Himg.
  change (asImageRequest requestBody) with sentBody.
  destruct (respond_image env model sentBody token
              {| res := res st; store := σ'; calls := calls st ++ [CallGetToken] |}
              Himg Hunsent Hopen)
    as (r1 & _ & _ & _ & _ & ->).
  rewrite Hreply. cbn [res store calls]. rewrite <- app_assoc. cbn [app].
  eexists. split; [reflexivity |]. now repeat split.
Qed.

Lemma image_model_streams_one_chunk_witness :
  let env := {| config := Sample.config0; getToken := Ok (Some Sample.token0);
                dateNow1 := 1700000000123; dateNow2 := 1700000000124;
                generateRequestId := "req-1";
                generateAssistantResponse := fun _ _ => ([Sample.text "unused"], None);
                generateAssistantResponseNoStream := fun requestBody _ =>
                  match requestType requestBody, rq_systemInstruction (request requestBody) with
                  | Some "image_gen", None =>
                      Ok {| r_content := "![image](...)"; r_toolCalls := [];
                            r_reasoning_content := None |}
                  | _, _ => Throw Sample.boom
                  end |} in
  let body := {| messages := Some [Sample.hello]; b_model := Some "gemini-3-pro-image";
                 stream := Some true; b_tools := None; params := Sample.params0 |} in
  let chunk := fun (delta : Delta) (finish_reason : option string) =>
    SseData {| ch_id := "chatcmpl-1700000000123";
               ch_object := "chat.completion.chunk";
               ch_created := 1700000000;
               ch_model := "gemini-3-pro-image";
               choices := [{| index := 0; delta := delta;
                              finish_reason := finish_reason |}] |} in
  sent (res (fst (chatCompletions env body (initialState ∅)))) =
    [chunk (DeltaContent "![image](...)") None;
     chunk DeltaEmpty (Some "stop");
     SseDone].
Proof.
  cbv zeta.
  destruct (image_model_streams_one_chunk
              {| config := Sample.config0; getToken := Ok (Some Sample.token0);
                 dateNow1 := 1700000000123; dateNow2 := 1700000000124;
                 generateRequestId := "req-1";
                 generateAssistantResponse := fun _ _ => ([Sample.text "unused"], None);
                 generateAssistantResponseNoStream := fun requestBody _ =>
                   match requestType requestBody,
                         rq_systemInstruction (request requestBody) with
                   | Some "image_gen", None =>
                       Ok {| r_content := "![image](...)"; r_toolCalls := [];
                             r_reasoning_content := None |}
                   | _, _ => Throw Sample.boom
                   end |}
              {| messages := Some [Sample.hello]; b_model := Some "gemini-3-pro-image";
                 stream := Some true; b_tools := None; params := Sample.params0 |}
              (initialState ∅) [Sample.hello] Sample.token0 "gemini-3-pro-image" ∅ _ _
              eq_refl eq_refl eq_refl eq_refl eq_refl eq_refl eq_refl eq_refl eq_refl)
    as (r & Hrun & _ & _ & Hsent).
  rewrite Hrun. exact Hsent.
Defined.

(** X21. Without a token the handler answers 500 with code [internal_error]
    and the message that tells to log in, as JSON in both modes; it calls
    no invoker and does not touch the objects of the request. *)
Theorem no_token_is_500 :
  forall (env : Env) (body : Body) (st : State) (msgs : list Message),
    messages body = Some msgs ->
    getToken env = Ok None ->
    headersSent (res st) = false ->
    exists r : Response,
      chatCompletions env body st =
        ({| res := r; store := store st; calls := calls st ++ [CallGetToken] |}, Ok tt) /\
      statusCode r = 500 /\
      sent r = sent (res st) ++
               [JsonBody (ErrorResponse
                  {| eo_message := noTokenMessage; eo_type := "server_error";
                     eo_param := None; eo_code := "internal_error" |})] /\
      ended r = true.
Proof.
  intros env body st msgs Hm Ht Hunsent.
  unfold chatCompletions. rewrite tryBlock_cases, Hm, Ht. cbv zeta.
  destruct (catchBlock_unsent (default false (stream body))
              {| message := noTokenMessage; status := None |}
              {| res := res st; store := store st; calls := calls st ++ [CallGetToken] |}
              Hunsent eq_refl) as (r & Hrun & Hstatus & Hsent & Hended).
  exists r. rewrite Hrun. now repeat split.
Qed.

Lemma no_token_is_500_witness :
  let env := {| config := Sample.config0; getToken := Ok None;
                dateNow1 := 0; dateNow2 := 0; generateRequestId := "req-1";
                generateAssistantResponse := fun _ _ => ([], None);
                generateAssistantResponseNoStream := fun _ _ => Throw Sample.boom |} in
  let out := fst (chatCompletions env (Sample.body0 true) (initialState ∅)) in
  statusCode (res out) = 500 /\ calls out = [CallGetToken].
Proof.
  cbv zeta.
  destruct (no_token_is_500
              {| config := Sample.config0; getToken := Ok None;
                 dateNow1 := 0; dateNow2 := 0; generateRequestId := "req-1";
                 generateAssistantResponse := fun _ _ => ([], None);
                 generateAssistantResponseNoStream := fun _ _ => Throw Sample.boom |}
              (Sample.body0 true) (initialState ∅) [Sample.hello] eq_refl eq_refl eq_refl)
    as (r & Hrun & Hstatus & _).
  rewrite Hrun. now split.
Defined.

(** X22. A streaming invoker that fails before its first event: although
    the stream headers were set, nothing was sent, so the handler answers
    with the classified status (429, or the status of the failure, or 500)
    instead of an event stream. With a status a body goes with (200 to 999,
    but 204, 205 and 304) the JSON error is sent and the response ended;
    with a status that is sent without body (100 to 199, 204, 205, 304) the
    response is ended with that status and nothing is sent; with a status
    outside 100..999 the answer fails: nothing is sent, the response is
    left open and the range error leaves the handler. *)
Theorem stream_failure_before_first_event_is_json :
  forall (env : Env) (body : Body) (st : State) (msgs : list Message) (token : Token)
         (model : string) (σ' : Store) (requestBody : RequestBody) (error : Error),
    messages body = Some msgs ->
    getToken env = Ok (Some token) ->
    b_model body = Some model ->
    includes model "-image" = false ->
    stream body = Some true ->
    generateRequestBody (config env) (generateRequestId env) msgs model (params body)
      (b_tools body) token (store st) = (σ', Ok requestBody) ->
    generateAssistantResponse env requestBody token = ([], Some error) ->
    headersSent (res st) = false ->
    ended (res st) = false ->
    let calls' := calls st ++ [CallGetToken; CallStream requestBody token] in
    (carriesBody (classifyStatus error) = true ->
     exists r : Response,
       chatCompletions env body st =
         ({| res := r; store := σ'; calls := calls' |}, Ok tt) /\
       statusCode r = classifyStatus error /\
       sent r = sent (res st) ++
                [errorBody (message error)
                   (if classifyStatus error =? 429
                    then "rate_limit_exceeded" else "internal_error")] /\
       ended r = true) /\
    (sentWithoutBody (classifyStatus error) = true ->
     exists r : Response,
       chatCompletions env body st =
         ({| res := r; store := σ'; calls := calls' |}, Ok tt) /\
       statusCode r = classifyStatus error /\
       sent r = sent (res st) /\
       ended r = true) /\
    (classifyStatus error < 100 \/ 999 < classifyStatus error ->
     exists r : Response,
       chatCompletions env body st =
         ({| res := r; store := σ'; calls := calls' |},
          Throw (ERR_HTTP_INVALID_STATUS_CODE (classifyStatus error))) /\
       sent r = sent (res st) /\
       ended r = false).
Proof.
  intros env body st msgs token model σ' requestBody error
    Hm Ht Hmodel Himg Hs Hgen Hup Hunsent Hopen calls'.
  destruct (tryBlock_streaming env body st msgs token model σ' requestBody
              [] (Some error) Hm Ht Hmodel Himg Hs Hgen Hup Hunsent Hopen)
    as (r0 & _ & Hsent0 & Hended0 & Hhs & Htry).
  simpl map in Hsent0. rewrite app_nil_r in Hsent0.
  unfold chatCompletions. rewrite Htry. fold calls'.
  split; [| split].
  - intros Hcode.
    destruct (catchBlock_unsent (default false (stream body)) error
                {| res := r0; store := σ'; calls := calls' |} Hhs Hcode)
      as (r & Hrun & Hstatus & Hsent & Hended).
    exists r. rewrite Hrun. cbn [res] in Hsent. rewrite Hsent0 in Hsent.
    now repeat split.
  - intros Hcode.
    destruct (catchBlock_unsent_no_body (default false (stream body)) error
                {| res := r0; store := σ'; calls := calls' |} Hhs Hcode)
      as (r & Hrun & Hstatus & Hsent & Hended).
    exists r. rewrite Hrun. cbn [res] in Hsent. rewrite Hsent0 in Hsent.
    now repeat split.
  - intros Hcode. apply invalid_status_codes in Hcode.
    destruct (catchBlock_unsent_invalid (default false (stream body)) error
                {| res := r0; store := σ'; calls := calls' |} Hhs Hcode)
      as (r & Hrun & Hsent & Hended & _).
    exists r. rewrite Hrun. cbn [res] in Hsent, Hended.
    rewrite Hsent0 in Hsent. rewrite Hended0 in Hended. now repeat split.
Qed.

Lemma stream_failure_before_first_event_is_json_witness :
  let failure := {| message := "upstream unavailable"; status := Some 503 |} in
  let out := fst (chatCompletions (Sample.env0 [] (Some failure) Sample.boom)
                    (Sample.body0 true) (initialState ∅)) in
  statusCode (res out) = 503 /\
  sent (res out) =
    [JsonBody (ErrorResponse
       {| eo_message := "upstream unavailable"; eo_type := "server_error";
          eo_param := None; eo_code := "internal_error" |})] /\
  ended (res out) = true.
Proof.
  cbv zeta.
  destruct (proj1 (stream_failure_before_first_event_is_json
              (Sample.env0 [] (Some {| message := "upstream unavailable";
                                       status := Some 503 |}) Sample.boom)
              (Sample.body0 true) (initialState ∅) [Sample.hello] Sample.token0
              "gemini-2.5-flash" ∅ _ _
              eq_refl eq_refl eq_refl eq_refl eq_refl eq_refl eq_refl eq_refl eq_refl)
              eq_refl)
    as (r & Hrun & Hstatus & Hsent & Hended).
  rewrite Hrun. cbn [fst res]. repeat split; assumption.
Defined.

(** X23. Whatever the streaming invoker delivers, everything the handler
    writes on an event stream is a chunk of the same response or the
    [DONE] marker: each chunk has the id and the creation time made once
    for the request, the model name the client sent, the object type
    [chat.completion.chunk] and a single choice of index 0. This holds when
    the invoker resolves and when it fails after at least one event. *)
Theorem stream_chunks_share_identity :
  forall (env : Env) (body : Body) (st : State) (msgs : list Message) (token : Token)
         (model : string) (σ' : Store) (requestBody : RequestBody)
         (events : list Event) (failure : option Error),
    messages body = Some msgs ->
    getToken env = Ok (Some token) ->
    b_model body = Some model ->
    includes model "-image" = false ->
    stream body = Some true ->
    generateRequestBody (config env) (generateRequestId env) msgs model (params body)
      (b_tools body) token (store st) = (σ', Ok requestBody) ->
    generateAssistantResponse env requestBody token = (events, failure) ->
    headersSent (res st) = false ->
    ended (res st) = false ->
    failure = None \/ events <> [] ->
    exists written : list Sent,
      sent (res (fst (chatCompletions env body st))) = sent (res st) ++ written /\
      Forall (chunkOfResponse (createResponseMeta env) model) written /\
      (length events <= length written)%nat.
Proof.
  intros env body st msgs token model σ' requestBody events failure
    Hm Ht Hmodel Himg Hs Hgen Hup Hunsent Hopen Hcase.
  destruct (tryBlock_streaming env body st msgs token model σ' requestBody
              events failure Hm Ht Hmodel Himg Hs Hgen Hup Hunsent Hopen)
    as (r & _ & Hsent & Hended & Hhs & Htry).
  unfold chatCompletions. rewrite Htry.
  destruct failure as [error|].
  - destruct events as [|data events]; [destruct Hcase; congruence |].
    rewrite catchBlock_sent by exact Hhs. cbn [fst res].
    exists (map (chunkOf (createResponseMeta env) model) (data :: events)).
    split; [exact Hsent |]. split; [apply chunkOf_is_chunkOfResponse |].
    now rewrite length_map.
  - rewrite endStream_open by exact Hended. cbn [fst res sent].
    exists (map (chunkOf (createResponseMeta env) model) events ++
            [finishChunk (createResponseMeta env) model
               (if sawToolCall events then "tool_calls" else "stop"); SseDone]).
    split; [now rewrite Hsent, <- app_assoc |]. split.
    + apply Forall_app. split; [apply chunkOf_is_chunkOfResponse |].
      repeat constructor. simpl. eauto.
    + rewrite length_app, length_map. lia.
Qed.

Lemma stream_chunks_share_identity_witness :
  exists written : list Sent,
    sent (res (fst (chatCompletions
                      (Sample.env0 [Sample.thinking "a"; Sample.text "b"]
                         (Some Sample.boom) Sample.boom)
                      (Sample.body0 true) (initialState ∅)))) = [] ++ written /\
    Forall (chunkOfResponse
              {| id := "chatcmpl-1700000000123"; created := 1700000000 |}
              "gemini-2.5-flash") written /\
    (2 <= length written)%nat.
Proof.
  apply (stream_chunks_share_identity
           (Sample.env0 [Sample.thinking "a"; Sample.text "b"] (Some Sample.boom)
              Sample.boom)
           (Sample.body0 true) (initialState ∅) [Sample.hello] Sample.token0
           "gemini-2.5-flash" ∅ _ [Sample.thinking "a"; Sample.text "b"]
           (Some Sample.boom)
           eq_refl eq_refl eq_refl eq_refl eq_refl eq_refl eq_refl eq_refl eq_refl).
  right. discriminate.
Defined.

(** X24. The middleware and the route together, for a request the router
    gives to the chat handler ([POST] to [/v1/chat/completions], with or
    without a trailing slash) whose path starts with [/v1/] as the
    middleware tests it, when a key is configured: a request whose key is
    refused is answered 401 by the middleware alone, with no call made and
    no object of the request changed; a request whose key is accepted is
    handled by the chat handler on the untouched response. *)
Theorem serve_checks_key_first :
  forall (env : Env) (req : HttpRequest) (σ : Store) (key : string),
    routesToChatCompletions req = true ->
    startsWith (path req) "/v1/" = true ->
    apiKey (config env) = Some key ->
    key <> EmptyString ->
    (stripBearer <$> authorization req <> Some key ->
     exists r : Response,
       serve env req σ = Some ({| res := r; store := σ; calls := [] |}, Ok tt) /\
       statusCode r = 401 /\
       sent r = [JsonBody (ErrorText "Invalid API Key")] /\
       ended r = true) /\
    (stripBearer <$> authorization req = Some key ->
     serve env req σ = Some (chatCompletions env (body req) (initialState σ))).
Proof.
  intros env req σ key Hroute Hpath Hkey Hne. unfold serve.
  rewrite (routed_is_not_static req Hroute). cbn [initialState res store calls].
  rewrite (authMiddleware_decides (config env) req freshResponse key Hpath Hkey Hne).
  split.
  - intros Hbad.
    destruct (strictEq (stripBearer <$> authorization req) (Some key)) eqn:Heq.
    + apply strictEq_Some in Heq. contradiction.
    + eexists. split; [reflexivity |]. now repeat split.
  - intros Hgood. apply strictEq_Some in Hgood. now rewrite Hgood, Hroute.
Qed.

Lemma serve_checks_key_first_witness :
  exists r : Response,
    serve (Sample.env0 [] None Sample.boom)
      {| method := "POST"; path := "/v1/chat/completions";
         authorization := None; body := Sample.body0 true |} ∅ =
      Some ({| res := r; store := ∅; calls := [] |}, Ok tt) /\
    statusCode r = 401 /\
    sent r = [JsonBody (ErrorText "Invalid API Key")] /\
    ended r = true.
Proof.
  apply (proj1 (serve_checks_key_first (Sample.env0 [] None Sample.boom)
                  {| method := "POST"; path := "/v1/chat/completions";
                     authorization := None; body := Sample.body0 true |} ∅ "sk-text"
                  eq_refl eq_refl eq_refl ltac:(discriminate))).
  discriminate.
Defined.

(** X27. The key is not checked on every request the chat handler takes:
    the router compares the path without regard to case, the middleware
    tests the prefix [/v1/] as it is written. A request the router gives to
    the chat handler whose path does not start with the lower-case [/v1/]
    (such as [/V1/chat/completions]) is handled whatever its
    [Authorization] header, also when a key is configured. *)
Theorem serve_skips_key_on_other_case :
  forall (env : Env) (req : HttpRequest) (σ : Store),
    routesToChatCompletions req = true ->
    startsWith (path req) "/v1/" = false ->
    serve env req σ = Some (chatCompletions env (body req) (initialState σ)).
Proof.
  intros env req σ Hroute Hpath. unfold serve, authMiddleware.
  rewrite (routed_is_not_static req Hroute).
  cbn [initialState res store calls]. now rewrite Hpath, Hroute.
Qed.

Lemma serve_skips_key_on_other_case_witness :
  let req := {| method := "POST"; path := "/V1/chat/completions";
                authorization := None; body := Sample.body0 false |} in
  let env := Sample.env0 [] None Sample.boom in
  apiKey (config env) = Some "sk-text" /\
  serve env req ∅ = Some (chatCompletions env (Sample.body0 false) (initialState ∅)) /\
  length (calls (fst (chatCompletions env (Sample.body0 false) (initialState ∅)))) = 2%nat.
Proof.
  cbv zeta. split; [reflexivity |]. split; [| reflexivity].
  apply (serve_skips_key_on_other_case (Sample.env0 [] None Sample.boom)
           {| method := "POST"; path := "/V1/chat/completions";
              authorization := None; body := Sample.body0 false |} ∅);
    reflexivity.
Defined.

(** X25. The rate-limit test is a test on substrings: the status of a
    failure is classified 429 exactly when its message contains [429],
    [capacity] or [RESOURCE_EXHAUSTED] anywhere (as in the digits of any
    longer number), or when the failure carries the status 429 itself. *)
Theorem classifyStatus_is_429_on_substring :
  forall error : Error,
    classifyStatus error = 429 <->
    (exists a b : string, message error = a +:+ "429" +:+ b) \/
    (exists a b : string, message error = a +:+ "capacity" +:+ b) \/
    (exists a b : string, message error = a +:+ "RESOURCE_EXHAUSTED" +:+ b) \/
    JS.status error = Some 429.
Proof.
  intros error. rewrite <- !includes_spec. unfold classifyStatus.
  destruct (includes (message error) "429"); [simpl; tauto |].
  destruct (includes (message error) "capacity"); [simpl; tauto |].
  destruct (includes (message error) "RESOURCE_EXHAUSTED"); [simpl; tauto |].
  simpl. destruct (JS.status error) as [s|].
  - destruct (Z.eqb_spec s 0) as [-> | Hs].
    + split; [discriminate | intros [? | [? | [? | ?]]]; discriminate].
    + split; [intros ->; tauto | intros [? | [? | [? | [= ->]]]]; discriminate || reflexivity].
  - split; [discriminate | intros [? | [? | [? | ?]]]; discriminate].
Qed.

Lemma classifyStatus_is_429_on_substring_witness :
  classifyStatus {| message := "listen EADDRINUSE: address already in use :::14290";
                    status := None |} = 429.
Proof.
  apply (proj2 (classifyStatus_is_429_on_substring
                  {| message := "listen EADDRINUSE: address already in use :::14290";
                     status := None |})).
  left. now exists "listen EADDRINUSE: address already in use :::1", "0".
Defined.

(** X26. An assistant message whose content is an array and that has tool
    calls is rendered without its text: the array is converted to a string,
    so each item becomes [[object Object]], the items separated by commas,
    and the notes of the tool calls follow after a line feed. *)
Theorem handleAssistantMessage_array_content_is_lost :
  forall (message : Message) (acc : list Turn) (items : list ContentItem)
         (tc : ToolCall) (tcs : list ToolCall),
    content message = CArr items ->
    tool_calls message = Some (tc :: tcs) ->
    handleAssistantMessage message acc =
      Ok (acc ++
          [{| turn_role := "model";
              parts := [PText (join "," (map (fun _ => "[object Object]") items) +:+
                               LF +:+ join LF (map toolNote (tc :: tcs)))] |}]).
Proof.
  intros message acc items tc tcs Hc Ht.
  unfold handleAssistantMessage. rewrite Hc, Ht.
  cbn [contentOrEmpty isTruthy toString default Datatypes.id].
  rewrite string_app_assoc.
  set (text := join "," _ +:+ LF +:+ join LF _).
  assert (Htrim : trimNonEmpty text = true).
  { subst text. rewrite !trimNonEmpty_app, join_notes_trim. now rewrite !orb_true_r. }
  clearbody text. destruct text as [|c text]; [discriminate Htrim |].
  cbn [JS.bind]. now rewrite Htrim.
Qed.

Lemma handleAssistantMessage_array_content_is_lost_witness :
  handleAssistantMessage
    {| role := "assistant"; content := CArr [ItemText "I will look it up."];
       tool_calls := Some [Sample.tc1]; tool_call_id := None; name := None |} [] =
  Ok [{| turn_role := "model";
         parts := [PText ("[object Object]" +:+ LF +:+
                     "[System Note: Model requested tool 'get_weather' with args: {}]")] |}].
Proof.
  apply (handleAssistantMessage_array_content_is_lost
           {| role := "assistant"; content := CArr [ItemText "I will look it up."];
              tool_calls := Some [Sample.tc1]; tool_call_id := None; name := None |}
           [] [ItemText "I will look it up."] Sample.tc1 [] eq_refl eq_refl).
Defined.
